(** * Patent relevance scoring pipeline: a shallow embedding

    The Python sources (models.py, validation.py, scoring_agent.py,
    swot_agent.py, signal_agents.py, reviewer_agent.py, triage_agent.py,
    hooks.py, pipeline.py, and of app.py the upload filter, the input
    checks of the evaluate route and the session manager) are embedded as
    Rocq functions.

    Conventions of the embedding:
    - a Python [float] is an exact rational ([Q]); the non-finite values
      that [json.loads] and [float()] can produce are kept apart in
      [pyfloat].  Rounding of binary64 arithmetic is not modelled;
    - a Python [str] is a [string] whose characters stand for the code
      points 0..255;
    - a raised exception is the [Raise] branch of [result]; the text of an
      exception message is abstracted to the place that raises it;
    - [json.loads], [float()] on a [str], the [.Nf] format specification,
      [round] and [str()] are library code: they are the fields of
      [Builtins];
    - the chat-completion service is an input: every call site receives a
      [completion]; the prompts sent to it are not modelled;
    - clock readings and time stamps are inputs of the functions that
      take them. *)

From Stdlib Require Import ZArith QArith Lia Lqa List String Ascii Bool.
From Stdlib Require Import Qround Qabs DecimalString PrimFloat.
Import ListNotations.

Close Scope Q_scope.
Open Scope string_scope.

(** ** Python values, exceptions and string methods *)
Module Py.

(** Where validation.ValidationError is raised in validate_dimension_score. *)
Inductive reason :=
| InvalidJSON          (* "Invalid JSON from ..." *)
| ScoreOutOfRange      (* "Score ... out of range [0-5]" *)
| InvalidScoreValue    (* "Invalid score value: ..." *)
| NoSources            (* "No sources provided" *)
| AllSourcesEmpty      (* "All sources are empty strings" *)
| NotesTooBrief        (* "Notes too brief or missing (min 5 chars)" *)
| LowConfidence        (* "Confidence ... below minimum ..." *)
| CreateFailed.        (* "Failed to create DimensionScore: ..." *)

Inductive exn :=
| ValidationError (why : reason)      (* validation.ValidationError *)
| PydanticValidationError (model : string)
| JSONDecodeError
| ValueError
| TypeError
| AttributeError
| IndexError
| KeyError
| OverflowError
| ZeroDivisionError
| APIError.                           (* the service call failed *)

Inductive result (A : Type) :=
| Ok (a : A)
| Raise (e : exn).
Arguments Ok {A} a.
Arguments Raise {A} e.

Definition bind {A B} (m : result A) (k : A -> result B) : result B :=
  match m with
  | Ok a => k a
  | Raise e => Raise e
  end.

Definition is_ok {A} (m : result A) : bool :=
  match m with Ok _ => true | Raise _ => false end.

(** A float as Python has it: a finite value or one of the specials. *)
Inductive pyfloat :=
| Finite (q : Q)
| PosInf
| NegInf
| NaN.

(** [a <= b] and [a < b] on floats; every comparison with NaN is false. *)
Definition fle (a b : pyfloat) : bool :=
  match a, b with
  | NaN, _ | _, NaN => false
  | NegInf, _ => true
  | _, PosInf => true
  | Finite x, Finite y => Qle_bool x y
  | _, _ => false
  end.

Definition flt (a b : pyfloat) : bool :=
  match a, b with
  | NaN, _ | _, NaN => false
  | PosInf, _ => false
  | _, NegInf => false
  | Finite x, Finite y => negb (Qle_bool y x)
  | _, _ => true
  end.

Definition Qlt_bool (x y : Q) : bool := negb (Qle_bool y x).

(** [float(n)] for an [int]: values beyond the binary64 range raise. *)
Definition float_max_int : Z := (2 ^ 1024 - 2 ^ 970)%Z.

Definition float_of_int (n : Z) : result pyfloat :=
  if (Z.abs n <? float_max_int)%Z then Ok (Finite (inject_Z n))
  else Raise OverflowError.

(** *** str *)

Definition nl : ascii := "010"%char.

(** [c.isspace()] for the code points below 256. *)
Definition is_space (c : ascii) : bool :=
  let n := nat_of_ascii c in
  (Nat.leb 9 n && Nat.leb n 13) || (Nat.leb 28 n && Nat.leb n 32)
  || Nat.eqb n 133 || Nat.eqb n 160.

Fixpoint lstrip (s : string) : string :=
  match s with
  | EmptyString => EmptyString
  | String c s' => if is_space c then lstrip s' else s
  end.

Fixpoint rstrip (s : string) : string :=
  match s with
  | EmptyString => EmptyString
  | String c s' =>
      match rstrip s' with
      | EmptyString => if is_space c then EmptyString else String c EmptyString
      | r => String c r
      end
  end.

(** [s.strip()] *)
Definition strip (s : string) : string := rstrip (lstrip s).

(** [s.lstrip(chars)] *)
Fixpoint mem_char (c : ascii) (chars : string) : bool :=
  match chars with
  | EmptyString => false
  | String d r => Ascii.eqb c d || mem_char c r
  end.

Fixpoint lstrip_chars (chars s : string) : string :=
  match s with
  | EmptyString => EmptyString
  | String c s' => if mem_char c chars then lstrip_chars chars s' else s
  end.

(** [s.startswith(p)] *)
Fixpoint startswith (s p : string) {struct p} : bool :=
  match p, s with
  | EmptyString, _ => true
  | String _ _, EmptyString => false
  | String a p', String b s' => Ascii.eqb a b && startswith s' p'
  end.

(** [s.endswith(p)] *)
Fixpoint endswith (s p : string) : bool :=
  String.eqb s p ||
  match s with
  | EmptyString => false
  | String _ s' => endswith s' p
  end.

(** [s[n:]] *)
Fixpoint drop (n : nat) (s : string) : string :=
  match n, s with
  | O, _ => s
  | S _, EmptyString => EmptyString
  | S k, String _ s' => drop k s'
  end.

(** [s[:n]] for [n >= 0] *)
Fixpoint take (n : nat) (s : string) : string :=
  match n, s with
  | O, _ => EmptyString
  | S _, EmptyString => EmptyString
  | S k, String c s' => String c (take k s')
  end.

(** [s[:-n]] for [n > 0] *)
Definition drop_last (n : nat) (s : string) : string :=
  take (String.length s - n) s.

(** [s.split(sep)] for a non-empty [sep]: the pieces between the
    occurrences of [sep], found left to right without overlap.  [skip]
    counts the characters of a separator still to be passed over and
    [cur] holds the current piece, reversed. *)
Fixpoint rev_string (acc s : string) : string :=
  match s with
  | EmptyString => acc
  | String c s' => rev_string (String c acc) s'
  end.

Fixpoint split_go (sep : string) (skip : nat) (cur s : string) : list string :=
  match s with
  | EmptyString => [rev_string EmptyString cur]
  | String c s' =>
      match skip with
      | S k => split_go sep k cur s'
      | O =>
          if startswith s sep
          then rev_string EmptyString cur
               :: split_go sep (String.length sep - 1) EmptyString s'
          else split_go sep 0 (String c cur) s'
      end
  end.

Definition split (s sep : string) : list string :=
  split_go sep 0 EmptyString s.

(** [l[i]] *)
Definition index {A} (l : list A) (i : nat) : result A :=
  match nth_error l i with
  | Some a => Ok a
  | None => Raise IndexError
  end.

(** [s.replace(a, b)] for single characters. *)
Fixpoint replace_char (a b : ascii) (s : string) : string :=
  match s with
  | EmptyString => EmptyString
  | String c s' =>
      String (if Ascii.eqb c a then b else c) (replace_char a b s')
  end.

(** [s.title()]: a letter that follows a letter is lower-cased, any other
    letter is upper-cased.  Only the ASCII letters are cased here; the
    dimension names are ASCII. *)
Definition is_upper (c : ascii) : bool :=
  let n := nat_of_ascii c in Nat.leb 65 n && Nat.leb n 90.
Definition is_lower (c : ascii) : bool :=
  let n := nat_of_ascii c in Nat.leb 97 n && Nat.leb n 122.
Definition to_upper (c : ascii) : ascii :=
  if is_lower c then ascii_of_nat (nat_of_ascii c - 32) else c.
Definition to_lower (c : ascii) : ascii :=
  if is_upper c then ascii_of_nat (nat_of_ascii c + 32) else c.

Fixpoint title_go (prev_cased : bool) (s : string) : string :=
  match s with
  | EmptyString => EmptyString
  | String c s' =>
      String (if prev_cased then to_lower c else to_upper c)
             (title_go (is_upper c || is_lower c) s')
  end.

Definition title (s : string) : string := title_go false s.

End Py.

Notation "x <- m ;; k" := (Py.bind m (fun x => k))
  (at level 61, m at next level, right associativity).
Notation "m ;;; k" := (Py.bind m (fun _ => k))
  (at level 61, right associativity).

(** ** Values decoded from JSON and the library functions used on them *)
Module Json.
Import Py.

#[warnings="-register-all"]
Inductive json :=
| JNull
| JBool (b : bool)
| JInt (n : Z)
| JFloat (f : pyfloat)
| JStr (s : string)
| JArr (l : list json)
| JObj (kv : list (string * json)).

(** Lookup in a dict kept in insertion order. *)
Fixpoint assoc {V} (k : string) (d : list (string * V)) : option V :=
  match d with
  | [] => None
  | (k', v) :: r => if String.eqb k k' then Some v else assoc k r
  end.

(** [d.get(k, dflt)] on a dict. *)
Definition dict_get {V} (d : list (string * V)) (k : string) (dflt : V) : V :=
  match assoc k d with
  | Some v => v
  | None => dflt
  end.

(** [data.get(k, dflt)] on a decoded value: only a dict has [get]. *)
Definition get (data : json) (k : string) (dflt : json) : result json :=
  match data with
  | JObj kv => Ok (dict_get kv k dflt)
  | _ => Raise AttributeError
  end.

(** [bool(v)] *)
Definition truthy (v : json) : bool :=
  match v with
  | JNull => false
  | JBool b => b
  | JInt n => negb (Z.eqb n 0)
  | JFloat (Finite q) => negb (Qeq_bool q 0)
  | JFloat _ => true
  | JStr s => negb (String.eqb s EmptyString)
  | JArr l => match l with [] => false | _ => true end
  | JObj kv => match kv with [] => false | _ => true end
  end.

(** [len(v)] *)
Definition len (v : json) : result nat :=
  match v with
  | JStr s => Ok (String.length s)
  | JArr l => Ok (List.length l)
  | JObj kv => Ok (List.length kv)
  | _ => Raise TypeError
  end.

(** [for x in v]: the items a loop visits. *)
Fixpoint chars (s : string) : list json :=
  match s with
  | EmptyString => []
  | String c r => JStr (String c EmptyString) :: chars r
  end.

Definition iter (v : json) : result (list json) :=
  match v with
  | JStr s => Ok (chars s)
  | JArr l => Ok l
  | JObj kv => Ok (map (fun p => JStr (fst p)) kv)
  | _ => Raise TypeError
  end.

(** The library functions the sources call. *)
Class Builtins := {
  json_loads : string -> option json;      (* None: JSONDecodeError *)
  float_of_str : string -> option pyfloat; (* None: ValueError *)
  format_f : nat -> Q -> string;           (* format(x, ".Nf") *)
  round_nd : Q -> nat -> Q;                (* round(x, n) *)
  str_of : json -> string                  (* str(v) of a value that is not a str *)
}.

Definition loads `{Builtins} (s : string) : result json :=
  match json_loads s with
  | Some v => Ok v
  | None => Raise JSONDecodeError
  end.

(** [float(v)] *)
Definition float `{Builtins} (v : json) : result pyfloat :=
  match v with
  | JInt n => float_of_int n
  | JFloat f => Ok f
  | JBool b => Ok (Finite (if b then 1%Q else 0%Q))
  | JStr s =>
      match float_of_str s with
      | Some f => Ok f
      | None => Raise ValueError
      end
  | JNull | JArr _ | JObj _ => Raise TypeError
  end.

(** [f"{v}"] *)
Definition fstr `{Builtins} (v : json) : string :=
  match v with
  | JStr s => s
  | _ => str_of v
  end.

End Json.

(** ** models.py *)
Module Models.
Import Py Json.

Record InventionInput := {
  idea_id : string;
  title : string;
  description : string;
  technical_domain : string;
  application_domains : list string
}.

Record TriagedInvention := {
  t_idea_id : string;
  core_concept : string;
  technical_keywords : list string;
  t_application_domains : list string;
  analysis_depth : string
}.

Record DimensionScore := {
  raw_score : Q;
  normalized_score : Q;
  sources : list string;
  agent : string;
  notes : string;
  confidence : Q
}.

Record SWOT := {
  strengths : list string;
  weaknesses : list string;
  opportunities : list string;
  threats : list string
}.

Record Evidence := {
  e_sources : list string;
  e_agent : string;
  e_notes : string
}.

Record PatentRelevanceOutput := {
  o_idea_id : string;
  dimension_scores : list (string * Q);
  normalized_scores : list (string * Q);
  patent_relevance_score : Q;
  swot : SWOT;
  o_confidence : string;
  evidence_map : list (string * Evidence);
  flags : list string;
  usage_summary : list (string * Z)
}.

(** *** What pydantic checks when a model is constructed *)

(** A field of type [str]. *)
Definition as_str (v : json) : option string :=
  match v with
  | JStr s => Some s
  | _ => None
  end.

(** A field of type [List[str]]. *)
Fixpoint all_str (l : list json) : option (list string) :=
  match l with
  | [] => Some []
  | JStr s :: r =>
      match all_str r with
      | Some r' => Some (s :: r')
      | None => None
      end
  | _ :: _ => None
  end.

Definition as_str_list (v : json) : option (list string) :=
  match v with
  | JArr l => all_str l
  | _ => None
  end.

(** A [float] field with [ge=lo, le=hi]. *)
Definition as_float_in (lo hi : Q) (f : pyfloat) : option Q :=
  match f with
  | Finite q => if Qle_bool lo q && Qle_bool q hi then Some q else None
  | _ => None
  end.

(** An [int] field given a number: a fractional part is refused. *)
Definition as_int (q : Q) : option Z :=
  let r := Qred q in
  if Pos.eqb (Qden r) 1 then Some (Qnum r) else None.

Definition blank (s : string) : bool :=
  String.eqb (strip s) EmptyString.

(** [DimensionScore.validate_sources] after [min_length=1]. *)
Definition sources_ok (v : list string) : bool :=
  Nat.leb 1 (List.length v) && forallb (fun s => negb (blank s)) v.

(** [DimensionScore.validate_notes] after [min_length=5]. *)
Definition notes_ok (v : string) : bool :=
  Nat.leb 5 (String.length v) && Nat.leb 5 (String.length (strip v)).

(** [DimensionScore(raw_score=.., normalized_score=.., sources=..,
    agent=.., notes=.., confidence=..)] *)
Definition DimensionScore_new (raw norm : pyfloat) (srcs : json)
    (name : string) (nts : json) (conf : pyfloat) : result DimensionScore :=
  match as_float_in 0 5 raw, as_float_in 0 100 norm,
        as_str_list srcs, as_str nts, as_float_in 0 1 conf with
  | Some r, Some n, Some s, Some t, Some c =>
      if sources_ok s && notes_ok t
      then Ok {| raw_score := r; normalized_score := n; sources := s;
                 agent := name; notes := t; confidence := c |}
      else Raise (PydanticValidationError "DimensionScore")
  | _, _, _, _, _ => Raise (PydanticValidationError "DimensionScore")
  end.

(** [SWOT(strengths=.., weaknesses=.., opportunities=.., threats=..)]
    with [validate_swot]. *)
Definition nonempty {A} (l : list A) : bool :=
  match l with [] => false | _ => true end.

Definition SWOT_new (s w o t : list string) : result SWOT :=
  if nonempty s || nonempty w || nonempty o || nonempty t
  then Ok {| strengths := s; weaknesses := w;
             opportunities := o; threats := t |}
  else Raise (PydanticValidationError "SWOT").

(** [TriagedInvention(...)] *)
Definition is_depth (s : string) : bool :=
  String.eqb s "triage" || String.eqb s "full".

Definition TriagedInvention_new (id : string) (concept keywords domains depth : json)
    : result TriagedInvention :=
  match as_str concept, as_str_list keywords, as_str_list domains, as_str depth with
  | Some c, Some k, Some d, Some a =>
      if is_depth a
      then Ok {| t_idea_id := id; core_concept := c; technical_keywords := k;
                 t_application_domains := d; analysis_depth := a |}
      else Raise (PydanticValidationError "TriagedInvention")
  | _, _, _, _ => Raise (PydanticValidationError "TriagedInvention")
  end.

(** [PatentRelevanceOutput(...)]: [patent_relevance_score] in [0,100],
    [confidence] one of the three literals, [flags] a list of [str],
    [usage_summary] integers. *)
Definition is_level (s : string) : bool :=
  String.eqb s "low" || String.eqb s "medium" || String.eqb s "high".

Fixpoint all_int (d : list (string * Q)) : option (list (string * Z)) :=
  match d with
  | [] => Some []
  | (k, q) :: r =>
      match as_int q, all_int r with
      | Some z, Some r' => Some ((k, z) :: r')
      | _, _ => None
      end
  end.

Definition PatentRelevanceOutput_new (id : string)
    (raw norm : list (string * Q)) (prs : Q) (sw : SWOT) (conf : json)
    (ev : list (string * Evidence)) (fl : json) (usage : list (string * Q))
    : result PatentRelevanceOutput :=
  match as_float_in 0 100 (Finite prs), as_str conf, as_str_list fl, all_int usage with
  | Some p, Some c, Some f, Some u =>
      if is_level c
      then Ok {| o_idea_id := id; dimension_scores := raw;
                 normalized_scores := norm; patent_relevance_score := p;
                 swot := sw; o_confidence := c; evidence_map := ev;
                 flags := f; usage_summary := u |}
      else Raise (PydanticValidationError "PatentRelevanceOutput")
  | _, _, _, _ => Raise (PydanticValidationError "PatentRelevanceOutput")
  end.

(** [SCORING_WEIGHTS] *)
Definition SCORING_WEIGHTS : list (string * Q) :=
  [ ("tech_momentum", 0.20%Q);
    ("market_gravity", 0.25%Q);
    ("white_space", 0.20%Q);
    ("strategic_leverage", 0.15%Q);
    ("timing", 0.10%Q);
    ("regulatory_alignment", 0.10%Q) ].

(** [InventionInput(idea_id=.., title=.., description=..,
    technical_domain=.., application_domains=..)]: [title] has
    [min_length=5], [description] has [min_length=20] and
    [validate_description]. *)
Definition InventionInput_new (id ttl desc domain : string)
    (domains : list string) : result InventionInput :=
  if Nat.leb 5 (String.length ttl) && Nat.leb 20 (String.length desc)
     && negb (Nat.ltb (String.length (strip desc)) 20)
  then Ok {| idea_id := id; title := ttl; description := desc;
             technical_domain := domain; application_domains := domains |}
  else Raise (PydanticValidationError "InventionInput").

End Models.

(** ** try / except *)
Module Exc.
Import Py.

(** [except C] catches the instances of [C] and of its subclasses:
    json.JSONDecodeError derives from ValueError. *)
Definition is_ValueError (e : exn) : bool :=
  match e with ValueError | JSONDecodeError => true | _ => false end.
Definition is_TypeError (e : exn) : bool :=
  match e with TypeError => true | _ => false end.
Definition is_JSONDecodeError (e : exn) : bool :=
  match e with JSONDecodeError => true | _ => false end.
Definition is_ValidationError (e : exn) : bool :=
  match e with ValidationError _ => true | _ => false end.
Definition is_Exception (e : exn) : bool := true.

Definition try_except {A} (body : result A) (catches : exn -> bool)
    (handler : exn -> result A) : result A :=
  match body with
  | Ok a => Ok a
  | Raise e => if catches e then handler e else Raise e
  end.

End Exc.

(** ** validation.py *)
Module Validation.
Import Py Json Models Exc.

Definition fence : string := "```".

(** [(x / 5) * 100] on a float. *)
Definition normalize (x : pyfloat) : pyfloat :=
  match x with
  | Finite q => Finite (q / 5 * 100)%Q
  | other => other
  end.

(** The comprehension
    [[s.strip() for s in sources if isinstance(s, str) and s.strip()]]. *)
Fixpoint clean_sources (l : list json) : list string :=
  match l with
  | [] => []
  | JStr s :: r =>
      if blank s then clean_sources r else strip s :: clean_sources r
  | _ :: r => clean_sources r
  end.

(** [OutputValidator.validate_dimension_score]; [raw_json] is the [str]
    every caller passes. *)
Definition validate_dimension_score `{Builtins} (raw_json agent_name : string)
    (min_confidence : Q) : result DimensionScore :=
  (* Parse JSON *)
  data <- try_except (loads raw_json) is_JSONDecodeError
            (fun _ => Raise (ValidationError InvalidJSON)) ;;
  (* Extract and validate score *)
  score <- try_except
             (v <- get data "aggregate_score" (JInt 0) ;;
              score <- float v ;;
              if fle (Finite 0) score && fle score (Finite 5)
              then Ok score
              else Raise (ValidationError ScoreOutOfRange))
             (fun e => is_ValueError e || is_TypeError e)
             (fun _ => Raise (ValidationError InvalidScoreValue)) ;;
  (* Extract sources *)
  srcs <- get data "sources" (JArr []) ;;
  items <- match srcs with
           | JArr (x :: r) => Ok (x :: r)
           | _ => Raise (ValidationError NoSources)
           end ;;
  let srcs := clean_sources items in
  (if nonempty srcs then Ok tt else Raise (ValidationError AllSourcesEmpty)) ;;;
  (* Extract notes *)
  nts <- get data "notes" (JStr EmptyString) ;;
  nts <- match nts with
         | JStr s =>
             if Nat.ltb (String.length (strip s)) 5
             then Raise (ValidationError NotesTooBrief)
             else Ok s
         | _ => Raise (ValidationError NotesTooBrief)
         end ;;
  (* Extract confidence if provided *)
  c <- get data "confidence" (JFloat (Finite 0.5%Q)) ;;
  conf <- float c ;;
  (if flt conf (Finite min_confidence)
   then Raise (ValidationError LowConfidence) else Ok tt) ;;;
  (* Build validated DimensionScore *)
  try_except
    (DimensionScore_new score (normalize score) (JArr (map JStr srcs))
       agent_name (JStr (strip nts)) conf)
    is_Exception
    (fun _ => Raise (ValidationError CreateFailed)).

(** [str(n)] for an [int]. *)
Definition str_of_int (n : Z) : string :=
  NilZero.string_of_int (Z.to_int n).

(** [sum(...)]: starts from 0 and adds from the left. *)
Definition sum (l : list Q) : Q := fold_left Qplus l 0%Q.

(** [a / b] *)
Definition div (a b : Q) : result Q :=
  if Qeq_bool b 0 then Raise ZeroDivisionError else Ok (a / b)%Q.

Definition too_few_issue (n required : Z) : string :=
  "Only " ++ str_of_int n ++ " dimensions provided, expected "
  ++ str_of_int required.

Definition low_confidence_issue `{Builtins} (avg : Q) : string :=
  "Average confidence " ++ format_f 2 avg ++ " is very low (< 0.3)".

Definition high_score_issue `{Builtins} (s : DimensionScore) : string :=
  agent s ++ ": High score " ++ format_f 1 (normalized_score s)
  ++ " with low confidence " ++ format_f 2 (confidence s).

Definition overconfident (s : DimensionScore) : bool :=
  Qlt_bool 95 (normalized_score s) && Qlt_bool (confidence s) 0.6.

(** The final [for score in scores] loop, appending to [issues]. *)
Fixpoint flag_overconfident `{Builtins} (issues : list string)
    (scores : list DimensionScore) : list string :=
  match scores with
  | [] => issues
  | s :: r =>
      flag_overconfident
        (if overconfident s then (issues ++ [high_score_issue s])%list else issues) r
  end.

(** [OutputValidator.validate_multiple_scores] *)
Definition validate_multiple_scores `{Builtins} (scores : list DimensionScore)
    (required_dimensions : Z) : result (bool * list string) :=
  let issues : list string := [] in
  let n := Z.of_nat (List.length scores) in
  let issues :=
    if (n <? required_dimensions)%Z
    then (issues ++ [too_few_issue n required_dimensions])%list else issues in
  avg_confidence <-
    (if nonempty scores
     then div (sum (map confidence scores)) (inject_Z n)
     else Ok 0%Q) ;;
  let issues :=
    if Qlt_bool avg_confidence 0.3
    then (issues ++ [low_confidence_issue avg_confidence])%list else issues in
  let issues := flag_overconfident issues scores in
  Ok (Nat.eqb (List.length issues) 0, issues).

(** [sanitize_llm_output] *)
Definition sanitize_llm_output (raw_text : string) : result string :=
  let text := strip raw_text in
  (* Remove markdown code blocks *)
  text <- (if startswith text fence
           then text <- index (split text fence) 1 ;;
                Ok (if startswith text "json" then drop 4 text else text)
           else Ok text) ;;
  let text := if endswith text fence then drop_last 3 text else text in
  Ok (strip text).

End Validation.

(** ** scoring_agent.py *)
Module ScoringAgent.
Import Py Json Models.

(** [d[k]] *)
Definition getitem {V} (d : list (string * V)) (k : string) : result V :=
  match assoc k d with
  | Some v => Ok v
  | None => Raise KeyError
  end.

(** The generator [normalized_scores[dimension] * weight for dimension,
    weight in weights.items()], consumed by [sum] from the left. *)
Fixpoint weighted_sum (acc : Q) (normalized_scores weights : list (string * Q))
    : result Q :=
  match weights with
  | [] => Ok acc
  | (dimension, weight) :: r =>
      v <- getitem normalized_scores dimension ;;
      weighted_sum (acc + v * weight)%Q normalized_scores r
  end.

Definition evidence_of (s : DimensionScore) : Evidence :=
  {| e_sources := sources s; e_agent := agent s; e_notes := notes s |}.

(** [ScoringAgent.calculate_prs]; [self.weights] is [SCORING_WEIGHTS]. *)
Definition calculate_prs (tech_momentum market_gravity white_space
    strategic_leverage timing regulatory_alignment : DimensionScore)
    : result (Q * list (string * Q) * list (string * Q) * list (string * Evidence)) :=
  (* Collect raw scores *)
  let raw_scores :=
    [ ("tech_momentum", raw_score tech_momentum);
      ("market_gravity", raw_score market_gravity);
      ("white_space", raw_score white_space);
      ("strategic_leverage", raw_score strategic_leverage);
      ("timing", raw_score timing);
      ("regulatory_alignment", raw_score regulatory_alignment) ] in
  (* Normalize scores (0-100) *)
  let normalized_scores :=
    map (fun kv => (fst kv, (snd kv / 5 * 100)%Q)) raw_scores in
  (* Calculate weighted PRS *)
  prs <- weighted_sum 0 normalized_scores SCORING_WEIGHTS ;;
  (* Build evidence map *)
  let evidence_map :=
    [ ("tech_momentum", evidence_of tech_momentum);
      ("market_gravity", evidence_of market_gravity);
      ("white_space", evidence_of white_space);
      ("strategic_leverage", evidence_of strategic_leverage);
      ("timing", evidence_of timing);
      ("regulatory_alignment", evidence_of regulatory_alignment) ] in
  Ok (prs, raw_scores, normalized_scores, evidence_map).

End ScoringAgent.

(** ** swot_agent.py *)
Module SWOTAgent.
Import Py Json Models ScoringAgent.

(** [SWOTAgent._format_dimension] *)
Definition _format_dimension (dimension : string) : string :=
  Py.title (replace_char "_"%char " "%char dimension).

Definition entry `{Builtins} (kv : string * Q) : string :=
  _format_dimension (fst kv) ++ ": " ++ format_f 1 (snd kv) ++ "/100".

(** The two loops over [normalized_scores.items()]. *)
Definition strong (kv : string * Q) : bool := Qle_bool 70 (snd kv).
Definition weak (kv : string * Q) : bool := Qle_bool (snd kv) 40.

Fixpoint collect `{Builtins} (keep : string * Q -> bool) (out : list string)
    (items : list (string * Q)) : list string :=
  match items with
  | [] => out
  | kv :: r => collect keep (if keep kv then (out ++ [entry kv])%list else out) r
  end.

(** One of the four keyed rules: [if test(d.get(key, dflt)):
    out.append(f"label ({d[key]:.1f}/100)")]. *)
Definition keyed_rule `{Builtins} (test : Q -> bool) (key label : string)
    (dflt : Q) (d : list (string * Q)) (out : list string) : result (list string) :=
  if test (dict_get d key dflt)
  then v <- getitem d key ;;
       Ok (out ++ [(label ++ " (" ++ format_f 1 v ++ "/100)")%string])%list
  else Ok out.

Definition at_least_65 (x : Q) : bool := Qle_bool 65 x.
Definition at_most_40 (x : Q) : bool := Qle_bool x 40.

(** The four lists built before the [SWOT] is constructed. *)
Definition swot_lists `{Builtins} (normalized_scores : list (string * Q))
    : result (list string * list string * list string * list string) :=
  (* Strengths: >= 70 *)
  let strengths := collect strong [] normalized_scores in
  (* Weaknesses: <= 40 *)
  let weaknesses := collect weak [] normalized_scores in
  (* Opportunities: Market Gravity or Timing >= 65 *)
  opportunities <- keyed_rule at_least_65 "market_gravity"
                     "Strong market potential" 0 normalized_scores [] ;;
  opportunities <- keyed_rule at_least_65 "timing"
                     "Favorable timing" 0 normalized_scores opportunities ;;
  (* Threats: Regulatory Alignment <= 40 OR White Space <= 40 *)
  threats <- keyed_rule at_most_40 "regulatory_alignment"
               "Regulatory friction" 100 normalized_scores [] ;;
  threats <- keyed_rule at_most_40 "white_space"
               "Crowded market" 100 normalized_scores threats ;;
  Ok (strengths, weaknesses, opportunities, threats).

(** [SWOTAgent.generate_swot] *)
Definition generate_swot `{Builtins} (normalized_scores : list (string * Q))
    : result SWOT :=
  l <- swot_lists normalized_scores ;;
  let '(strengths, weaknesses, opportunities, threats) := l in
  SWOT_new strengths weaknesses opportunities threats.

End SWOTAgent.

(** ** The chat-completion service *)
Module Service.
Import Py.

(** What one call to [client.chat.completions.create] gives: a message
    with text, a message without content, or a failed call. *)
Inductive completion :=
| Content (text : string)
| NoContent
| Failed.

(** [response.choices[0].message.content.strip()] *)
Definition content_strip (r : completion) : result string :=
  match r with
  | Content text => Ok (strip text)
  | NoContent => Raise AttributeError
  | Failed => Raise APIError
  end.

(** The unwrapping every agent but the two guardrailed ones repeats:
    [if text.startswith(fence): text = text.split(fence)[1].lstrip("json\n")]
    then [if text.endswith(fence): text = text[:-3]]. *)
Definition json_nl : string := "json" ++ String nl EmptyString.

Definition unfence (text : string) : result string :=
  text <- (if startswith text "```"
           then t <- index (split text "```") 1 ;;
                Ok (lstrip_chars json_nl t)
           else Ok text) ;;
  Ok (if endswith text "```" then drop_last 3 text else text).

End Service.

(** ** signal_agents.py *)
Module SignalAgents.
Import Py Json Models Exc Validation Service.

(** The [except ValidationError] branch of the guardrailed agents. *)
Definition fallback (name : string) : result DimensionScore :=
  DimensionScore_new (Finite 2.5%Q) (Finite 50.0%Q)
    (JArr [JStr "fallback_default"]) name
    (JStr "Validation error occurred; using default score") (Finite 0.3%Q).

(** The [try] body and handler shared, text for text, by
    [TechnologySignalAgent.compute_signal] and
    [MarketSignalAgent.compute_signal]. *)
Definition guardrailed_compute_signal `{Builtins} (name : string)
    (response : completion) : result DimensionScore :=
  try_except
    (raw_text <- content_strip response ;;
     clean_json <- sanitize_llm_output raw_text ;;
     (* Validate and parse output *)
     validate_dimension_score clean_json name 0.3%Q)
    is_ValidationError
    (fun _ => fallback name).

(** The body shared by the four agents without a guardrail. *)
Definition plain_compute_signal `{Builtins} (name : string)
    (default_sources : json) (response : completion) : result DimensionScore :=
  text <- content_strip response ;;
  text <- unfence text ;;
  result <- loads text ;;
  a <- get result "aggregate_score" (JFloat (Finite 2.5%Q)) ;;
  raw <- float a ;;
  a' <- get result "aggregate_score" (JFloat (Finite 2.5%Q)) ;;
  raw' <- float a' ;;
  srcs <- get result "sources" default_sources ;;
  nts <- get result "notes" (JStr EmptyString) ;;
  DimensionScore_new raw (normalize raw') srcs name nts (Finite 0.5%Q).

Definition TechnologySignalAgent `{Builtins} : completion -> result DimensionScore :=
  guardrailed_compute_signal "TechnologySignalAgent".

Definition MarketSignalAgent `{Builtins} : completion -> result DimensionScore :=
  guardrailed_compute_signal "MarketSignalAgent".

Definition ProductLandscapeAgent `{Builtins} : completion -> result DimensionScore :=
  plain_compute_signal "ProductLandscapeAgent" (JArr [JStr "LLM analysis"]).

Definition RegulatorySignalAgent `{Builtins} : completion -> result DimensionScore :=
  plain_compute_signal "RegulatorySignalAgent" (JArr [JStr "LLM analysis"]).

Definition StrategicLeverageAgent `{Builtins} : completion -> result DimensionScore :=
  plain_compute_signal "StrategicLeverageAgent"
    (JArr [JStr "architectural reasoning"]).

Definition TimingAgent `{Builtins} : completion -> result DimensionScore :=
  plain_compute_signal "TimingAgent" (JArr [JStr "LLM analysis"]).

End SignalAgents.

(** ** reviewer_agent.py and triage_agent.py *)
Module ReviewerAgent.
Import Py Json Models Service.

(** [ReviewerAgent.review]: the scores and the evidence only enter the
    prompt; the answer is the service's. *)
Definition review `{Builtins} (raw_scores : list (string * Q))
    (evidence_map : list (string * Evidence)) (response : completion)
    : result (json * json) :=
  text <- content_strip response ;;
  text <- unfence text ;;
  result <- loads text ;;
  c <- get result "confidence" (JStr "medium") ;;
  f <- get result "flags" (JArr []) ;;
  Ok (c, f).

End ReviewerAgent.

Module TriageOrchestrator.
Import Py Json Models Service.

(** [TriageOrchestrator.triage] *)
Definition triage `{Builtins} (invention : InventionInput)
    (response : completion) : result TriagedInvention :=
  response_text <- content_strip response ;;
  response_text <- unfence response_text ;;
  triage_data <- loads response_text ;;
  c <- get triage_data "core_concept" (JStr EmptyString) ;;
  k <- get triage_data "technical_keywords" (JArr []) ;;
  d <- get triage_data "application_domains" (JArr []) ;;
  a <- get triage_data "analysis_depth" (JStr "full") ;;
  TriagedInvention_new (idea_id invention) c k d a.

End TriageOrchestrator.

(** ** hooks.py *)
Module Hooks.
Import Py Json.

(** [AgentMetrics]; the two clock readings are left out. *)
Record AgentMetrics := {
  agent_name : string;
  duration_seconds : Q;
  tokens_used : Z;
  input_tokens : Z;
  output_tokens : Z
}.

Record PipelineHooks := {
  metrics : list (string * AgentMetrics);
  all_flags : list string;
  total_tokens : Z;
  total_cost : Q
}.

(** [PipelineHooks()] *)
Definition init : PipelineHooks :=
  {| metrics := []; all_flags := []; total_tokens := 0; total_cost := 0 |}.

(** [d[k] = v] *)
Fixpoint setitem {V} (d : list (string * V)) (k : string) (v : V)
    : list (string * V) :=
  match d with
  | [] => [(k, v)]
  | (k', v') :: r =>
      if String.eqb k k' then (k', v) :: r else (k', v') :: setitem r k v
  end.

Definition on_agent_start (self : PipelineHooks) (name : string) : PipelineHooks :=
  {| metrics := setitem (metrics self) name
                  {| agent_name := name; duration_seconds := 0;
                     tokens_used := 0; input_tokens := 0; output_tokens := 0 |};
     all_flags := all_flags self;
     total_tokens := total_tokens self;
     total_cost := total_cost self |}.

Definition add_flag (self : PipelineHooks) (flag : string) : PipelineHooks :=
  {| metrics := metrics self;
     all_flags := (all_flags self ++ [flag])%list;
     total_tokens := total_tokens self;
     total_cost := total_cost self |}.

Definition on_validation_error (self : PipelineHooks) (name error_msg : string)
    : PipelineHooks :=
  add_flag self ("VALIDATION_ERROR in " ++ name ++ ": " ++ error_msg).

(** [on_quality_check] on the items a loop over [quality_issues] visits. *)
Definition on_quality_check `{Builtins} (self : PipelineHooks) (name : string)
    (quality_issues : list json) : PipelineHooks :=
  fold_left
    (fun h issue => add_flag h ("QUALITY_ISSUE in " ++ name ++ ": " ++ fstr issue))
    quality_issues self.

(** [on_score_generated] and [on_pipeline_complete] only print. *)
Definition on_score_generated (self : PipelineHooks) (dimension : string)
    (raw_score confidence : Q) (sources_count : nat) : PipelineHooks := self.

Definition on_pipeline_complete (self : PipelineHooks) : PipelineHooks := self.

(** The four entries of [get_summary()] that the pipeline reads. *)
Definition summary_total_duration (self : PipelineHooks) : Q :=
  fold_left Qplus (map (fun kv => duration_seconds (snd kv)) (metrics self)) 0%Q.

(** The prices [PipelineHooks.__init__] sets. *)
Definition cost_per_1k_input : Q := 0.015%Q.
Definition cost_per_1k_output : Q := 0.06%Q.

(** [on_agent_end]; [elapsed] is the difference of the two clock readings
    that [finalize] stores as [duration_seconds]. *)
Definition on_agent_end (self : PipelineHooks) (name : string) (elapsed : Q)
    (input_tokens output_tokens : Z) : PipelineHooks :=
  match assoc name (metrics self) with
  | Some m =>
      let m' := {| agent_name := agent_name m;
                   duration_seconds := elapsed;
                   tokens_used := (input_tokens + output_tokens)%Z;
                   input_tokens := input_tokens;
                   output_tokens := output_tokens |} in
      (* Calculate cost for this agent *)
      let agent_cost :=
        ((inject_Z input_tokens * cost_per_1k_input
          + inject_Z output_tokens * cost_per_1k_output) / 1000)%Q in
      {| metrics := setitem (metrics self) name m';
         all_flags := all_flags self;
         total_tokens := (total_tokens self + tokens_used m')%Z;
         total_cost := (total_cost self + agent_cost)%Q |}
  | None => self
  end.

End Hooks.

(** ** pipeline.py *)
Module Pipeline.
Import Py Json Models Exc Validation ScoringAgent SWOTAgent SignalAgents
       ReviewerAgent TriageOrchestrator Service Hooks.

(** What the service answers at the eight call sites of one evaluation. *)
Record Responses := {
  r_triage : completion;
  r_tech : completion;
  r_market : completion;
  r_product : completion;
  r_regulatory : completion;
  r_strategic : completion;
  r_timing : completion;
  r_reviewer : completion
}.

(** A step of [evaluate]: it may raise, and it may update [self.hooks]
    ([None] when hooks are disabled). *)
Definition step (A : Type) : Type :=
  option PipelineHooks -> result A * option PipelineHooks.

Definition lift {A} (r : result A) : step A := fun h => (r, h).

Definition seq {A B} (m : step A) (k : A -> step B) : step B :=
  fun h =>
    match m h with
    | (Ok a, h') => k a h'
    | (Raise e, h') => (Raise e, h')
    end.

(** [if self.hooks: self.hooks.f(...)] *)
Definition hook (f : PipelineHooks -> PipelineHooks) : step unit :=
  fun h => (Ok tt, option_map f h).

Definition read_hooks : step (option PipelineHooks) := fun h => (Ok h, h).

Definition agent_names : list string :=
  [ "TechnologySignalAgent"; "MarketSignalAgent"; "ProductLandscapeAgent";
    "RegulatorySignalAgent"; "StrategicLeverageAgent"; "TimingAgent" ].

(** The usage metrics taken from [hooks.get_summary()]. *)
Definition usage_of `{Builtins} (h : option PipelineHooks) : list (string * Q) :=
  match h with
  | Some hooks =>
      [ ("total_tokens", inject_Z (total_tokens hooks));
        ("estimated_cost", round_nd (total_cost hooks) 4);
        ("duration_seconds", round_nd (summary_total_duration hooks) 2);
        ("agents_executed", inject_Z (Z.of_nat (List.length (metrics hooks)))) ]
  | None => []
  end.

Local Notation "x <~ m ;; k" := (seq m (fun x => k))
  (at level 61, m at next level, right associativity).
Local Notation "m ~;; k" := (seq m (fun _ => k))
  (at level 61, right associativity).

(** [PatentRelevancePipeline.evaluate].  The six agent coroutines never
    suspend, so [asyncio.gather] runs them in the order given and the
    first exception is the one raised.  Of the calls to [print] only the
    expressions that can raise are kept. *)
Definition evaluate `{Builtins} (invention : InventionInput) (llm : Responses)
    : step PatentRelevanceOutput :=
  (* Step 1: Triage *)
  triaged <~ lift (triage invention (r_triage llm)) ;;
  (* Step 2: Signal agents *)
  hook (fun h => fold_left on_agent_start agent_names h) ~;;
  tech_score <~ lift (TechnologySignalAgent (r_tech llm)) ;;
  market_score <~ lift (MarketSignalAgent (r_market llm)) ;;
  product_score <~ lift (ProductLandscapeAgent (r_product llm)) ;;
  regulatory_score <~ lift (RegulatorySignalAgent (r_regulatory llm)) ;;
  strategic_score <~ lift (StrategicLeverageAgent (r_strategic llm)) ;;
  timing_score <~ lift (TimingAgent (r_timing llm)) ;;
  (* Step 3: Validate scores *)
  v <~ lift (validate_multiple_scores
               [tech_score; market_score; product_score; regulatory_score;
                strategic_score; timing_score] 6) ;;
  let '(is_valid, validation_issues) := v in
  (if is_valid then lift (Ok tt)
   else hook (fun h =>
                fold_left (fun h issue => on_validation_error h "signals_batch" issue)
                  validation_issues h)) ~;;
  (* Log scores with confidence *)
  let signals_dict :=
    [ ("tech_momentum", tech_score); ("market_gravity", market_score);
      ("white_space", product_score); ("regulatory_alignment", regulatory_score);
      ("strategic_leverage", strategic_score); ("timing", timing_score) ] in
  hook (fun h =>
          fold_left
            (fun h kv =>
               on_score_generated h (fst kv) (raw_score (snd kv))
                 (confidence (snd kv)) (List.length (sources (snd kv))))
            signals_dict h) ~;;
  (* Step 4: Scoring *)
  s <~ lift (calculate_prs tech_score market_score product_score
               strategic_score timing_score regulatory_score) ;;
  let '(prs, raw_scores, normalized_scores, evidence_map) := s in
  (* Step 5: Review *)
  r <~ lift (review raw_scores evidence_map (r_reviewer llm)) ;;
  let '(confidence, flags) := r in
  (* confidence.upper() *)
  lift (match confidence with JStr _ => Ok tt | _ => Raise AttributeError end) ~;;
  (if truthy flags
   then lift (len flags) ~;;
        items <~ lift (iter flags) ;;
        hook (fun h => on_quality_check h "reviewer" items)
   else lift (Ok tt)) ~;;
  (* Step 6: SWOT *)
  swot <~ lift (generate_swot normalized_scores) ;;
  (* Build final output with usage metrics *)
  hooks <~ read_hooks ;;
  let usage_summary := usage_of hooks in
  output <~ lift (PatentRelevanceOutput_new (idea_id invention) raw_scores
                    normalized_scores prs swot confidence evidence_map flags
                    usage_summary) ;;
  (* Print execution summary *)
  hook on_pipeline_complete ~;;
  lift (Ok output).

End Pipeline.

(** ** app.py: the upload filter *)
Module App.
Import Py.

(** [ALLOWED_EXTENSIONS] *)
Definition ALLOWED_EXTENSIONS : list string :=
  ["txt"; "pdf"; "png"; "jpg"; "jpeg"; "gif"].

(** [sep in s] for a single character. *)
Fixpoint has_char (c : ascii) (s : string) : bool :=
  match s with
  | EmptyString => false
  | String a r => Ascii.eqb a c || has_char c r
  end.

(** [s.rsplit(c, 1)]: split at the last [c], if there is one. *)
Fixpoint rsplit1 (c : ascii) (s : string) : list string :=
  match s with
  | EmptyString => [EmptyString]
  | String a r =>
      match rsplit1 c r with
      | [x; y] => [String a x; y]
      | _ => if Ascii.eqb a c then [EmptyString; r] else [s]
      end
  end.

(** [s.lower()]; only the ASCII letters are mapped, which decides
    membership in [ALLOWED_EXTENSIONS] for the code points below 256. *)
Fixpoint lower (s : string) : string :=
  match s with
  | EmptyString => EmptyString
  | String a r => String (to_lower a) (lower r)
  end.

Definition mem (s : string) (l : list string) : bool :=
  existsb (String.eqb s) l.

(** [allowed_file] *)
Definition allowed_file (filename : string) : result bool :=
  if has_char "." filename
  then ext <- index (rsplit1 "." filename) 1 ;;
       Ok (mem (lower ext) ALLOWED_EXTENSIONS)
  else Ok false.

(** [evaluate], the route, from the fields of the posted form to the
    [InventionInput] it builds: [Rejected] is a 400 answer with its
    error, [Built] the outcome of the constructor call. *)
Inductive checked (A : Type) :=
| Rejected (error : string)
| Built (r : result A).
Arguments Rejected {A} error.
Arguments Built {A} r.

Definition evaluate_input (session_id raw_title raw_description raw_domain : string)
    (application_domains : list string) : checked Models.InventionInput :=
  let title := strip raw_title in
  let description := strip raw_description in
  let technical_domain := strip raw_domain in
  (* Validate input *)
  if String.eqb title EmptyString || Nat.ltb (String.length title) 5
  then Rejected "Title must be at least 5 characters"
  else if String.eqb description EmptyString
          || Nat.ltb (String.length description) 20
  then Rejected "Description must be at least 20 characters"
  else Built (Models.InventionInput_new session_id title description
                technical_domain
                (match application_domains with
                 | [] => ["General"]
                 | _ => application_domains
                 end)).

(** *** [SessionManager]

    The time stamps are what [datetime.now().isoformat()] gave. *)
Record ProgressEntry := {
  p_message : string;
  p_level : string;
  p_timestamp : string
}.

Record Session := {
  session_status : string;
  session_progress : list ProgressEntry;
  session_result : option Json.json;
  session_error : option string;
  session_start_time : string
}.

Record SessionManager := {
  sessions : list (string * Session);
  current_session_id : option string
}.

(** [SessionManager()] *)
Definition new_manager : SessionManager :=
  {| sessions := []; current_session_id := None |}.

Definition create_session (self : SessionManager) (session_id now : string)
    : SessionManager :=
  {| sessions := Hooks.setitem (sessions self) session_id
                   {| session_status := "pending"; session_progress := [];
                      session_result := None; session_error := None;
                      session_start_time := now |};
     current_session_id := Some session_id |}.

(** [if session_id in self.sessions: self.sessions[session_id][..] = ..] *)
Definition update (self : SessionManager) (session_id : string)
    (f : Session -> Session) : SessionManager :=
  match Json.assoc session_id (sessions self) with
  | Some s =>
      {| sessions := Hooks.setitem (sessions self) session_id (f s);
         current_session_id := current_session_id self |}
  | None => self
  end.

Definition update_progress (self : SessionManager) (session_id message level now : string)
    : SessionManager :=
  update self session_id
    (fun s =>
       {| session_status := session_status s;
          session_progress :=
            (session_progress s
             ++ [{| p_message := message; p_level := level; p_timestamp := now |}])%list;
          session_result := session_result s;
          session_error := session_error s;
          session_start_time := session_start_time s |}).

Definition set_status (self : SessionManager) (session_id status : string)
    : SessionManager :=
  update self session_id
    (fun s =>
       {| session_status := status;
          session_progress := session_progress s;
          session_result := session_result s;
          session_error := session_error s;
          session_start_time := session_start_time s |}).

Definition set_result (self : SessionManager) (session_id : string)
    (result : Json.json) : SessionManager :=
  update self session_id
    (fun s =>
       {| session_status := session_status s;
          session_progress := session_progress s;
          session_result := Some result;
          session_error := session_error s;
          session_start_time := session_start_time s |}).

Definition set_error (self : SessionManager) (session_id error : string)
    : SessionManager :=
  update self session_id
    (fun s =>
       {| session_status := session_status s;
          session_progress := session_progress s;
          session_result := session_result s;
          session_error := Some error;
          session_start_time := session_start_time s |}).

(** [get_session]: [None] is the empty dict returned for an unknown id. *)
Definition get_session (self : SessionManager) (session_id : string)
    : option Session :=
  Json.assoc session_id (sessions self).

End App.

(** ** A concrete instance of the library functions, for the examples

    [format_f] and [round_nd] round the exact value to the nearest, ties
    to even.  [json_loads] decodes the texts listed in [documents] to the
    values Python decodes them to; the examples use no other text than
    these and texts that are not JSON.  No example passes a [str] to
    [float()] or a value other than a [str] to an f-string, so
    [float_of_str] and [str_of] are placeholders. *)
Module Examples.
Import Py Json Models Service.

Definition round_half_even (q : Q) : Z :=
  let f := Qfloor q in
  match (q - inject_Z f ?= 1 # 2)%Q with
  | Lt => f
  | Gt => (f + 1)%Z
  | Eq => if Z.even f then f else (f + 1)%Z
  end.

Definition str_of_nat (n : nat) : string :=
  NilZero.string_of_uint (Nat.to_uint n).

Fixpoint zeros (n : nat) : string :=
  match n with
  | O => EmptyString
  | S k => String "0" (zeros k)
  end.

Definition format_fixed (digits : nat) (q : Q) : string :=
  let scale := (10 ^ Z.of_nat digits)%Z in
  let r := round_half_even (Qabs q * inject_Z scale) in
  let whole := str_of_nat (Z.to_nat (r / scale)) in
  let frac := str_of_nat (Z.to_nat (r mod scale)) in
  (if Qlt_bool q 0 then "-" else "") ++ whole ++
  match digits with
  | O => ""
  | _ => "." ++ zeros (digits - String.length frac) ++ frac
  end.

Definition round_fixed (q : Q) (digits : nat) : Q :=
  let scale := (10 ^ Z.of_nat digits)%Z in
  (inject_Z (round_half_even (q * inject_Z scale)) / inject_Z scale)%Q.

Definition dq : string := String "034" EmptyString.
Definition quoted (s : string) : string := dq ++ s ++ dq.
Definition field (k v : string) : string := quoted k ++ ": " ++ v.

Definition sources_text : string := "[" ++ quoted "survey" ++ "]".
Definition notes_text : string := quoted "plain notes".

(** {"sources": ["survey"], "notes": "plain notes"} *)
Definition no_score_text : string :=
  "{" ++ field "sources" sources_text ++ ", " ++ field "notes" notes_text ++ "}".

(** {"aggregate_score": S, "sources": ["survey"], "notes": "plain notes"} *)
Definition score_text (score : string) : string :=
  "{" ++ field "aggregate_score" score ++ ", " ++ field "sources" sources_text
  ++ ", " ++ field "notes" notes_text ++ "}".

(** {"aggregate_score": 3, "sources": SRC, "notes": NOTES, "confidence": C} *)
Definition full_text (srcs nts conf : string) : string :=
  "{" ++ field "aggregate_score" "3" ++ ", " ++ field "sources" srcs
  ++ ", " ++ field "notes" nts ++ ", " ++ field "confidence" conf ++ "}".

Definition survey : json := JArr [JStr "survey"].
Definition plain : json := JStr "plain notes".

Definition no_score_doc : json := JObj [("sources", survey); ("notes", plain)].

Definition score_doc (score : json) : json :=
  JObj [("aggregate_score", score); ("sources", survey); ("notes", plain)].

Definition full_doc (srcs nts conf : json) : json :=
  JObj [("aggregate_score", JInt 3); ("sources", srcs); ("notes", nts);
        ("confidence", conf)].

Definition documents : list (string * json) :=
  [ ("{}", JObj []);
    ("[]", JArr []);
    (no_score_text, no_score_doc);
    (score_text "5", score_doc (JInt 5));
    (score_text "5.1", score_doc (JFloat (Finite 5.1%Q)));
    (score_text "1.5", score_doc (JFloat (Finite 1.5%Q)));
    (score_text "null", score_doc JNull);
    (full_text sources_text notes_text "0.8",
     full_doc survey plain (JFloat (Finite 0.8%Q)));
    (full_text sources_text notes_text "1.5",
     full_doc survey plain (JFloat (Finite 1.5%Q)));
    (full_text sources_text notes_text "0.1",
     full_doc survey plain (JFloat (Finite 0.1%Q)));
    (full_text sources_text notes_text "null",
     full_doc survey plain JNull);
    (full_text "[]" notes_text "0.8",
     full_doc (JArr []) plain (JFloat (Finite 0.8%Q)));
    (full_text "[7]" notes_text "0.8",
     full_doc (JArr [JInt 7]) plain (JFloat (Finite 0.8%Q)));
    (full_text sources_text (quoted "ok") "0.8",
     full_doc survey (JStr "ok") (JFloat (Finite 0.8%Q))) ].

#[export] Instance example_builtins : Builtins := {|
  json_loads := fun s => assoc s documents;
  float_of_str := fun _ => None;
  format_f := format_fixed;
  round_nd := round_fixed;
  str_of := fun _ => "<value>"
|}.

Definition answer (text : string) : completion := Content text.

Definition invention : InventionInput :=
  {| idea_id := "IDEA-001";
     title := "AI-Powered Code Review Assistant";
     description := "An AI system that automatically reviews code commits";
     technical_domain := "Software Engineering Tools";
     application_domains := ["DevOps"] |}.

(** Answers on which every agent returns and the product agent scores 5. *)
Definition flagged_run : Pipeline.Responses :=
  {| Pipeline.r_triage := answer "{}";
     Pipeline.r_tech := answer "no json here";
     Pipeline.r_market := answer "no json here";
     Pipeline.r_product := answer (score_text "5");
     Pipeline.r_regulatory := answer no_score_text;
     Pipeline.r_strategic := answer no_score_text;
     Pipeline.r_timing := answer no_score_text;
     Pipeline.r_reviewer := answer "{}" |}.

(** Answers on which the two guardrailed agents fall back and the other
    four use their default score. *)
Definition default_run : Pipeline.Responses :=
  {| Pipeline.r_triage := answer "{}";
     Pipeline.r_tech := answer "no json here";
     Pipeline.r_market := answer "no json here";
     Pipeline.r_product := answer no_score_text;
     Pipeline.r_regulatory := answer no_score_text;
     Pipeline.r_strategic := answer no_score_text;
     Pipeline.r_timing := answer no_score_text;
     Pipeline.r_reviewer := answer "{}" |}.

(** The six scores of a run, in the order the batch check receives them. *)
Definition signals_of (llm : Pipeline.Responses) : result (list DimensionScore) :=
  a <- SignalAgents.TechnologySignalAgent (Pipeline.r_tech llm) ;;
  b <- SignalAgents.MarketSignalAgent (Pipeline.r_market llm) ;;
  c <- SignalAgents.ProductLandscapeAgent (Pipeline.r_product llm) ;;
  d <- SignalAgents.RegulatorySignalAgent (Pipeline.r_regulatory llm) ;;
  e <- SignalAgents.StrategicLeverageAgent (Pipeline.r_strategic llm) ;;
  f <- SignalAgents.TimingAgent (Pipeline.r_timing llm) ;;
  Ok [a; b; c; d; e; f].

Definition sample_score (name : string) (raw conf : Q) : DimensionScore :=
  {| raw_score := raw; normalized_score := (raw / 5 * 100)%Q;
     sources := ["survey"]; agent := name; notes := "plain notes";
     confidence := conf |}.

(** The scores of the specification's SWOT example. *)
Definition swot_example : list (string * Q) :=
  [ ("tech_momentum", 80%Q); ("market_gravity", 30%Q); ("white_space", 20%Q);
    ("strategic_leverage", 50%Q); ("timing", 70%Q);
    ("regulatory_alignment", 35%Q) ].

End Examples.

(** ** The Aggregator's arithmetic in binary64

    The same expressions as in [ScoringAgent.calculate_prs], on machine
    floats, to evaluate them where the rational model is exact only up to
    rounding: at the ends of the score range and at the fallback score. *)
Module Binary64.
Local Open Scope float_scope.
Set Warnings "-inexact-float".

Definition weights : list float :=
  [0.20; 0.25; 0.20; 0.15; 0.10; 0.10].

(** [(value / 5) * 100] *)
Definition normalize (value : float) : float := value / 5 * 100.

(** [sum(normalized * weight ...)], from 0 and from the left. *)
Definition prs (raw : list float) : float :=
  fold_left (fun acc p => acc + normalize (fst p) * snd p) (combine raw weights) 0.

Definition weights_total : float := fold_left PrimFloat.add weights 0.

Set Warnings "+inexact-float".
End Binary64.

(** ** The vocabulary of the statements *)
Module Spec.
Import Py Json Models Exc Validation ScoringAgent SWOTAgent SignalAgents
       Service Hooks Pipeline.

(** [sep in s] *)
Fixpoint occurs (s sep : string) : bool :=
  startswith s sep ||
  match s with
  | EmptyString => false
  | String _ s' => occurs s' sep
  end.

Fixpoint all_space (s : string) : bool :=
  match s with
  | EmptyString => true
  | String c s' => is_space c && all_space s'
  end.

Definition newline : string := String nl EmptyString.

(** The six evidence agents behind the one [compute_signal] interface. *)
Inductive signal_agent :=
| Technology | Market | Product | Regulatory | Strategic | Timing.

Definition compute_signal `{Builtins} (a : signal_agent)
    : completion -> result DimensionScore :=
  match a with
  | Technology => TechnologySignalAgent
  | Market => MarketSignalAgent
  | Product => ProductLandscapeAgent
  | Regulatory => RegulatorySignalAgent
  | Strategic => StrategicLeverageAgent
  | Timing => TimingAgent
  end.

(** The ways the pipeline constructs a [DimensionScore]. *)
Inductive built `{Builtins} : DimensionScore -> Prop :=
| built_by_validator raw_json name min_confidence ds :
    validate_dimension_score raw_json name min_confidence = Ok ds -> built ds
| built_by_fallback name ds :
    fallback name = Ok ds -> built ds
| built_by_agent a response ds :
    compute_signal a response = Ok ds -> built ds.

(** The fallback score, field by field. *)
Definition fallback_score (name : string) : DimensionScore :=
  {| raw_score := 2.5%Q;
     normalized_score := 50.0%Q;
     sources := ["fallback_default"];
     agent := name;
     notes := "Validation error occurred; using default score";
     confidence := 0.3%Q |}.

Definition dimensions : list string :=
  [ "tech_momentum"; "market_gravity"; "white_space"; "strategic_leverage";
    "timing"; "regulatory_alignment" ].

(** The same answers with another answer to the Reviewer's call. *)
Definition with_reviewer (llm : Responses) (r : completion) : Responses :=
  {| r_triage := r_triage llm; r_tech := r_tech llm; r_market := r_market llm;
     r_product := r_product llm; r_regulatory := r_regulatory llm;
     r_strategic := r_strategic llm; r_timing := r_timing llm;
     r_reviewer := r |}.

(** *** The rejection rule of the guardrail, read off the code

    Each predicate is one of the checks of [validate_dimension_score]
    on the decoded dict [d]. *)
Section Rejection.
Context `{Builtins}.

Definition score_of (d : list (string * json)) : result pyfloat :=
  float (dict_get d "aggregate_score" (JInt 0)).

Definition confidence_of (d : list (string * json)) : result pyfloat :=
  float (dict_get d "confidence" (JFloat (Finite 0.5%Q))).

(** present and not a number [float()] accepts, or outside [0,5];
    a missing field counts as 0. *)
Definition score_rejected (d : list (string * json)) : bool :=
  match score_of d with
  | Ok f => negb (fle (Finite 0) f && fle f (Finite 5))
  | Raise _ => true
  end.

(** missing, not a list, empty, or without any string that is
    non-empty after trimming. *)
Definition sources_rejected (d : list (string * json)) : bool :=
  match dict_get d "sources" (JArr []) with
  | JArr l => negb (nonempty (clean_sources l))
  | _ => true
  end.

(** missing, not a string, or shorter than 5 characters after trimming. *)
Definition notes_rejected (d : list (string * json)) : bool :=
  match dict_get d "notes" (JStr EmptyString) with
  | JStr s => Nat.ltb (String.length (strip s)) 5
  | _ => true
  end.

(** below the minimum, or outside [0,1]; 0.5 when missing. *)
Definition confidence_rejected (d : list (string * json)) (min_confidence : Q)
    : bool :=
  match confidence_of d with
  | Ok c => flt c (Finite min_confidence)
            || negb (fle (Finite 0) c && fle c (Finite 1))
  | Raise _ => false
  end.

End Rejection.

(** *** The rejection rule as the specification words it

    "JSON is not parseable; aggregate_score missing, non-numeric, or
    outside [0,5]; sources empty or not a list of non-empty strings;
    notes shorter than 5 characters after trimming; confidence present
    and below minConfidence". *)
Definition field_of (data : json) (k : string) : option json :=
  match data with
  | JObj d => assoc k d
  | _ => None
  end.

Definition stated_score_rejected (data : json) : bool :=
  match field_of data "aggregate_score" with
  | None => true                                   (* missing *)
  | Some (JInt n) => negb ((0 <=? n)%Z && (n <=? 5)%Z)
  | Some (JFloat f) => negb (fle (Finite 0) f && fle f (Finite 5))
  | Some _ => true                                 (* non-numeric *)
  end.

Definition stated_sources_rejected (data : json) : bool :=
  match field_of data "sources" with
  | Some (JArr l) =>
      negb (nonempty l)
      || forallb (fun x => match x with JStr s => blank s | _ => false end) l
  | _ => true
  end.

Definition stated_notes_rejected (data : json) : bool :=
  match field_of data "notes" with
  | Some (JStr s) => Nat.ltb (String.length (strip s)) 5
  | _ => true
  end.

Definition stated_confidence_rejected (data : json) (min_confidence : Q) : bool :=
  match field_of data "confidence" with
  | Some (JInt n) => Qlt_bool (inject_Z n) min_confidence
  | Some (JFloat f) => flt f (Finite min_confidence)
  | _ => false
  end.

Definition stated_rejects `{Builtins} (raw_json : string) (min_confidence : Q)
    : bool :=
  match json_loads raw_json with
  | None => true
  | Some data =>
      stated_score_rejected data || stated_sources_rejected data
      || stated_notes_rejected data
      || stated_confidence_rejected data min_confidence
  end.

(** The composite, dimension by dimension, for six raw scores. *)
Definition composite (tm mg ws sl ti ra : Q) : Q :=
  (tm / 5 * 100 * 0.20 + mg / 5 * 100 * 0.25 + ws / 5 * 100 * 0.20
   + sl / 5 * 100 * 0.15 + ti / 5 * 100 * 0.10 + ra / 5 * 100 * 0.10)%Q.

(** The mean confidence of the supplied scores, 0 when there is none:
    [sum(s.confidence for s in scores) / len(scores) if scores else 0]. *)
Definition mean_confidence (scores : list DimensionScore) : Q :=
  match scores with
  | [] => 0%Q
  | _ => (Validation.sum (map confidence scores)
          / inject_Z (Z.of_nat (List.length scores)))%Q
  end.

(** A string that does not begin with white space. *)
Definition tight_left (s : string) : Prop :=
  match s with
  | EmptyString => True
  | String c _ => is_space c = false
  end.

(** The issues, kind by kind, in the order the code appends them. *)
Definition issues_of `{Builtins} (scores : list DimensionScore) (required : Z) : list string :=
  let n := Z.of_nat (List.length scores) in
  ((if (n <? required)%Z then [too_few_issue n required] else [])
   ++ (if Qlt_bool (mean_confidence scores) 0.3
       then [low_confidence_issue (mean_confidence scores)] else [])
   ++ map high_score_issue (filter overconfident scores))%list.

(** What one keyed rule of the Synthesizer emits: the labelled entry
    when the key is present and its score passes the test, nothing when
    the key is absent or the test fails. *)
Definition fires `{Builtins} (normalized_scores : list (string * Q))
    (key : string) (test : Q -> bool) (label : string) : list string :=
  match assoc key normalized_scores with
  | Some v => if test v then [label ++ " (" ++ format_f 1 v ++ "/100)"] else []
  | None => []
  end.

(** All six dimensions at 50. *)
Definition all_fifty : list (string * Q) :=
  map (fun d => (d, 50%Q)) dimensions.

(** The values one evaluation passes from stage to stage. *)
Record stages := {
  s_triaged : TriagedInvention;
  s_tech : DimensionScore;
  s_market : DimensionScore;
  s_product : DimensionScore;
  s_regulatory : DimensionScore;
  s_strategic : DimensionScore;
  s_timing : DimensionScore;
  s_prs : Q;
  s_raw : list (string * Q);
  s_norm : list (string * Q);
  s_evidence : list (string * Evidence);
  s_confidence : json;
  s_flags : json;
  s_swot : SWOT
}.

(** The six scores in the order the batch check receives them. *)
Definition batch (s : stages) : list DimensionScore :=
  [ s_tech s; s_market s; s_product s; s_regulatory s; s_strategic s;
    s_timing s ].

(** Triage, the six agents, the Aggregator, the Reviewer and the
    Synthesizer all returned, with these values. *)
Definition reached `{Builtins} (invention : InventionInput) (llm : Responses)
    (s : stages) : Prop :=
  TriageOrchestrator.triage invention (r_triage llm) = Ok (s_triaged s)
  /\ compute_signal Technology (r_tech llm) = Ok (s_tech s)
  /\ compute_signal Market (r_market llm) = Ok (s_market s)
  /\ compute_signal Product (r_product llm) = Ok (s_product s)
  /\ compute_signal Regulatory (r_regulatory llm) = Ok (s_regulatory s)
  /\ compute_signal Strategic (r_strategic llm) = Ok (s_strategic s)
  /\ compute_signal Timing (r_timing llm) = Ok (s_timing s)
  /\ calculate_prs (s_tech s) (s_market s) (s_product s) (s_strategic s)
       (s_timing s) (s_regulatory s)
     = Ok (s_prs s, s_raw s, s_norm s, s_evidence s)
  /\ ReviewerAgent.review (s_raw s) (s_evidence s) (r_reviewer llm)
     = Ok (s_confidence s, s_flags s)
  /\ generate_swot (s_norm s) = Ok (s_swot s).

(** The final constructor call of [evaluate] on these values. *)
Definition assemble `{Builtins} (invention : InventionInput) (s : stages)
    (h : option PipelineHooks) : result PatentRelevanceOutput :=
  PatentRelevanceOutput_new (idea_id invention) (s_raw s) (s_norm s) (s_prs s)
    (s_swot s) (s_confidence s) (s_evidence s) (s_flags s) (usage_of h).

(** [self.hooks] once the six agents have been announced. *)
Definition hooks_started (h : option PipelineHooks) : option PipelineHooks :=
  option_map (fun h => fold_left on_agent_start agent_names h) h.

(** The flag the hooks record for one batch issue. *)
Definition batch_flag (issue : string) : string :=
  "VALIDATION_ERROR in signals_batch: " ++ issue.

(** Two hook states with the same counters. *)
Definition same_counters (a b : PipelineHooks) : Prop :=
  metrics a = metrics b /\ total_tokens a = total_tokens b
  /\ total_cost a = total_cost b.

(** [b] is [a] with more flags recorded and nothing else changed. *)
Definition extends (a b : option PipelineHooks) : Prop :=
  match a, b with
  | None, None => True
  | Some x, Some y =>
      same_counters y x /\ exists more, all_flags y = (all_flags x ++ more)%list
  | _, _ => False
  end.

Definition raises_ValidationError {A} (r : result A) : Prop :=
  exists why, r = Raise (ValidationError why).

Definition returns {A} (r : result A) : Prop :=
  exists a, r = Ok a.

End Spec.

(** ** The vocabulary of the further properties *)
Module Extra.
Import Py Json Models Exc Validation ScoringAgent SWOTAgent SignalAgents
       Service Hooks Pipeline Spec.

(** What the [DimensionScore] model demands of its fields. *)
Definition well_formed (ds : DimensionScore) : Prop :=
  (0 <= raw_score ds <= 5)%Q
  /\ (0 <= normalized_score ds <= 100)%Q
  /\ (0 <= confidence ds <= 1)%Q
  /\ sources ds <> []
  /\ (forall s, In s (sources ds) -> strip s <> EmptyString)
  /\ 5 <= String.length (strip (notes ds)).

(** A string without white space at either end. *)
Definition trimmed (s : string) : Prop := strip s = s.

(** The answer the service gave to one of the six agents. *)
Definition response_of (llm : Responses) (a : signal_agent) : completion :=
  match a with
  | Technology => r_tech llm
  | Market => r_market llm
  | Product => r_product llm
  | Regulatory => r_regulatory llm
  | Strategic => r_strategic llm
  | Timing => r_timing llm
  end.

(** The agents in the order [asyncio.gather] runs them, and those that run
    before a given one. *)
Definition gather_order : list signal_agent :=
  [Technology; Market; Product; Regulatory; Strategic; Timing].

Definition position (a : signal_agent) : nat :=
  match a with
  | Technology => 0 | Market => 1 | Product => 2
  | Regulatory => 3 | Strategic => 4 | Timing => 5
  end.

Definition runs_before (b a : signal_agent) : Prop := position b < position a.

(** The two agents with a guardrail. *)
Definition guardrailed (a : signal_agent) : bool :=
  match a with
  | Technology | Market => true
  | _ => false
  end.

Definition name_of (a : signal_agent) : string :=
  match a with
  | Technology => "TechnologySignalAgent"
  | Market => "MarketSignalAgent"
  | Product => "ProductLandscapeAgent"
  | Regulatory => "RegulatorySignalAgent"
  | Strategic => "StrategicLeverageAgent"
  | Timing => "TimingAgent"
  end.

(** The flag the hooks record for one of the Reviewer's flags. *)
Definition quality_flag (flag : string) : string :=
  "QUALITY_ISSUE in reviewer: " ++ flag.

(** The items of the Reviewer's flags that [evaluate] hands to
    [on_quality_check]: [if flags: len(flags); for issue in flags]. *)
Definition reviewed_items (flags : json) : result (list json) :=
  if truthy flags then _ <- len flags ;; iter flags else Ok [].

(** The metrics entry [on_agent_start] creates. *)
Definition started (name : string) : AgentMetrics :=
  {| agent_name := name; duration_seconds := 0; tokens_used := 0;
     input_tokens := 0; output_tokens := 0 |}.

(** [self.hooks] after an evaluation that went past the Reviewer: the
    six agents announced, then one flag per batch issue, then one per
    item of the Reviewer's flags. *)
Definition hooks_recorded `{Builtins} (issues : list string) (items : list json)
    (h : option PipelineHooks) : option PipelineHooks :=
  option_map
    (fun x =>
       fold_left (fun h i => add_flag h (quality_flag (fstr i))) items
         (fold_left (fun h i => add_flag h (batch_flag i)) issues x))
    (hooks_started h).

(** A call to one of the four methods that update a session. *)
Inductive call :=
| UpdateProgress (session_id message level now : string)
| SetStatus (session_id status : string)
| SetResult (session_id : string) (result : json)
| SetError (session_id error : string).

Definition perform (self : App.SessionManager) (c : call) : App.SessionManager :=
  match c with
  | UpdateProgress i m l n => App.update_progress self i m l n
  | SetStatus i s => App.set_status self i s
  | SetResult i r => App.set_result self i r
  | SetError i e => App.set_error self i e
  end.

(** The progress messages a call reports for a session. *)
Definition reported (session_id : string) (c : call) : list App.ProgressEntry :=
  match c with
  | UpdateProgress i m l n =>
      if String.eqb i session_id
      then [{| App.p_message := m; App.p_level := l; App.p_timestamp := n |}]
      else []
  | _ => []
  end.

End Extra.

(** * Properties *)

Import Py Json Models Exc Validation ScoringAgent SWOTAgent SignalAgents
       ReviewerAgent TriageOrchestrator Service Hooks Pipeline Spec.

(** ** Comparisons on rationals *)

Lemma Qlt_bool_iff (x y : Q) : Qlt_bool x y = true <-> (x < y)%Q.
Proof.
  unfold Qlt_bool. rewrite negb_true_iff. split.
  - intros E. apply Qnot_le_lt. intros L.
    apply Qle_bool_iff in L. congruence.
  - intros L. destruct (Qle_bool y x) eqn:E; [|reflexivity].
    apply Qle_bool_iff in E. apply Qlt_not_le in L. contradiction.
Qed.

Lemma as_float_in_some lo hi f q :
  as_float_in lo hi f = Some q -> f = Finite q /\ (lo <= q)%Q /\ (q <= hi)%Q.
Proof.
  destruct f as [x| | |]; simpl; try discriminate.
  destruct (Qle_bool lo x) eqn:L; simpl; try discriminate.
  destruct (Qle_bool x hi) eqn:U; simpl; try discriminate.
  intros E. injection E as <-.
  apply Qle_bool_iff in L. apply Qle_bool_iff in U. auto.
Qed.

Lemma as_float_in_finite lo hi q :
  (lo <= q)%Q -> (q <= hi)%Q -> as_float_in lo hi (Finite q) = Some q.
Proof.
  intros L U. simpl.
  apply Qle_bool_iff in L. apply Qle_bool_iff in U. now rewrite L, U.
Qed.

(** ** The Aggregator *)

(** In binary64 the weights add up to 1.0, six scores of 5 give exactly
    100.0, six scores of 0 give 0.0, and 2.5 normalizes to 50.0. *)
Example binary64_end_points :
  Binary64.weights_total = 1%float
  /\ Binary64.prs [5; 5; 5; 5; 5; 5]%float = 100%float
  /\ Binary64.prs [0; 0; 0; 0; 0; 0]%float = 0%float
  /\ Binary64.normalize 2.5%float = 50%float.
Proof. repeat split; reflexivity. Qed.

Lemma calculate_prs_eq (tm mg ws sl ti ra : DimensionScore) :
  exists prs,
    calculate_prs tm mg ws sl ti ra =
      Ok (prs,
          [ ("tech_momentum", raw_score tm); ("market_gravity", raw_score mg);
            ("white_space", raw_score ws); ("strategic_leverage", raw_score sl);
            ("timing", raw_score ti); ("regulatory_alignment", raw_score ra) ],
          [ ("tech_momentum", (raw_score tm / 5 * 100)%Q);
            ("market_gravity", (raw_score mg / 5 * 100)%Q);
            ("white_space", (raw_score ws / 5 * 100)%Q);
            ("strategic_leverage", (raw_score sl / 5 * 100)%Q);
            ("timing", (raw_score ti / 5 * 100)%Q);
            ("regulatory_alignment", (raw_score ra / 5 * 100)%Q) ],
          [ ("tech_momentum", evidence_of tm); ("market_gravity", evidence_of mg);
            ("white_space", evidence_of ws); ("strategic_leverage", evidence_of sl);
            ("timing", evidence_of ti); ("regulatory_alignment", evidence_of ra) ])
    /\ (prs == composite (raw_score tm) (raw_score mg) (raw_score ws)
                 (raw_score sl) (raw_score ti) (raw_score ra))%Q.
Proof.
  unfold calculate_prs, SCORING_WEIGHTS. cbn [map fst snd].
  cbn [weighted_sum getitem assoc String.eqb Ascii.eqb Bool.eqb bind].
  eexists. split; [reflexivity|].
  unfold composite. ring.
Qed.

Lemma weights_sum_to_one : (sum (map snd SCORING_WEIGHTS) == 1)%Q.
Proof. reflexivity. Qed.

Lemma composite_bounds (tm mg ws sl ti ra : Q) :
  (0 <= tm <= 5 -> 0 <= mg <= 5 -> 0 <= ws <= 5 ->
   0 <= sl <= 5 -> 0 <= ti <= 5 -> 0 <= ra <= 5 ->
   0 <= composite tm mg ws sl ti ra <= 100)%Q.
Proof.
  intros [] [] [] [] [] [].
  assert (E : (composite tm mg ws sl ti ra ==
               tm * 4 + mg * 5 + ws * 4 + sl * 3 + ti * 2 + ra * 2)%Q).
  { unfold composite. field. }
  rewrite E. split; lra.
Qed.


(** ** Strings *)

Lemma append_assoc (a b c : string) : (a ++ b) ++ c = a ++ (b ++ c).
Proof. induction a; simpl; congruence. Qed.

Lemma append_nil_r (a : string) : a ++ "" = a.
Proof. induction a; simpl; congruence. Qed.

Lemma rev_string_acc (s acc : string) :
  rev_string acc s = rev_string "" s ++ acc.
Proof.
  revert acc. induction s as [|c s IH]; intros acc; simpl; [reflexivity|].
  rewrite (IH (String c acc)), (IH (String c "")), append_assoc. reflexivity.
Qed.

Lemma lstrip_all_space (ws : string) : all_space ws = true -> lstrip ws = "".
Proof.
  induction ws as [|c ws IH]; simpl; [reflexivity|].
  intros E. apply andb_true_iff in E as [-> E]. auto.
Qed.

Lemma rstrip_all_space (ws : string) : all_space ws = true -> rstrip ws = "".
Proof.
  induction ws as [|c ws IH]; simpl; [reflexivity|].
  intros E. apply andb_true_iff in E as [-> E]. now rewrite IH.
Qed.

Lemma rstrip_app_space (x ws : string) :
  all_space ws = true -> rstrip (x ++ ws) = rstrip x.
Proof.
  intros E. induction x as [|c x IH]; simpl.
  - now apply rstrip_all_space.
  - now rewrite IH.
Qed.

Lemma lstrip_app_space (p ws : string) :
  all_space ws = true ->
  lstrip (p ++ ws) = lstrip p ++ ws \/ (lstrip (p ++ ws) = "" /\ lstrip p = "").
Proof.
  intros E. induction p as [|c p IH]; simpl.
  - right. split; [now apply lstrip_all_space | reflexivity].
  - destruct (is_space c); [exact IH | now left].
Qed.

Lemma strip_app_space (p ws : string) :
  all_space ws = true -> strip (p ++ ws) = strip p.
Proof.
  intros E. unfold strip.
  destruct (lstrip_app_space p ws E) as [-> | [-> ->]];
    [now apply rstrip_app_space | reflexivity].
Qed.

Lemma rstrip_idem (s : string) : rstrip (rstrip s) = rstrip s.
Proof.
  induction s as [|c s IH]; simpl; [reflexivity|].
  destruct (rstrip s) as [|d r] eqn:R.
  - destruct (is_space c) eqn:E; simpl; [reflexivity | now rewrite E].
  - change (rstrip (String c (String d r))) with
      (match rstrip (String d r) with
       | "" => if is_space c then "" else String c ""
       | String a b => String c (String a b)
       end).
    now rewrite IH.
Qed.

Lemma lstrip_tight (s : string) : tight_left (lstrip s).
Proof.
  induction s as [|c s IH]; simpl; [exact I|].
  destruct (is_space c) eqn:E; [exact IH | exact E].
Qed.

Lemma rstrip_tight (s : string) : tight_left s -> tight_left (rstrip s).
Proof.
  destruct s as [|c s]; simpl; [auto|]. intros E.
  destruct (rstrip s); [rewrite E|]; exact E.
Qed.

Lemma lstrip_of_tight (s : string) : tight_left s -> lstrip s = s.
Proof. destruct s as [|c s]; simpl; [auto|]. now intros ->. Qed.

Lemma strip_idem (s : string) : strip (strip s) = strip s.
Proof.
  unfold strip.
  rewrite (lstrip_of_tight (rstrip (lstrip s))).
  - apply rstrip_idem.
  - apply rstrip_tight, lstrip_tight.
Qed.

Lemma rstrip_app_tight (a b : string) (c : ascii) (r : string) :
  rstrip b = String c r -> rstrip (a ++ b) = a ++ String c r.
Proof.
  intros E. induction a as [|d a IH]; simpl; [exact E|].
  rewrite IH. destruct a; reflexivity.
Qed.

Lemma rstrip_prefix (p : string) : exists b, p = rstrip p ++ b.
Proof.
  induction p as [|c p [b IH]]; simpl.
  - now exists "".
  - destruct (rstrip p) as [|d r].
    + destruct (is_space c).
      * now exists (String c p).
      * exists p. reflexivity.
    + exists b. simpl. simpl in IH. congruence.
Qed.

Lemma startswith_refl (s : string) : startswith s s = true.
Proof.
  induction s as [|c s IH]; simpl; [reflexivity|].
  now rewrite Ascii.eqb_refl.
Qed.

Lemma startswith_app (x y sep : string) :
  startswith x sep = true -> startswith (x ++ y) sep = true.
Proof.
  revert x. induction sep as [|a sep IH]; intros x; [reflexivity|].
  destruct x as [|b x]; simpl; [discriminate|].
  intros E. apply andb_true_iff in E as [-> E]. simpl. auto.
Qed.

Lemma startswith_app_char (sep p rest : string) (c : ascii) :
  mem_char c sep = false ->
  startswith (p ++ String c rest) sep = startswith p sep.
Proof.
  revert p. induction sep as [|a sep IH]; intros p M; [now destruct p|].
  simpl in M. apply orb_false_iff in M as [N M].
  destruct p as [|b p]; simpl.
  - rewrite Ascii.eqb_sym, N. reflexivity.
  - now rewrite IH.
Qed.

Lemma startswith_occurs (s sep : string) :
  startswith s sep = true -> occurs s sep = true.
Proof. destruct s; simpl; intros ->; reflexivity. Qed.

Lemma occurs_cons (c : ascii) (s sep : string) :
  occurs s sep = true -> occurs (String c s) sep = true.
Proof. simpl. intros ->. apply orb_true_r. Qed.

Lemma endswith_occurs (s sep : string) :
  endswith s sep = true -> occurs s sep = true.
Proof.
  induction s as [|c s IH]; intros E; cbn [endswith] in E.
  - destruct sep; [reflexivity | discriminate].
  - cbn [occurs]. apply orb_true_iff in E as [E | E].
    + apply String.eqb_eq in E. subst sep.
      rewrite (startswith_refl (String c s)). reflexivity.
    + rewrite (IH E). apply orb_true_r.
Qed.

Lemma occurs_lstrip (p sep : string) :
  occurs (lstrip p) sep = true -> occurs p sep = true.
Proof.
  induction p as [|c p IH]; [auto|].
  change (lstrip (String c p)) with (if is_space c then lstrip p else String c p).
  destruct (is_space c); [|auto].
  intros E. apply occurs_cons. auto.
Qed.

Lemma occurs_app (x y sep : string) :
  occurs x sep = true -> occurs (x ++ y) sep = true.
Proof.
  induction x as [|c x IH]; simpl; intros E.
  - rewrite orb_false_r in E.
    apply startswith_occurs. destruct sep; [reflexivity | discriminate].
  - apply orb_true_iff in E as [E | E].
    + change (String c (x ++ y)) with (String c x ++ y).
      rewrite (startswith_app _ _ _ E). reflexivity.
    + rewrite (IH E). apply orb_true_r.
Qed.

Lemma occurs_strip (p sep : string) :
  occurs p sep = false -> occurs (strip p) sep = false.
Proof.
  intros E. destruct (occurs (strip p) sep) eqn:O; [|reflexivity].
  unfold strip in O. destruct (rstrip_prefix (lstrip p)) as [b P].
  apply (occurs_app _ b) in O. rewrite <- P in O.
  apply occurs_lstrip in O. congruence.
Qed.

Lemma occurs_app_newline (x : string) :
  occurs x fence = false -> occurs (x ++ newline) fence = false.
Proof.
  induction x as [|c x IH]; [reflexivity|].
  intros E. cbn [occurs] in E. apply orb_false_iff in E as [S O].
  change (String c x ++ newline) with (String c (x ++ newline)).
  change (occurs (String c (x ++ newline)) fence) with
    (startswith (String c (x ++ newline)) fence || occurs (x ++ newline) fence).
  rewrite (IH O), orb_false_r.
  change (String c (x ++ newline)) with (String c x ++ String nl "").
  rewrite startswith_app_char; [exact S | reflexivity].
Qed.

(** ** Splitting at the fences *)

Lemma split_body (x cur : string) :
  occurs x fence = false ->
  split_go fence 0 cur (x ++ String nl fence)
  = [rev_string "" cur ++ x ++ newline; ""].
Proof.
  revert cur. induction x as [|c x IH]; intros cur E.
  - simpl. rewrite (rev_string_acc cur (String nl "")). reflexivity.
  - cbn [occurs] in E. apply orb_false_iff in E as [S O].
    change (String c x ++ String nl fence) with (String c (x ++ String nl fence)).
    change (split_go fence 0 cur (String c (x ++ String nl fence))) with
      (if startswith (String c (x ++ String nl fence)) fence
       then rev_string "" cur
            :: split_go fence (String.length fence - 1) "" (x ++ String nl fence)
       else split_go fence 0 (String c cur) (x ++ String nl fence)).
    change (String c (x ++ String nl fence)) with (String c x ++ String nl fence).
    rewrite startswith_app_char by reflexivity.
    rewrite S, (IH _ O).
    simpl. rewrite (rev_string_acc cur (String c "")), append_assoc. reflexivity.
Qed.

Lemma split_fenced (x : string) :
  occurs x fence = false ->
  split (fence ++ x ++ String nl fence) fence = [""; x ++ newline; ""].
Proof.
  intros E. unfold split.
  change (split_go fence 0 "" (fence ++ x ++ String nl fence)) with
    ("" :: split_go fence 0 "" (x ++ String nl fence)).
  now rewrite (split_body x "" E).
Qed.

(** ** sanitize_llm_output *)

Lemma sanitize_plain (p ws : string) :
  occurs p fence = false -> all_space ws = true ->
  sanitize_llm_output (p ++ ws) = Ok (strip p).
Proof.
  intros F W. unfold sanitize_llm_output.
  rewrite (strip_app_space p ws W).
  pose proof (occurs_strip p fence F) as O.
  destruct (startswith (strip p) fence) eqn:S.
  { apply startswith_occurs in S. congruence. }
  cbn [bind].
  destruct (endswith (strip p) fence) eqn:E.
  { apply endswith_occurs in E. congruence. }
  now rewrite strip_idem.
Qed.

Lemma strip_fenced (body ws : string) :
  all_space ws = true ->
  strip (fence ++ body ++ String nl fence ++ ws) = fence ++ body ++ String nl fence.
Proof.
  intros W.
  replace (fence ++ body ++ String nl fence ++ ws)
    with ((fence ++ body ++ String nl fence) ++ ws).
  2:{ rewrite !append_assoc. reflexivity. }
  rewrite (strip_app_space _ ws W). unfold strip.
  change (lstrip (fence ++ body ++ String nl fence))
    with (fence ++ body ++ String nl fence).
  rewrite <- append_assoc.
  now apply rstrip_app_tight.
Qed.

Lemma strip_between_newlines (p : string) :
  strip (newline ++ p ++ newline) = strip p.
Proof.
  unfold strip.
  change (lstrip (newline ++ p ++ newline)) with (lstrip (p ++ newline)).
  apply (strip_app_space p newline). reflexivity.
Qed.

Lemma not_endswith_fence (p : string) :
  occurs p fence = false -> endswith (newline ++ p ++ newline) fence = false.
Proof.
  intros F. destruct (endswith (newline ++ p ++ newline) fence) eqn:E;
    [|reflexivity].
  apply endswith_occurs in E.
  change (newline ++ p ++ newline) with (String nl (p ++ newline)) in E.
  cbn [occurs] in E.
  rewrite (occurs_app_newline p F), orb_false_r in E. discriminate.
Qed.

Lemma sanitize_tagged (p ws : string) :
  occurs p fence = false -> all_space ws = true ->
  sanitize_llm_output ("```json" ++ newline ++ p ++ newline ++ "```" ++ ws)
  = Ok (strip p).
Proof.
  intros F W. unfold sanitize_llm_output.
  change ("```json" ++ newline ++ p ++ newline ++ "```" ++ ws)
    with (fence ++ ("json" ++ newline ++ p) ++ String nl fence ++ ws).
  rewrite (strip_fenced _ ws W).
  change (startswith (fence ++ ("json" ++ newline ++ p) ++ String nl fence) fence)
    with true.
  cbv iota. rewrite split_fenced.
  2:{ change (occurs ("json" ++ newline ++ p) fence) with (occurs p fence).
      exact F. }
  cbn [index nth_error bind].
  change (startswith (("json" ++ newline ++ p) ++ newline) "json") with true.
  cbv iota.
  change (drop 4 (("json" ++ newline ++ p) ++ newline))
    with (newline ++ p ++ newline).
  rewrite (not_endswith_fence p F).
  now rewrite strip_between_newlines.
Qed.

Lemma sanitize_untagged (p ws : string) :
  occurs p fence = false -> all_space ws = true ->
  sanitize_llm_output ("```" ++ newline ++ p ++ newline ++ "```" ++ ws)
  = Ok (strip p).
Proof.
  intros F W. unfold sanitize_llm_output.
  change ("```" ++ newline ++ p ++ newline ++ "```" ++ ws)
    with (fence ++ (newline ++ p) ++ String nl fence ++ ws).
  rewrite (strip_fenced _ ws W).
  change (startswith (fence ++ (newline ++ p) ++ String nl fence) fence)
    with true.
  cbv iota. rewrite split_fenced.
  2:{ change (occurs (newline ++ p) fence) with (occurs p fence). exact F. }
  cbn [index nth_error bind].
  change (startswith ((newline ++ p) ++ newline) "json") with false.
  cbv iota.
  change ((newline ++ p) ++ newline) with (newline ++ p ++ newline).
  rewrite (not_endswith_fence p F).
  now rewrite strip_between_newlines.
Qed.

(** C9: for a payload [p] without a triple backtick, sanitize_llm_output
    returns [p] stripped of leading and trailing white space when given
    [p] itself, [p] in a fence with the json tag, [p] in a fence without a
    tag, and any of these followed by trailing white space [ws]. *)
Theorem C9_sanitize_returns_stripped_payload (p ws : string) :
  occurs p "```" = false -> all_space ws = true ->
  sanitize_llm_output p = Ok (strip p)
  /\ sanitize_llm_output ("```json" ++ newline ++ p ++ newline ++ "```")
     = Ok (strip p)
  /\ sanitize_llm_output ("```" ++ newline ++ p ++ newline ++ "```")
     = Ok (strip p)
  /\ sanitize_llm_output (p ++ ws) = Ok (strip p)
  /\ sanitize_llm_output ("```json" ++ newline ++ p ++ newline ++ "```" ++ ws)
     = Ok (strip p)
  /\ sanitize_llm_output ("```" ++ newline ++ p ++ newline ++ "```" ++ ws)
     = Ok (strip p).
Proof.
  intros F W.
  pose proof (sanitize_plain p "" F eq_refl) as P0.
  pose proof (sanitize_tagged p "" F eq_refl) as P1.
  pose proof (sanitize_untagged p "" F eq_refl) as P2.
  rewrite append_nil_r in P0.
  repeat split.
  - exact P0.
  - exact P1.
  - exact P2.
  - now apply sanitize_plain.
  - now apply sanitize_tagged.
  - now apply sanitize_untagged.
Qed.

Lemma C9_witness :
  sanitize_llm_output "{}" = Ok (strip "{}")
  /\ sanitize_llm_output ("```json" ++ newline ++ "{}" ++ newline ++ "```")
     = Ok (strip "{}")
  /\ sanitize_llm_output ("```" ++ newline ++ "{}" ++ newline ++ "```")
     = Ok (strip "{}")
  /\ sanitize_llm_output ("{}" ++ "  ") = Ok (strip "{}")
  /\ sanitize_llm_output ("```json" ++ newline ++ "{}" ++ newline ++ "```" ++ "  ")
     = Ok (strip "{}")
  /\ sanitize_llm_output ("```" ++ newline ++ "{}" ++ newline ++ "```" ++ "  ")
     = Ok (strip "{}").
Proof.
  apply (C9_sanitize_returns_stripped_payload "{}" "  "); reflexivity.
Defined.

(** ** The batch check *)

Section Batch.
Context `{Builtins}.

Lemma flag_overconfident_eq (scores : list DimensionScore) (issues : list string) :
  flag_overconfident issues scores
  = (issues ++ map high_score_issue (filter overconfident scores))%list.
Proof.
  revert issues. induction scores as [|s r IH]; intros issues; simpl.
  - now rewrite app_nil_r.
  - rewrite IH. destruct (overconfident s); simpl; [|reflexivity].
    now rewrite <- app_assoc.
Qed.

Lemma div_by_length (x : Q) (s : DimensionScore) (r : list DimensionScore) :
  div x (inject_Z (Z.of_nat (List.length (s :: r))))
  = Ok (x / inject_Z (Z.of_nat (List.length (s :: r))))%Q.
Proof.
  unfold div.
  destruct (Qeq_bool (inject_Z (Z.of_nat (List.length (s :: r)))) 0) eqn:E;
    [|reflexivity].
  apply Qeq_bool_eq in E. unfold Qeq in E. simpl in E. lia.
Qed.

Lemma validate_multiple_scores_eq (scores : list DimensionScore) (required : Z) :
  validate_multiple_scores scores required
  = Ok (Nat.eqb (List.length (issues_of scores required)) 0,
        issues_of scores required).
Proof.
  unfold validate_multiple_scores, issues_of.
  destruct scores as [|s r].
  - cbn [nonempty bind mean_confidence].
    rewrite flag_overconfident_eq.
    destruct (_ <? required)%Z, (Qlt_bool 0 0.3); reflexivity.
  - cbn [nonempty]. rewrite div_by_length. cbn [bind mean_confidence].
    rewrite flag_overconfident_eq.
    destruct (_ <? required)%Z, (Qlt_bool _ 0.3); reflexivity.
Qed.

Lemma overconfident_iff (s : DimensionScore) :
  overconfident s = true <-> (95 < normalized_score s)%Q /\ (confidence s < 0.6)%Q.
Proof.
  unfold overconfident. rewrite andb_true_iff, !Qlt_bool_iff. reflexivity.
Qed.

Lemma mean_of_six (a b c d e f : DimensionScore) (x : Q) :
  (confidence a == x)%Q -> (confidence b == x)%Q -> (confidence c == x)%Q ->
  (confidence d == x)%Q -> (confidence e == x)%Q -> (confidence f == x)%Q ->
  (mean_confidence [a; b; c; d; e; f] == x)%Q.
Proof.
  intros Ha Hb Hc Hd He Hf. unfold mean_confidence, Validation.sum.
  cbn [map fold_left List.length].
  rewrite Ha, Hb, Hc, Hd, He, Hf.
  change (inject_Z (Z.of_nat 6)) with 6%Q. field.
Qed.

End Batch.

Lemma app3_nil_iff {A} (a b c : list A) :
  (a ++ b ++ c)%list = [] <-> a = [] /\ b = [] /\ c = [].
Proof.
  split.
  - intros E. apply app_eq_nil in E as [-> E].
    apply app_eq_nil in E as [-> ->]. auto.
  - intros (-> & -> & ->). reflexivity.
Qed.

Lemma some_overconfident `{Builtins} (scores : list DimensionScore) :
  map high_score_issue (filter overconfident scores) <> []
  <-> exists s, In s scores
                /\ (95 < normalized_score s)%Q /\ (confidence s < 0.6)%Q.
Proof.
  split.
  - intros N. destruct (filter overconfident scores) as [|s r] eqn:F.
    + now contradiction N.
    + assert (I : In s (filter overconfident scores)) by (rewrite F; now left).
      apply filter_In in I as [I O]. exists s. split; [exact I|].
      now apply overconfident_iff.
  - intros (s & I & O) E. apply overconfident_iff in O.
    assert (J : In s (filter overconfident scores)) by (apply filter_In; auto).
    destruct (filter overconfident scores); [exact J | discriminate].
Qed.

Lemma length_zero_iff {A} (l : list A) :
  Nat.eqb (List.length l) 0 = true <-> l = [].
Proof. destruct l; simpl; split; congruence. Qed.


(** ** The Synthesizer *)

Section Synthesizer.
Context `{Builtins}.

Lemma collect_eq (keep : string * Q -> bool) (items : list (string * Q))
    (out : list string) :
  collect keep out items = (out ++ map entry (filter keep items))%list.
Proof.
  revert out. induction items as [|kv r IH]; intros out; simpl.
  - now rewrite app_nil_r.
  - rewrite IH. destruct (keep kv); simpl; [|reflexivity].
    now rewrite <- app_assoc.
Qed.

Lemma keyed_rule_eq (test : Q -> bool) (key label : string) (dflt : Q)
    (d : list (string * Q)) (out : list string) :
  test dflt = false ->
  keyed_rule test key label dflt d out = Ok (out ++ fires d key test label)%list.
Proof.
  intros D. unfold keyed_rule, fires, dict_get, getitem.
  destruct (assoc key d) as [v|].
  - destruct (test v); [reflexivity | now rewrite app_nil_r].
  - now rewrite D, app_nil_r.
Qed.

Lemma swot_lists_eq (ns : list (string * Q)) :
  swot_lists ns
  = Ok (map entry (filter strong ns),
        map entry (filter weak ns),
        (fires ns "market_gravity" at_least_65 "Strong market potential"
         ++ fires ns "timing" at_least_65 "Favorable timing")%list,
        (fires ns "regulatory_alignment" at_most_40 "Regulatory friction"
         ++ fires ns "white_space" at_most_40 "Crowded market")%list).
Proof.
  unfold swot_lists.
  rewrite !collect_eq.
  rewrite (keyed_rule_eq at_least_65 "market_gravity") by reflexivity.
  cbn [bind].
  rewrite (keyed_rule_eq at_least_65 "timing") by reflexivity.
  cbn [bind].
  rewrite (keyed_rule_eq at_most_40 "regulatory_alignment") by reflexivity.
  cbn [bind].
  rewrite (keyed_rule_eq at_most_40 "white_space") by reflexivity.
  reflexivity.
Qed.

End Synthesizer.

(** C5: generate_swot emits a strength entry for exactly the dimensions
    with score >= 70 and a weakness entry for exactly those with score
    <= 40; the Strong-market-potential opportunity iff market_gravity >= 65
    and the Favorable-timing opportunity iff timing >= 65, independently;
    the Regulatory-friction threat iff regulatory_alignment <= 40 and the
    Crowded-market threat iff white_space <= 40; an absent key triggers
    neither an opportunity nor a threat. *)
Theorem C5_swot_threshold_rules `{Builtins} (normalized_scores : list (string * Q)) :
  let strengths := map entry (filter strong normalized_scores) in
  let weaknesses := map entry (filter weak normalized_scores) in
  let opportunities :=
    (fires normalized_scores "market_gravity" at_least_65 "Strong market potential"
     ++ fires normalized_scores "timing" at_least_65 "Favorable timing")%list in
  let threats :=
    (fires normalized_scores "regulatory_alignment" at_most_40 "Regulatory friction"
     ++ fires normalized_scores "white_space" at_most_40 "Crowded market")%list in
  swot_lists normalized_scores = Ok (strengths, weaknesses, opportunities, threats)
  /\ generate_swot normalized_scores
     = SWOT_new strengths weaknesses opportunities threats
  /\ (forall kv, strong kv = true <-> (70 <= snd kv)%Q)
  /\ (forall kv, weak kv = true <-> (snd kv <= 40)%Q)
  /\ (forall v, at_least_65 v = true <-> (65 <= v)%Q)
  /\ (forall v, at_most_40 v = true <-> (v <= 40)%Q)
  /\ (forall key test label,
        fires normalized_scores key test label <> []
        <-> exists v, assoc key normalized_scores = Some v /\ test v = true)
  /\ (forall key test label v,
        assoc key normalized_scores = Some v -> test v = true ->
        fires normalized_scores key test label
        = [label ++ " (" ++ format_f 1 v ++ "/100)"]).
Proof.
  cbv zeta. split; [apply swot_lists_eq|].
  split; [unfold generate_swot; now rewrite swot_lists_eq|].
  split; [intros kv; apply Qle_bool_iff|].
  split; [intros kv; apply Qle_bool_iff|].
  split; [intros v; apply Qle_bool_iff|].
  split; [intros v; apply Qle_bool_iff|].
  split.
  - intros key test label. unfold fires.
    destruct (assoc key normalized_scores) as [v|].
    + destruct (test v) eqn:T; split.
      * intros _. now exists v.
      * discriminate.
      * congruence.
      * intros (w & E & T'). congruence.
    + split; [congruence | intros (w & E & _); discriminate].
  - intros key test label v E T. unfold fires. now rewrite E, T.
Qed.

Lemma swot_all_midrange `{Builtins} (ns : list (string * Q)) :
  filter strong ns = [] -> filter weak ns = [] ->
  fires ns "market_gravity" at_least_65 "Strong market potential" = [] ->
  fires ns "timing" at_least_65 "Favorable timing" = [] ->
  fires ns "regulatory_alignment" at_most_40 "Regulatory friction" = [] ->
  fires ns "white_space" at_most_40 "Crowded market" = [] ->
  generate_swot ns = Raise (PydanticValidationError "SWOT").
Proof.
  intros S W O1 O2 T1 T2. unfold generate_swot.
  rewrite swot_lists_eq, S, W, O1, O2, T1, T2. reflexivity.
Qed.

(** ** Constructing a DimensionScore *)

Lemma bind_ok {A B} (m : result A) (k : A -> result B) (b : B) :
  bind m k = Ok b -> exists a, m = Ok a /\ k a = Ok b.
Proof. destruct m as [a|e]; simpl; [eauto | discriminate]. Qed.

Lemma DimensionScore_new_ok raw norm srcs name nts conf ds :
  DimensionScore_new raw norm srcs name nts conf = Ok ds ->
  raw = Finite (raw_score ds) /\ norm = Finite (normalized_score ds)
  /\ conf = Finite (confidence ds) /\ agent ds = name
  /\ as_str_list srcs = Some (sources ds) /\ nts = JStr (notes ds)
  /\ (0 <= raw_score ds <= 5)%Q /\ (0 <= normalized_score ds <= 100)%Q
  /\ (0 <= confidence ds <= 1)%Q.
Proof.
  unfold DimensionScore_new.
  destruct (as_float_in 0 5 raw) as [r|] eqn:R; [|discriminate].
  destruct (as_float_in 0 100 norm) as [n|] eqn:N; [|discriminate].
  destruct (as_str_list srcs) as [s|] eqn:S; [|discriminate].
  destruct (as_str nts) as [t|] eqn:T; [|discriminate].
  destruct (as_float_in 0 1 conf) as [c|] eqn:C; [|discriminate].
  destruct (sources_ok s && notes_ok t); [|discriminate].
  intros E. injection E as <-. simpl.
  apply as_float_in_some in R as (-> & ? & ?).
  apply as_float_in_some in N as (-> & ? & ?).
  apply as_float_in_some in C as (-> & ? & ?).
  destruct nts; try discriminate. injection T as ->.
  repeat split; auto.
Qed.

Lemma DimensionScore_new_confidence raw norm srcs name nts conf :
  as_float_in 0 1 conf = None ->
  DimensionScore_new raw norm srcs name nts conf
  = Raise (PydanticValidationError "DimensionScore").
Proof.
  intros C. unfold DimensionScore_new. rewrite C.
  destruct (as_float_in 0 5 raw), (as_float_in 0 100 norm),
    (as_str_list srcs), (as_str nts); reflexivity.
Qed.

Lemma all_str_map (l : list string) : all_str (map JStr l) = Some l.
Proof. induction l as [|s l IH]; simpl; [reflexivity | now rewrite IH]. Qed.

Lemma blank_strip (s : string) : blank (strip s) = blank s.
Proof. unfold blank. now rewrite strip_idem. Qed.

Lemma clean_sources_ok (l : list json) :
  forallb (fun s => negb (blank s)) (clean_sources l) = true.
Proof.
  induction l as [|x l IH]; simpl; [reflexivity|].
  destruct x; try exact IH.
  destruct (blank s) eqn:E; [exact IH|].
  simpl. now rewrite blank_strip, E, IH.
Qed.

Lemma nonempty_length {A} (l : list A) :
  nonempty l = true -> Nat.leb 1 (List.length l) = true.
Proof. destruct l; simpl; [discriminate | reflexivity]. Qed.

Lemma normalize_in_range (q : Q) :
  (0 <= q)%Q -> (q <= 5)%Q ->
  as_float_in 0 100 (normalize (Finite q)) = Some (q / 5 * 100)%Q.
Proof.
  intros L U. unfold normalize.
  assert (E : (q / 5 * 100 == q * 20)%Q) by field.
  apply as_float_in_finite; rewrite E; lra.
Qed.

(** What the guardrail builds once every check has passed. *)
Lemma validated_score_built (q cq : Q) (l : list json) (s name : string) :
  (0 <= q)%Q -> (q <= 5)%Q -> (0 <= cq)%Q -> (cq <= 1)%Q ->
  nonempty (clean_sources l) = true ->
  Nat.ltb (String.length (strip s)) 5 = false ->
  DimensionScore_new (Finite q) (normalize (Finite q))
    (JArr (map JStr (clean_sources l))) name (JStr (strip s)) (Finite cq)
  = Ok {| raw_score := q; normalized_score := (q / 5 * 100)%Q;
          sources := clean_sources l; agent := name; notes := strip s;
          confidence := cq |}.
Proof.
  intros Q0 Q5 C0 C1 S N. unfold DimensionScore_new.
  rewrite (as_float_in_finite 0 5 q Q0 Q5), (normalize_in_range q Q0 Q5).
  rewrite (as_float_in_finite 0 1 cq C0 C1).
  cbn [as_str_list as_str]. rewrite all_str_map.
  unfold sources_ok, notes_ok.
  rewrite (nonempty_length _ S), clean_sources_ok, strip_idem.
  apply Nat.ltb_ge in N. apply Nat.leb_le in N. now rewrite N.
Qed.

Lemma fle_unit_interval (lo hi : Q) (c : pyfloat) :
  fle (Finite lo) c && fle c (Finite hi) = true ->
  exists q, c = Finite q /\ (lo <= q)%Q /\ (q <= hi)%Q.
Proof.
  destruct c as [q| | |]; simpl; try discriminate.
  intros E. apply andb_true_iff in E as [L U].
  apply Qle_bool_iff in L. apply Qle_bool_iff in U. eauto.
Qed.

Lemma fle_outside (lo hi : Q) (c : pyfloat) :
  fle (Finite lo) c && fle c (Finite hi) = false -> as_float_in lo hi c = None.
Proof.
  destruct c as [q| | |]; simpl; try reflexivity. now intros ->.
Qed.

(** ** The guardrail on one score *)

Section Guardrail.
Context `{Builtins}.

Lemma float_raises (v : json) (e : exn) :
  float v = Raise e -> e = ValueError \/ e = TypeError \/ e = OverflowError.
Proof.
  destruct v as [|b|n|f|s|l|kv]; simpl; try discriminate;
    try (intros E; injection E as <-; auto).
  - unfold float_of_int. destruct (_ <? _)%Z; [discriminate|].
    intros E; injection E as <-; auto.
  - destruct (float_of_str s); [discriminate|].
    intros E; injection E as <-; auto.
Qed.

(** The outcome on a text that decodes to a dict: it is rejected by the
    first failing check, or the score is built from the cleaned fields. *)
Lemma validate_on_dict (raw_json name : string) (min_confidence : Q)
    (d : list (string * json)) (c : pyfloat) :
  json_loads raw_json = Some (JObj d) ->
  score_of d <> Raise OverflowError ->
  confidence_of d = Ok c ->
  (score_rejected d || sources_rejected d || notes_rejected d
   || confidence_rejected d min_confidence = true
   /\ raises_ValidationError
        (validate_dimension_score raw_json name min_confidence))
  \/
  (score_rejected d || sources_rejected d || notes_rejected d
   || confidence_rejected d min_confidence = false
   /\ exists q l s cq,
        score_of d = Ok (Finite q)
        /\ dict_get d "sources" (JArr []) = JArr l
        /\ dict_get d "notes" (JStr EmptyString) = JStr s
        /\ c = Finite cq
        /\ validate_dimension_score raw_json name min_confidence
           = Ok {| raw_score := q; normalized_score := (q / 5 * 100)%Q;
                   sources := clean_sources l; agent := name;
                   notes := strip s; confidence := cq |}).
Proof.
  intros J NoOv C.
  unfold validate_dimension_score, loads. rewrite J.
  cbn [try_except bind get].
  unfold score_rejected, sources_rejected, notes_rejected, confidence_rejected.
  rewrite C. fold (score_of d) (confidence_of d). rewrite C.
  destruct (score_of d) as [f|e] eqn:S.
  2:{ left. split; [reflexivity|].
      destruct (float_raises _ _ S) as [-> | [-> | ->]];
        [eexists; reflexivity | eexists; reflexivity | congruence]. }
  cbn [bind].
  destruct (fle (Finite 0) f && fle f (Finite 5)) eqn:R.
  2:{ left. split; [reflexivity | eexists; reflexivity]. }
  destruct (fle_unit_interval _ _ _ R) as (q & -> & Q0 & Q5).
  cbn [try_except bind negb orb].
  destruct (dict_get d "sources" (JArr [])) as [|b|n|g|t|l|kv] eqn:Src;
    try (left; split; [reflexivity | eexists; reflexivity]).
  destruct l as [|x r].
  { left. split; [reflexivity | eexists; reflexivity]. }
  cbn [bind].
  destruct (nonempty (clean_sources (x :: r))) eqn:NE.
  2:{ left. split; [reflexivity | eexists; reflexivity]. }
  cbn [bind negb orb].
  destruct (dict_get d "notes" (JStr "")) as [|b|n|g|s|l|kv] eqn:Nts;
    try (left; split; [reflexivity | eexists; reflexivity]).
  destruct (Nat.ltb (String.length (strip s)) 5) eqn:NL.
  { left. split; [reflexivity | eexists; reflexivity]. }
  cbn [bind orb].
  destruct (flt c (Finite min_confidence)) eqn:Low.
  { left. split; [reflexivity | eexists; reflexivity]. }
  cbn [bind orb].
  destruct (fle (Finite 0) c && fle c (Finite 1)) eqn:CR.
  - right. split; [reflexivity|].
    destruct (fle_unit_interval _ _ _ CR) as (cq & -> & C0 & C1).
    exists q, (x :: r), s, cq. repeat split.
    rewrite (validated_score_built q cq (x :: r) s name); auto.
  - left. split; [reflexivity|].
    rewrite DimensionScore_new_confidence by now apply fle_outside.
    eexists; reflexivity.
Qed.

End Guardrail.

(** ** Fallback and normalisation *)

Lemma fallback_eq (name : string) : fallback name = Ok (fallback_score name).
Proof. reflexivity. Qed.

Lemma try_except_ok {A} (body : result A) (catches : exn -> bool)
    (handler : exn -> result A) (a : A) :
  try_except body catches handler = Ok a ->
  body = Ok a \/ exists e, body = Raise e /\ catches e = true /\ handler e = Ok a.
Proof.
  destruct body as [b|e]; simpl; [auto|].
  destruct (catches e) eqn:C; [|discriminate]. right. eauto.
Qed.

Lemma new_normalized raw srcs name nts conf ds :
  DimensionScore_new raw (normalize raw) srcs name nts conf = Ok ds ->
  normalized_score ds = (raw_score ds / 5 * 100)%Q.
Proof.
  intros E. apply DimensionScore_new_ok in E as (R & N & _).
  rewrite R in N. simpl in N. now injection N.
Qed.

Ltac bind_inv H :=
  let x := fresh "x" in
  let E := fresh "E" in
  apply bind_ok in H as (x & E & H).

Section Normalised.
Context `{Builtins}.

Lemma validated_normalized raw_json name min_confidence ds :
  validate_dimension_score raw_json name min_confidence = Ok ds ->
  normalized_score ds = (raw_score ds / 5 * 100)%Q.
Proof.
  unfold validate_dimension_score. intros E.
  do 10 bind_inv E.
  apply try_except_ok in E as [E | (e & _ & _ & E)]; [|discriminate].
  now apply new_normalized in E.
Qed.

Lemma guardrailed_normalized name response ds :
  guardrailed_compute_signal name response = Ok ds ->
  (normalized_score ds == raw_score ds / 5 * 100)%Q.
Proof.
  unfold guardrailed_compute_signal. intros E.
  apply try_except_ok in E as [E | (e & _ & _ & E)].
  - do 2 bind_inv E. apply validated_normalized in E. now rewrite E.
  - rewrite fallback_eq in E. injection E as <-. reflexivity.
Qed.

Lemma plain_normalized name dflt response ds :
  plain_compute_signal name dflt response = Ok ds ->
  normalized_score ds = (raw_score ds / 5 * 100)%Q.
Proof.
  unfold plain_compute_signal. intros E.
  do 9 bind_inv E.
  assert (x2 = x4) by congruence. subst x4.
  assert (x3 = x5) by congruence. subst x5.
  now apply new_normalized in E.
Qed.

Lemma guardrailed_fallback name response raw_text clean_json :
  content_strip response = Ok raw_text ->
  sanitize_llm_output raw_text = Ok clean_json ->
  raises_ValidationError (validate_dimension_score clean_json name 0.3%Q) ->
  guardrailed_compute_signal name response = Ok (fallback_score name).
Proof.
  intros C S [why V]. unfold guardrailed_compute_signal.
  rewrite C. cbn [bind]. rewrite S. cbn [bind]. rewrite V.
  reflexivity.
Qed.

End Normalised.

(** C4: when validate_dimension_score raises ValidationError inside a
    guardrailed agent (TechnologySignalAgent or MarketSignalAgent),
    compute_signal returns exactly the fixed fallback score: raw_score 2.5,
    normalized_score 50.0, sources [fallback_default], the fixed notes and
    confidence 0.3, under the agent's own name. *)
Theorem C4_guardrailed_agents_fall_back `{Builtins}
    (response : completion) (raw_text clean_json : string) :
  content_strip response = Ok raw_text ->
  sanitize_llm_output raw_text = Ok clean_json ->
  (raises_ValidationError
     (validate_dimension_score clean_json "TechnologySignalAgent" 0.3%Q) ->
   compute_signal Technology response
   = Ok {| raw_score := 2.5%Q; normalized_score := 50.0%Q;
           sources := ["fallback_default"]; agent := "TechnologySignalAgent";
           notes := "Validation error occurred; using default score";
           confidence := 0.3%Q |})
  /\ (raises_ValidationError
        (validate_dimension_score clean_json "MarketSignalAgent" 0.3%Q) ->
      compute_signal Market response
      = Ok {| raw_score := 2.5%Q; normalized_score := 50.0%Q;
              sources := ["fallback_default"]; agent := "MarketSignalAgent";
              notes := "Validation error occurred; using default score";
              confidence := 0.3%Q |}).
Proof.
  intros C S. split; intros V.
  - exact (guardrailed_fallback _ _ _ _ C S V).
  - exact (guardrailed_fallback _ _ _ _ C S V).
Qed.


(** ** The orchestrator *)

Lemma seq_ok {A B} (m : step A) (k : A -> step B) h b h' :
  seq m k h = (Ok b, h') ->
  exists a h1, m h = (Ok a, h1) /\ k a h1 = (Ok b, h').
Proof.
  unfold seq. destruct (m h) as [[a|e] h1]; [eauto | discriminate].
Qed.

Lemma lift_ok {A} (r : result A) h a h' :
  lift r h = (Ok a, h') -> r = Ok a /\ h' = h.
Proof. unfold lift. intros E. injection E as -> ->. auto. Qed.

Lemma hook_ok (f : PipelineHooks -> PipelineHooks) h u h' :
  hook f h = (Ok u, h') -> h' = option_map f h.
Proof. unfold hook. intros E. now injection E as _ <-. Qed.

Lemma option_map_id {A} (f : A -> A) (a : option A) :
  (forall x, f x = x) -> option_map f a = a.
Proof. intros F. destruct a as [x|]; simpl; [now rewrite F | reflexivity]. Qed.

Lemma extends_refl (a : option PipelineHooks) : extends a a.
Proof.
  destruct a as [x|]; simpl; [|exact I].
  split; [repeat split | exists []; now rewrite app_nil_r].
Qed.

Lemma extends_trans (a b c : option PipelineHooks) :
  extends a b -> extends b c -> extends a c.
Proof.
  destruct a as [x|], b as [y|], c as [z|]; simpl; try tauto.
  intros [(M1 & T1 & C1) [m1 F1]] [(M2 & T2 & C2) [m2 F2]].
  split; [repeat split; congruence|].
  exists (m1 ++ m2)%list. now rewrite F2, F1, app_assoc.
Qed.

Lemma fold_add_flag {A} (g : A -> string) (l : list A) (x : PipelineHooks) :
  let y := fold_left (fun h i => add_flag h (g i)) l x in
  same_counters y x /\ all_flags y = (all_flags x ++ map g l)%list.
Proof.
  revert x. induction l as [|i l IH]; intros x; simpl.
  - split; [repeat split | now rewrite app_nil_r].
  - destruct (IH (add_flag x (g i))) as [(M & T & C) F].
    split; [repeat split; assumption|].
    rewrite F. simpl. now rewrite <- app_assoc.
Qed.

Lemma extends_flags {A} (g : A -> string) (l : list A) (a : option PipelineHooks) :
  extends a (option_map (fun h => fold_left (fun h i => add_flag h (g i)) l h) a).
Proof.
  destruct a as [x|]; simpl; [|exact I].
  destruct (fold_add_flag g l x) as [S F]. split; [exact S | eauto].
Qed.

Lemma usage_extends `{Builtins} (a b : option PipelineHooks) :
  extends a b -> usage_of b = usage_of a.
Proof.
  destruct a as [x|], b as [y|]; simpl; try tauto.
  intros [(M & T & C) _]. unfold summary_total_duration.
  now rewrite M, T, C.
Qed.

Lemma extends_flagged (a b : option PipelineHooks) (x y : PipelineHooks) (f : string) :
  extends a b -> a = Some x -> b = Some y -> In f (all_flags x) -> In f (all_flags y).
Proof.
  intros E -> ->. simpl in E. destruct E as [_ [more F]].
  rewrite F. intros I. apply in_or_app. now left.
Qed.

Lemma extends_some (a b : option PipelineHooks) (x : PipelineHooks) :
  extends a b -> a = Some x -> exists y, b = Some y.
Proof. intros E ->. destruct b as [y|]; [eauto | contradiction]. Qed.

Lemma extends_none (a b : option PipelineHooks) :
  extends a b -> a = None -> b = None.
Proof. intros E ->. destruct b; [contradiction | reflexivity]. Qed.

Lemma PatentRelevanceOutput_new_ok id raw norm prs sw conf ev fl usage out :
  PatentRelevanceOutput_new id raw norm prs sw conf ev fl usage = Ok out ->
  o_idea_id out = id /\ dimension_scores out = raw
  /\ normalized_scores out = norm /\ patent_relevance_score out = prs
  /\ swot out = sw /\ evidence_map out = ev
  /\ conf = JStr (o_confidence out)
  /\ (exists l, fl = JArr l /\ all_str l = Some (flags out))
  /\ all_int usage = Some (usage_summary out).
Proof.
  unfold PatentRelevanceOutput_new.
  destruct (as_float_in 0 100 (Finite prs)) as [p|] eqn:P; [|discriminate].
  destruct (as_str conf) as [c|] eqn:C; [|discriminate].
  destruct (as_str_list fl) as [f|] eqn:F; [|discriminate].
  destruct (all_int usage) as [u|] eqn:U; [|discriminate].
  destruct (is_level c); [|discriminate].
  intros E. injection E as <-. simpl.
  apply as_float_in_some in P as (P & _). injection P as <-.
  destruct conf; try discriminate. injection C as ->.
  destruct fl; try discriminate. simpl in F.
  repeat split; eauto.
Qed.

Section Orchestrator.
Context `{Builtins}.

Lemma batch_hook_extends (ok : bool) (issues : list string) h2 h3 :
  (if ok then lift (Ok tt)
   else hook (fun h =>
                fold_left (fun h issue => on_validation_error h "signals_batch" issue)
                  issues h)) h2 = (Ok tt, h3) ->
  extends h2 h3
  /\ (ok = false -> forall x y issue, h2 = Some x -> h3 = Some y ->
      In issue issues -> In (batch_flag issue) (all_flags y)).
Proof.
  destruct ok.
  - intros E. apply lift_ok in E as [_ ->].
    split; [apply extends_refl | discriminate].
  - intros E. apply hook_ok in E. subst h3.
    split; [apply (extends_flags batch_flag)|].
    intros _ x y issue -> Y I. simpl in Y. injection Y as <-.
    destruct (fold_add_flag batch_flag issues x) as [_ F].
    cbv zeta in F.
    change (fun h issue => on_validation_error h "signals_batch" issue)
      with (fun h i => add_flag h (batch_flag i)).
    rewrite F. apply in_or_app. right. now apply in_map.
Qed.

Lemma quality_hook_extends (f : json) h3 h4 :
  (if truthy f
   then seq (lift (len f))
          (fun _ => seq (lift (iter f))
             (fun items => hook (fun h => on_quality_check h "reviewer" items)))
   else lift (Ok tt)) h3 = (Ok tt, h4) ->
  extends h3 h4.
Proof.
  destruct (truthy f).
  - intros E. apply seq_ok in E as (n & h & L & E).
    apply lift_ok in L as [_ ->].
    apply seq_ok in E as (items & h & I & E).
    apply lift_ok in I as [_ ->].
    apply hook_ok in E. subst h4.
    apply (extends_flags (fun i => "QUALITY_ISSUE in reviewer: " ++ fstr i)).
  - intros E. apply lift_ok in E as [_ ->]. apply extends_refl.
Qed.

(** A completed evaluation, stage by stage. *)
Lemma evaluate_ok invention llm h out h' :
  evaluate invention llm h = (Ok out, h') ->
  exists s ok issues,
    reached invention llm s
    /\ validate_multiple_scores (batch s) 6 = Ok (ok, issues)
    /\ assemble invention s (hooks_started h) = Ok out
    /\ extends (hooks_started h) h'
    /\ (forall x y issue, hooks_started h = Some x -> h' = Some y ->
          In issue issues -> In (batch_flag issue) (all_flags y)).
Proof.
  intros E. unfold evaluate in E.
  apply seq_ok in E as (t & h1 & T & E). apply lift_ok in T as [T ->].
  apply seq_ok in E as ([] & h2 & S & E). apply hook_ok in S.
  apply seq_ok in E as (tech & h3 & Tech & E). apply lift_ok in Tech as [Tech ->].
  apply seq_ok in E as (market & h3 & Mk & E). apply lift_ok in Mk as [Mk ->].
  apply seq_ok in E as (product & h3 & Pr & E). apply lift_ok in Pr as [Pr ->].
  apply seq_ok in E as (regulatory & h3 & Rg & E). apply lift_ok in Rg as [Rg ->].
  apply seq_ok in E as (strategic & h3 & St & E). apply lift_ok in St as [St ->].
  apply seq_ok in E as (timing & h3 & Ti & E). apply lift_ok in Ti as [Ti ->].
  apply seq_ok in E as ([ok issues] & h3 & V & E). apply lift_ok in V as [V ->].
  apply seq_ok in E as ([] & h3 & Hk & E).
  apply seq_ok in E as ([] & hl & Lg & E). apply hook_ok in Lg.
  rewrite option_map_id in Lg by reflexivity. subst hl.
  apply seq_ok in E as ([[[prs raw] norm] ev] & h4 & Sc & E).
  apply lift_ok in Sc as [Sc ->].
  apply seq_ok in E as ([c f] & h4 & Rv & E). apply lift_ok in Rv as [Rv ->].
  apply seq_ok in E as ([] & h4 & Up & E). apply lift_ok in Up as [Up ->].
  apply seq_ok in E as ([] & h4 & Q & E).
  apply seq_ok in E as (sw & h5 & Sw & E). apply lift_ok in Sw as [Sw ->].
  apply seq_ok in E as (hk & h5 & Rd & E).
  unfold read_hooks in Rd. injection Rd as <- <-.
  apply seq_ok in E as (o & h5 & E & Fin). apply lift_ok in E as [E ->].
  apply seq_ok in Fin as ([] & h6 & Cm & Fin). apply hook_ok in Cm.
  rewrite option_map_id in Cm by reflexivity. subst h6.
  apply lift_ok in Fin as [Fin ->]. injection Fin as ->.
  apply batch_hook_extends in Hk as [X23 Fl].
  apply quality_hook_extends in Q.
  fold (hooks_started h) in S. subst h2.
  pose proof (extends_trans _ _ _ X23 Q) as X.
  exists {| s_triaged := t; s_tech := tech; s_market := market;
            s_product := product; s_regulatory := regulatory;
            s_strategic := strategic; s_timing := timing; s_prs := prs;
            s_raw := raw; s_norm := norm; s_evidence := ev;
            s_confidence := c; s_flags := f; s_swot := sw |}, ok, issues.
  split; [unfold reached; simpl; repeat split; assumption|].
  split; [exact V|].
  split; [unfold assemble; simpl; now rewrite <- (usage_extends _ _ X)|].
  split; [exact X|].
  intros x y issue Hx Hy I.
  destruct ok.
  - unfold batch in V. simpl in V.
    rewrite validate_multiple_scores_eq in V. injection V as L <-.
    apply length_zero_iff in L. rewrite L in I. contradiction.
  - destruct (extends_some _ _ _ X23 Hx) as [z Hz].
    apply (extends_flagged h3 _ z y _ Q Hz Hy).
    now apply (Fl eq_refl x z issue).
Qed.

Lemma seq_lift {A B} (r : result A) (k : A -> step B) (a : A) h :
  r = Ok a -> seq (lift r) k h = k a h.
Proof. now intros ->. Qed.

(** The other stages decide whether an evaluation completes. *)
Lemma evaluate_complete invention llm h s out :
  reached invention llm s ->
  assemble invention s (hooks_started h) = Ok out ->
  fst (evaluate invention llm h) = Ok out.
Proof.
  intros (T & Tech & Mk & Pr & Rg & St & Ti & Sc & Rv & Sw) A.
  simpl in Tech, Mk, Pr, Rg, St, Ti.
  unfold evaluate.
  rewrite (seq_lift _ _ _ _ T).
  unfold seq at 1. unfold hook at 1. fold (hooks_started h).
  rewrite (seq_lift _ _ _ _ Tech), (seq_lift _ _ _ _ Mk), (seq_lift _ _ _ _ Pr),
    (seq_lift _ _ _ _ Rg), (seq_lift _ _ _ _ St), (seq_lift _ _ _ _ Ti).
  rewrite (seq_lift _ _ _ _ (validate_multiple_scores_eq _ _)).
  unfold seq at 1.
  destruct ((if Nat.eqb _ 0 then lift (Ok tt) else hook _) (hooks_started h))
    as [[[]|e] h3] eqn:Hk.
  2:{ destruct (Nat.eqb _ 0); discriminate. }
  apply batch_hook_extends in Hk as [X23 _].
  unfold seq at 1. unfold hook at 1.
  rewrite option_map_id by reflexivity.
  rewrite (seq_lift _ _ _ _ Sc), (seq_lift _ _ _ _ Rv).
  unfold assemble in A.
  pose proof (PatentRelevanceOutput_new_ok _ _ _ _ _ _ _ _ _ _ A)
    as (_ & _ & _ & _ & _ & _ & C & (l & F & _) & _).
  rewrite C, F in *.
  rewrite (seq_lift _ _ tt _ eq_refl).
  unfold seq at 1.
  destruct ((if truthy (JArr l) then _ else lift (Ok tt)) h3)
    as [[[]|e] h4] eqn:Q.
  2:{ destruct (truthy (JArr l)); discriminate. }
  apply quality_hook_extends in Q.
  rewrite (seq_lift _ _ _ _ Sw).
  unfold seq at 1. unfold read_hooks at 1.
  rewrite (usage_extends _ _ (extends_trans _ _ _ X23 Q)).
  rewrite (seq_lift _ _ _ _ A).
  reflexivity.
Qed.

End Orchestrator.

(** C8: in a successful evaluation the dimension_scores,
    normalized_scores and patent_relevance_score of the result are the
    values calculate_prs produced from the six agents' scores, before the
    Reviewer ran; with any other Reviewer answer that also lets the
    evaluation succeed, these fields, and every field other than
    confidence and flags, are the same. *)
Theorem C8_reviewer_alters_no_score `{Builtins}
    (invention : InventionInput) (llm : Responses) (h : option PipelineHooks)
    (out : PatentRelevanceOutput) (h' : option PipelineHooks) :
  evaluate invention llm h = (Ok out, h') ->
  (exists tech market product regulatory strategic timing prs raw norm ev,
     compute_signal Technology (r_tech llm) = Ok tech
     /\ compute_signal Market (r_market llm) = Ok market
     /\ compute_signal Product (r_product llm) = Ok product
     /\ compute_signal Regulatory (r_regulatory llm) = Ok regulatory
     /\ compute_signal Strategic (r_strategic llm) = Ok strategic
     /\ compute_signal Timing (r_timing llm) = Ok timing
     /\ calculate_prs tech market product strategic timing regulatory
        = Ok (prs, raw, norm, ev)
     /\ dimension_scores out = raw
     /\ normalized_scores out = norm
     /\ patent_relevance_score out = prs)
  /\ (forall (answer : completion) out2 h2,
        evaluate invention (with_reviewer llm answer) h = (Ok out2, h2) ->
        dimension_scores out2 = dimension_scores out
        /\ normalized_scores out2 = normalized_scores out
        /\ patent_relevance_score out2 = patent_relevance_score out
        /\ o_idea_id out2 = o_idea_id out
        /\ swot out2 = swot out
        /\ evidence_map out2 = evidence_map out
        /\ usage_summary out2 = usage_summary out).
Proof.
  intros E.
  apply evaluate_ok in E
    as (s & ok & issues & (T & Tech & Mk & Pr & Rg & St & Ti & Sc & Rv & Sw)
        & _ & A & _).
  apply PatentRelevanceOutput_new_ok in A
    as (Id & Raw & Norm & Prs & Swot & Ev & _ & _ & Us).
  split.
  - exists (s_tech s), (s_market s), (s_product s), (s_regulatory s),
      (s_strategic s), (s_timing s), (s_prs s), (s_raw s), (s_norm s),
      (s_evidence s).
    repeat split; assumption.
  - intros answer out2 h2 E2.
    apply evaluate_ok in E2
      as (s2 & ok2 & issues2
          & (T2 & Tech2 & Mk2 & Pr2 & Rg2 & St2 & Ti2 & Sc2 & Rv2 & Sw2)
          & _ & A2 & _).
    apply PatentRelevanceOutput_new_ok in A2
      as (Id2 & Raw2 & Norm2 & Prs2 & Swot2 & Ev2 & _ & _ & Us2).
    cbn [with_reviewer r_tech r_market r_product r_regulatory r_strategic
           r_timing] in Tech2, Mk2, Pr2, Rg2, St2, Ti2.
    assert (s_tech s2 = s_tech s) as Et by congruence.
    assert (s_market s2 = s_market s) as Em by congruence.
    assert (s_product s2 = s_product s) as Ep by congruence.
    assert (s_regulatory s2 = s_regulatory s) as Er by congruence.
    assert (s_strategic s2 = s_strategic s) as Es by congruence.
    assert (s_timing s2 = s_timing s) as Ei by congruence.
    rewrite Et, Em, Ep, Er, Es, Ei, Sc in Sc2.
    injection Sc2 as P R N V.
    rewrite <- N, Sw in Sw2. injection Sw2 as W.
    repeat split; congruence.
Qed.

(** C3 (as amended): batch-level issues are never fatal and are recorded
    through the hooks, not in the result.  In a completed evaluation the
    flags of the result are exactly the Reviewer's flags, and with hooks
    enabled every issue of validate_multiple_scores is in the hooks'
    all_flags as VALIDATION_ERROR in signals_batch: issue; whenever the
    other stages return and the result validates, the evaluation
    completes, whatever the batch check reports, and the batch check
    itself never raises. *)
Theorem C3_batch_issues_go_to_hooks_and_are_not_fatal `{Builtins}
    (invention : InventionInput) (llm : Responses) (h : option PipelineHooks) :
  (forall out h',
     evaluate invention llm h = (Ok out, h') ->
     exists s ok issues,
       reached invention llm s
       /\ validate_multiple_scores (batch s) 6 = Ok (ok, issues)
       /\ as_str_list (s_flags s) = Some (flags out)
       /\ (h = None -> h' = None)
       /\ (forall x, h = Some x ->
             exists y, h' = Some y
                       /\ forall issue, In issue issues ->
                            In (batch_flag issue) (all_flags y)))
  /\ (forall s out,
        reached invention llm s ->
        assemble invention s (hooks_started h) = Ok out ->
        fst (evaluate invention llm h) = Ok out)
  /\ (forall scores, exists ok issues,
        validate_multiple_scores scores 6 = Ok (ok, issues)).
Proof.
  split; [|split].
  - intros out h' E.
    apply evaluate_ok in E as (s & ok & issues & R & V & A & X & Fl).
    exists s, ok, issues. split; [exact R|]. split; [exact V|].
    apply PatentRelevanceOutput_new_ok in A
      as (_ & _ & _ & _ & _ & _ & _ & (l & F & L) & _).
    split; [rewrite F; exact L|].
    split.
    + intros ->. now apply (extends_none _ _ X).
    + intros x ->. destruct (extends_some _ _ _ X eq_refl) as [y Y].
      exists y. split; [exact Y|]. intros issue I.
      now apply (Fl _ y issue eq_refl Y).
  - intros s out. apply evaluate_complete.
  - intros scores. rewrite validate_multiple_scores_eq. eauto.
Qed.

(** C2 (as amended): on a text that is not parseable, or that decodes to
    a dict whose aggregate_score does not overflow float() and whose
    confidence, when present, is a value float() accepts,
    validate_dimension_score raises ValidationError when, and only when:
    the text is not parseable; aggregate_score is present and is not a
    number float() accepts or is outside [0,5] (a missing aggregate_score
    counts as 0); sources is missing, not a list, empty, or without any
    string that is non-empty after trimming; notes is missing, not a
    string, or shorter than 5 characters after trimming; confidence (0.5
    when missing) is below min_confidence or outside [0,1].  On every
    other such input it returns a DimensionScore. *)
Theorem C2_guardrail_rejection_rule `{Builtins}
    (raw_json name : string) (min_confidence : Q) :
  (json_loads raw_json = None ->
   validate_dimension_score raw_json name min_confidence
   = Raise (ValidationError InvalidJSON))
  /\ (forall d c,
        json_loads raw_json = Some (JObj d) ->
        score_of d <> Raise OverflowError ->
        confidence_of d = Ok c ->
        (raises_ValidationError
           (validate_dimension_score raw_json name min_confidence)
         <-> score_rejected d = true \/ sources_rejected d = true
             \/ notes_rejected d = true
             \/ confidence_rejected d min_confidence = true)
        /\ (~ (score_rejected d = true \/ sources_rejected d = true
               \/ notes_rejected d = true
               \/ confidence_rejected d min_confidence = true) ->
            returns (validate_dimension_score raw_json name min_confidence))
        /\ (assoc "aggregate_score" d = None -> score_rejected d = false)).
Proof.
  split.
  - intros J. unfold validate_dimension_score, loads. now rewrite J.
  - intros d c J NoOv C.
    assert (B : forall a b e f : bool,
               a || b || e || f = true
               <-> a = true \/ b = true \/ e = true \/ f = true).
    { intros [] [] [] []; simpl; intuition congruence. }
    destruct (validate_on_dict raw_json name min_confidence d c J NoOv C)
      as [[R V] | [R (q & l & s & cq & _ & _ & _ & _ & V)]].
    + apply B in R. split; [tauto|]. split; [tauto|].
      intros M. unfold score_rejected, score_of, dict_get. now rewrite M.
    + split; [|split].
      * split.
        -- intros [why W]. rewrite V in W. discriminate.
        -- intros D. apply B in D. congruence.
      * intros _. eexists. exact V.
      * intros M. unfold score_rejected, score_of, dict_get. now rewrite M.
Qed.

(** C10: generate_swot is not total on maps with values in [0,100]: with
    all six dimensions at 50, which is what six fallback scores produce,
    the SWOT model rejects the four empty lists and generate_swot
    raises; a full evaluation fails that way at the Synthesize stage. *)
Theorem C10_generate_swot_raises_on_all_fifty :
  (forall kv, In kv all_fifty -> (0 <= snd kv <= 100)%Q)
  /\ map fst all_fifty = dimensions
  /\ (forall B : Builtins,
        @generate_swot B all_fifty = Raise (PydanticValidationError "SWOT"))
  /\ (forall (B : Builtins) n1 n2 n3 n4 n5 n6,
        exists prs raw norm ev,
          calculate_prs (fallback_score n1) (fallback_score n2)
            (fallback_score n3) (fallback_score n4) (fallback_score n5)
            (fallback_score n6) = Ok (prs, raw, norm, ev)
          /\ map fst norm = dimensions
          /\ (forall kv, In kv norm -> (snd kv == 50)%Q)
          /\ @generate_swot B norm = Raise (PydanticValidationError "SWOT"))
  /\ (exists (B : Builtins) invention llm h,
        is_ok (TriageOrchestrator.triage invention (r_triage llm)) = true
        /\ is_ok (compute_signal Technology (r_tech llm)) = true
        /\ is_ok (compute_signal Market (r_market llm)) = true
        /\ is_ok (compute_signal Product (r_product llm)) = true
        /\ is_ok (compute_signal Regulatory (r_regulatory llm)) = true
        /\ is_ok (compute_signal Strategic (r_strategic llm)) = true
        /\ is_ok (compute_signal Timing (r_timing llm)) = true
        /\ fst (evaluate invention llm h)
           = Raise (PydanticValidationError "SWOT")).
Proof.
  split; [|split; [|split; [|split]]].
  - intros kv I. simpl in I.
    destruct I as [<- | [<- | [<- | [<- | [<- | [<- | []]]]]]];
      split; discriminate.
  - reflexivity.
  - intros B. apply swot_all_midrange; reflexivity.
  - intros B n1 n2 n3 n4 n5 n6.
    destruct (calculate_prs_eq (fallback_score n1) (fallback_score n2)
                (fallback_score n3) (fallback_score n4) (fallback_score n5)
                (fallback_score n6)) as [prs [E _]].
    exists prs. do 3 eexists. split; [exact E|].
    split; [reflexivity|]. split.
    + intros kv I. simpl in I.
      destruct I as [<- | [<- | [<- | [<- | [<- | [<- | []]]]]]]; reflexivity.
    + apply swot_all_midrange; reflexivity.
  - exists Examples.example_builtins, Examples.invention, Examples.default_run,
      (Some Hooks.init).
    repeat split; vm_compute; reflexivity.
Qed.

(** * The claims on concrete inputs *)

Import Examples.


(** The guardrail on the inputs of the specification's examples. *)
Example guardrail_examples :
  validate_dimension_score (score_text "5.1") "A" 0.3%Q
  = Raise (ValidationError ScoreOutOfRange)
  /\ validate_dimension_score (full_text "[]" notes_text "0.8") "A" 0.3%Q
     = Raise (ValidationError NoSources)
  /\ validate_dimension_score (full_text sources_text (quoted "ok") "0.8") "A" 0.3%Q
     = Raise (ValidationError NotesTooBrief)
  /\ validate_dimension_score (full_text sources_text notes_text "0.1") "A" 0.3%Q
     = Raise (ValidationError LowConfidence)
  /\ validate_dimension_score (full_text sources_text notes_text "0.8") "A" 0.3%Q
     = Ok {| raw_score := 3; normalized_score := (3 / 5 * 100)%Q;
             sources := ["survey"]; agent := "A"; notes := "plain notes";
             confidence := 0.8%Q |}.
Proof. repeat split; reflexivity. Qed.

(** C2 fails as stated.  On the text
    {"sources": ["survey"], "notes": "plain notes"} the aggregate_score is
    missing, so the stated rule rejects, and the code returns a
    DimensionScore with raw_score 0; with "confidence": 1.5, and with
    "sources": [7], none of the stated conditions holds and the code
    raises ValidationError; on the text [] and on "confidence": null the
    code raises AttributeError and TypeError, neither a ValidationError
    nor a DimensionScore. *)
Lemma C2_counterexample :
  (json_loads no_score_text = Some no_score_doc
   /\ field_of no_score_doc "aggregate_score" = None
   /\ stated_rejects no_score_text 0.3%Q = true
   /\ validate_dimension_score no_score_text "TechnologySignalAgent" 0.3%Q
      = Ok {| raw_score := 0; normalized_score := (0 / 5 * 100)%Q;
              sources := ["survey"]; agent := "TechnologySignalAgent";
              notes := "plain notes"; confidence := 0.5%Q |})
  /\ (stated_rejects (full_text sources_text notes_text "1.5") 0.3%Q = false
      /\ validate_dimension_score (full_text sources_text notes_text "1.5")
           "TechnologySignalAgent" 0.3%Q
         = Raise (ValidationError CreateFailed))
  /\ (stated_rejects (full_text "[7]" notes_text "0.8") 0.3%Q = false
      /\ validate_dimension_score (full_text "[7]" notes_text "0.8")
           "TechnologySignalAgent" 0.3%Q
         = Raise (ValidationError AllSourcesEmpty))
  /\ validate_dimension_score "[]" "TechnologySignalAgent" 0.3%Q
     = Raise AttributeError
  /\ validate_dimension_score (full_text sources_text notes_text "null")
       "TechnologySignalAgent" 0.3%Q
     = Raise TypeError.
Proof. repeat split; reflexivity. Qed.

Lemma C2_witness :
  validate_dimension_score "no json here" "A" 0.3%Q
  = Raise (ValidationError InvalidJSON)
  /\ returns (validate_dimension_score
                (full_text sources_text notes_text "0.8") "A" 0.3%Q)
  /\ raises_ValidationError
       (validate_dimension_score (score_text "5.1") "A" 0.3%Q).
Proof.
  split; [|split].
  - apply (C2_guardrail_rejection_rule "no json here" "A" 0.3%Q). reflexivity.
  - pose (d := [("aggregate_score", JInt 3); ("sources", survey);
                ("notes", plain); ("confidence", JFloat (Finite 0.8%Q))]).
    assert (J : json_loads (full_text sources_text notes_text "0.8")
                = Some (JObj d)) by reflexivity.
    assert (N : score_of d <> Raise OverflowError) by discriminate.
    destruct (proj2 (C2_guardrail_rejection_rule
                       (full_text sources_text notes_text "0.8") "A" 0.3%Q)
                d (Finite 0.8%Q) J N eq_refl) as (_ & R & _).
    apply R. vm_compute. intros [X | [X | [X | X]]]; discriminate X.
  - pose (d := [("aggregate_score", JFloat (Finite 5.1%Q));
                ("sources", survey); ("notes", plain)]).
    assert (J : json_loads (score_text "5.1") = Some (JObj d)) by reflexivity.
    assert (N : score_of d <> Raise OverflowError) by discriminate.
    destruct (proj2 (C2_guardrail_rejection_rule (score_text "5.1") "A" 0.3%Q)
                d (Finite 0.5%Q) J N eq_refl) as (I & _ & _).
    apply I. left. reflexivity.
Defined.

(** C3 fails as stated.  With the product agent scoring 5 the batch check
    reports one issue; the evaluation completes, the flags of its result
    are empty, and the issue is only in the hooks' all_flags. *)
Lemma C3_counterexample :
  (scores <- signals_of flagged_run ;; validate_multiple_scores scores 6)
  = Ok (false,
        ["ProductLandscapeAgent: High score 100.0 with low confidence 0.50"])
  /\ match evaluate invention flagged_run (Some Hooks.init) with
     | (Ok out, Some hooks) =>
         flags out = []
         /\ ~ In "ProductLandscapeAgent: High score 100.0 with low confidence 0.50"
                (flags out)
         /\ all_flags hooks
            = ["VALIDATION_ERROR in signals_batch: ProductLandscapeAgent: High score 100.0 with low confidence 0.50"]
     | _ => False
     end.
Proof.
  split; [reflexivity|].
  vm_compute. split; [reflexivity|]. split; [tauto | reflexivity].
Qed.

Lemma C3_witness :
  exists out h' s,
    evaluate invention flagged_run (Some Hooks.init) = (Ok out, h')
    /\ reached invention flagged_run s
    /\ as_str_list (s_flags s) = Some (flags out)
    /\ exists y, h' = Some y.
Proof.
  destruct (evaluate invention flagged_run (Some Hooks.init))
    as [[out|e] h'] eqn:E; [|vm_compute in E; discriminate].
  destruct (C3_batch_issues_go_to_hooks_and_are_not_fatal
              invention flagged_run (Some Hooks.init)) as [P _].
  destruct (P out h' E) as (s & ok & issues & R & _ & F & _ & Hk).
  destruct (Hk _ eq_refl) as (y & Y & _).
  exists out, h', s.
  split; [reflexivity|]. split; [exact R|]. split; [exact F|].
  exists y. exact Y.
Defined.

Lemma C4_witness :
  compute_signal Technology (answer "no json here")
  = Ok (fallback_score "TechnologySignalAgent")
  /\ compute_signal Market (answer "no json here")
     = Ok (fallback_score "MarketSignalAgent").
Proof.
  destruct (C4_guardrailed_agents_fall_back (answer "no json here")
              "no json here" "no json here" eq_refl eq_refl) as [T M].
  split; [apply T | apply M]; exists InvalidJSON; reflexivity.
Defined.

Lemma C5_witness :
  generate_swot swot_example
  = Ok {| strengths := ["Tech Momentum: 80.0/100"; "Timing: 70.0/100"];
          weaknesses := ["Market Gravity: 30.0/100"; "White Space: 20.0/100";
                         "Regulatory Alignment: 35.0/100"];
          opportunities := ["Favorable timing (70.0/100)"];
          threats := ["Regulatory friction (35.0/100)";
                      "Crowded market (20.0/100)"] |}.
Proof.
  destruct (C5_swot_threshold_rules swot_example) as (_ & G & _).
  rewrite G. reflexivity.
Defined.



Lemma C8_witness :
  exists out h',
    evaluate invention flagged_run (Some Hooks.init) = (Ok out, h')
    /\ map fst (dimension_scores out) = dimensions
    /\ exists tech market product regulatory strategic timing prs raw norm ev,
         calculate_prs tech market product strategic timing regulatory
         = Ok (prs, raw, norm, ev)
         /\ dimension_scores out = raw /\ normalized_scores out = norm
         /\ patent_relevance_score out = prs.
Proof.
  destruct (evaluate invention flagged_run (Some Hooks.init))
    as [[out|e] h'] eqn:E; [|vm_compute in E; discriminate].
  destruct (C8_reviewer_alters_no_score invention flagged_run
              (Some Hooks.init) out h' E) as [P _].
  destruct P as (tech & market & product & regulatory & strategic & timing
                 & prs & raw & norm & ev & _ & _ & _ & _ & _ & _ & S & Dr & Dn & Dp).
  exists out, h'. split; [reflexivity|]. split.
  - vm_compute in E. injection E as <- _. reflexivity.
  - exists tech, market, product, regulatory, strategic, timing, prs, raw,
      norm, ev. auto.
Defined.

Lemma C10_witness :
  (0 <= snd ("timing", 50%Q) <= 100)%Q
  /\ generate_swot all_fifty = Raise (PydanticValidationError "SWOT").
Proof.
  destruct C10_generate_swot_raises_on_all_fifty as (R & _ & G & _).
  split; [apply R; simpl; auto 10 | apply G].
Defined.

(** * Further properties of the code *)

Import Extra.

(** ** Strings, continued *)

Lemma length_lstrip (s : string) : String.length (lstrip s) <= String.length s.
Proof.
  induction s as [|c s IH]; simpl; [lia|].
  destruct (is_space c); simpl; lia.
Qed.

Lemma length_rstrip (s : string) : String.length (rstrip s) <= String.length s.
Proof.
  induction s as [|c s IH]; simpl; [lia|].
  destruct (rstrip s); [destruct (is_space c)|]; simpl in *; lia.
Qed.

Lemma length_strip (s : string) : String.length (strip s) <= String.length s.
Proof.
  unfold strip. pose proof (length_rstrip (lstrip s)). pose proof (length_lstrip s).
  lia.
Qed.

Lemma startswith_inv (s p : string) :
  startswith s p = true -> exists r, s = p ++ r.
Proof.
  revert s. induction p as [|a p IH]; intros s; [now exists s|].
  destruct s as [|b s]; simpl; [discriminate|].
  intros E. apply andb_true_iff in E as [A E].
  apply Ascii.eqb_eq in A. subst b.
  destruct (IH s E) as [r ->]. now exists r.
Qed.

Lemma split_go_nonempty (sep : string) (s : string) (skip : nat) (cur : string) :
  split_go sep skip cur s <> [].
Proof.
  revert skip cur. induction s as [|c s IH]; intros skip cur; [discriminate|].
  cbn [split_go]. destruct skip; [|apply IH].
  destruct (startswith (String c s) sep); [discriminate | apply IH].
Qed.

(** A text that begins with a fence has a second piece. *)
Lemma split_second (text : string) :
  startswith text fence = true ->
  exists t, index (split text fence) 1 = Ok t.
Proof.
  intros S. apply startswith_inv in S as [r ->].
  unfold split.
  change (split_go fence 0 "" (fence ++ r)) with ("" :: split_go fence 0 "" r).
  destruct (split_go fence 0 "" r) as [|t l] eqn:E.
  - now apply split_go_nonempty in E.
  - now exists t.
Qed.

(** ** Unwrapping the service's answers *)

Lemma sanitize_returns (raw_text : string) :
  exists out, sanitize_llm_output raw_text = Ok out /\ trimmed out.
Proof.
  unfold sanitize_llm_output.
  destruct (startswith (strip raw_text) fence) eqn:S.
  - destruct (split_second _ S) as [t T]. rewrite T. cbn [bind].
    eexists. split; [reflexivity | apply strip_idem].
  - cbn [bind]. eexists. split; [reflexivity | apply strip_idem].
Qed.

(** sanitize_llm_output never raises: the index into the split text cannot
    fail; and what it returns has no white space at either end. *)
Theorem X_sanitize_always_returns_trimmed (raw_text : string) :
  exists out, sanitize_llm_output raw_text = Ok out /\ trimmed out.
Proof. exact (sanitize_returns raw_text). Qed.

Lemma occurs_lstrip_chars (chars p sep : string) :
  occurs (lstrip_chars chars p) sep = true -> occurs p sep = true.
Proof.
  induction p as [|c p IH]; [auto|].
  change (lstrip_chars chars (String c p))
    with (if mem_char c chars then lstrip_chars chars p else String c p).
  destruct (mem_char c chars); [|auto].
  intros E. apply occurs_cons. auto.
Qed.

Lemma unfence_fenced (x p : string) :
  occurs x fence = false -> occurs p fence = false ->
  lstrip_chars json_nl (x ++ newline) = lstrip_chars json_nl (p ++ newline) ->
  unfence (fence ++ x ++ String nl fence)
  = Ok (lstrip_chars json_nl (p ++ newline)).
Proof.
  intros X P L. unfold unfence.
  change (startswith (fence ++ x ++ String nl fence) "```") with true.
  cbv iota. change "```" with fence. rewrite (split_fenced x X).
  cbn [index nth_error bind]. rewrite L.
  destruct (endswith (lstrip_chars json_nl (p ++ newline)) fence) eqn:E;
    [|reflexivity].
  apply endswith_occurs, occurs_lstrip_chars in E.
  rewrite (occurs_app_newline p P) in E. discriminate.
Qed.

(** The unwrapping the four plain agents, the Reviewer and the triage
    repeat never raises; a text without a fence is returned unchanged; a
    fenced payload comes back with a final newline and without any of its
    leading characters j, s, o, n or newline, with or without the json
    tag; so it is the payload itself, plus the newline, exactly when the
    payload begins with another character. *)
Theorem X_unfence_strips_leading_json_letters (text p : string) :
  (exists out, unfence text = Ok out)
  /\ (occurs text "```" = false -> unfence text = Ok text)
  /\ (occurs p "```" = false ->
      unfence ("```json" ++ newline ++ p ++ newline ++ "```")
      = Ok (lstrip_chars json_nl (p ++ newline))
      /\ unfence ("```" ++ newline ++ p ++ newline ++ "```")
         = Ok (lstrip_chars json_nl (p ++ newline))
      /\ (forall c r, p = String c r -> mem_char c json_nl = false ->
            lstrip_chars json_nl (p ++ newline) = p ++ newline)
      /\ (forall c r, p = String c r -> mem_char c json_nl = true ->
            lstrip_chars json_nl (p ++ newline)
            = lstrip_chars json_nl (r ++ newline))).
Proof.
  split; [|split].
  - unfold unfence. destruct (startswith text "```") eqn:S.
    + destruct (split_second _ S) as [t T].
      change "```" with fence. rewrite T. cbn [bind]. eauto.
    + cbn [bind]. eauto.
  - intros F. unfold unfence.
    destruct (startswith text "```") eqn:S.
    { apply startswith_occurs in S. congruence. }
    cbn [bind].
    destruct (endswith text "```") eqn:E; [|reflexivity].
    apply endswith_occurs in E. congruence.
  - intros F. split; [|split; [|split]].
    + change ("```json" ++ newline ++ p ++ newline ++ "```")
        with (fence ++ ("json" ++ newline ++ p) ++ String nl fence).
      apply unfence_fenced; [exact F | exact F | reflexivity].
    + change ("```" ++ newline ++ p ++ newline ++ "```")
        with (fence ++ (newline ++ p) ++ String nl fence).
      apply unfence_fenced; [exact F | exact F | reflexivity].
    + intros c r -> M.
      change (String c r ++ newline) with (String c (r ++ newline)).
      cbn [lstrip_chars]. now rewrite M.
    + intros c r -> M.
      change (String c r ++ newline) with (String c (r ++ newline)).
      cbn [lstrip_chars]. now rewrite M.
Qed.

Lemma X_unfence_witness :
  unfence ("```json" ++ newline ++ "{}" ++ newline ++ "```")
  = Ok ("{}" ++ newline)
  /\ unfence ("```json" ++ newline ++ "null" ++ newline ++ "```")
     = Ok ("ull" ++ newline)
  /\ unfence "{}" = Ok "{}".
Proof.
  destruct (X_unfence_strips_leading_json_letters "{}" "{}")
    as (_ & U & F).
  destruct (F eq_refl) as (T & _ & K & _).
  destruct (X_unfence_strips_leading_json_letters "{}" "null")
    as (_ & _ & G).
  destruct (G eq_refl) as (T' & _ & _ & _).
  split; [|split].
  - rewrite T. now rewrite (K "{"%char "}" eq_refl eq_refl).
  - rewrite T'. reflexivity.
  - apply U. reflexivity.
Defined.

(** ** What the guardrail lets through *)

Lemma clean_sources_elements (l : list json) (s : string) :
  In s (clean_sources l) -> strip s = s /\ s <> "".
Proof.
  induction l as [|x l IH]; simpl; [tauto|].
  destruct x as [|b|n|f|t|a|kv]; try exact IH.
  destruct (blank t) eqn:B; [exact IH|].
  intros [<- | I]; [|auto].
  split; [apply strip_idem|].
  unfold blank in B. now apply String.eqb_neq in B.
Qed.

Section Accepted.
Context `{Builtins}.

(** An accepted text, field by field. *)
Lemma validate_ok_explicit raw_json name min_confidence ds :
  validate_dimension_score raw_json name min_confidence = Ok ds ->
  exists d q l s cq,
    json_loads raw_json = Some (JObj d)
    /\ score_of d = Ok (Finite q)
    /\ dict_get d "sources" (JArr []) = JArr l
    /\ dict_get d "notes" (JStr "") = JStr s
    /\ confidence_of d = Ok (Finite cq)
    /\ ds = {| raw_score := q; normalized_score := (q / 5 * 100)%Q;
               sources := clean_sources l; agent := name; notes := strip s;
               confidence := cq |}
    /\ score_rejected d || sources_rejected d || notes_rejected d
       || confidence_rejected d min_confidence = false.
Proof.
  intros V.
  assert (D : exists d c, json_loads raw_json = Some (JObj d)
                          /\ score_of d <> Raise OverflowError
                          /\ confidence_of d = Ok c).
  { pose proof V as E. unfold validate_dimension_score in E.
    bind_inv E. apply try_except_ok in E0 as [E0 | (e & _ & _ & E0)];
      [|discriminate].
    unfold loads in E0. destruct (json_loads raw_json) as [data|] eqn:J;
      [|discriminate]. injection E0 as ->.
    bind_inv E. apply try_except_ok in E0 as [E0 | (e & _ & _ & E0)];
      [|discriminate].
    bind_inv E0. destruct x as [|b|n|f|t|a|d]; try discriminate.
    injection E1 as <-. bind_inv E0.
    repeat bind_inv E.
    match goal with
    | Hs : float (dict_get d "aggregate_score" _) = Ok _,
      Hg : get (JObj d) "confidence" _ = Ok ?c,
      Hf : float ?c = Ok ?cf |- _ =>
        exists d, cf; split; [reflexivity|]; split;
        [ unfold score_of; rewrite Hs; discriminate
        | unfold confidence_of; simpl in Hg; injection Hg as <-; exact Hf ]
    end. }
  destruct D as (d & c & J & NoOv & C).
  destruct (validate_on_dict raw_json name min_confidence d c J NoOv C)
    as [[_ [why W]] | [R (q & l & s & cq & S & L & N & -> & E)]].
  - congruence.
  - rewrite V in E. injection E as ->.
    exists d, q, l, s, cq. repeat split; assumption.
Qed.

End Accepted.

Lemma Qle_bool_false_lt (x y : Q) : Qle_bool x y = false -> (y < x)%Q.
Proof.
  intros E. apply Qnot_le_lt. intros L. apply Qle_bool_iff in L. congruence.
Qed.

Lemma rejections_false (a b c d : bool) :
  a || b || c || d = false -> a = false /\ b = false /\ c = false /\ d = false.
Proof. destruct a, b, c, d; simpl; intuition congruence. Qed.

Lemma flt_false_finite (x y : Q) :
  flt (Finite x) (Finite y) = false <-> (y <= x)%Q.
Proof. simpl. rewrite negb_false_iff. apply Qle_bool_iff. Qed.

Lemma validated_well_formed `{Builtins}
    (raw_json name : string) (min_confidence : Q) (ds : DimensionScore) :
  validate_dimension_score raw_json name min_confidence = Ok ds ->
  well_formed ds
  /\ agent ds = name
  /\ normalized_score ds = (raw_score ds / 5 * 100)%Q
  /\ (min_confidence <= confidence ds)%Q
  /\ (forall s, In s (sources ds) -> trimmed s)
  /\ trimmed (notes ds).
Proof.
  intros V.
  apply validate_ok_explicit in V
    as (d & q & l & s & cq & J & S & L & N & C & -> & R).
  apply rejections_false in R as (Rs & Rl & Rn & Rc).
  unfold score_rejected in Rs. rewrite S in Rs.
  apply negb_false_iff, fle_unit_interval in Rs as (q' & Eq & Q0 & Q5).
  injection Eq as <-.
  unfold sources_rejected in Rl. rewrite L in Rl. apply negb_false_iff in Rl.
  unfold notes_rejected in Rn. rewrite N in Rn. apply Nat.ltb_ge in Rn.
  unfold confidence_rejected in Rc. rewrite C in Rc.
  apply orb_false_iff in Rc as [Low In01].
  apply flt_false_finite in Low.
  apply negb_false_iff, fle_unit_interval in In01 as (c' & Ec & C0 & C1).
  injection Ec as <-.
  cbn [raw_score normalized_score sources agent notes confidence].
  assert (E : (q / 5 * 100 == q * 20)%Q) by field.
  unfold well_formed, trimmed.
  cbn [raw_score normalized_score sources agent notes confidence].
  repeat split; try assumption; try (rewrite E; lra).
  - intros Em. rewrite Em in Rl. discriminate.
  - intros t I. apply clean_sources_elements in I as [T NE]. now rewrite T.
  - now rewrite strip_idem.
  - intros t I. now apply clean_sources_elements in I.
  - apply strip_idem.
Qed.



(** Lowering min_confidence never turns an accepted answer into a
    rejected one and does not change the score; a min_confidence above 1
    rejects every answer. *)
Theorem X_guardrail_threshold `{Builtins}
    (raw_json name : string) (min_confidence lower : Q) (ds : DimensionScore) :
  (validate_dimension_score raw_json name min_confidence = Ok ds ->
   (lower <= min_confidence)%Q ->
   validate_dimension_score raw_json name lower = Ok ds)
  /\ ((1 < min_confidence)%Q ->
      validate_dimension_score raw_json name min_confidence <> Ok ds).
Proof.
  split.
  - intros V Le.
    pose proof (validated_well_formed _ _ _ _ V)
      as ((_ & _ & [C0 C1] & _) & _ & _ & Cm & _).
    apply validate_ok_explicit in V
      as (d & q & l & s & cq & J & S & L & N & C & -> & R).
    cbn [confidence] in *.
    assert (NoOv : score_of d <> Raise OverflowError) by (rewrite S; discriminate).
    destruct (validate_on_dict raw_json name lower d _ J NoOv C)
      as [[R' _] | [_ (q' & l' & s' & cq' & S' & L' & N' & Ec & E)]].
    + apply rejections_false in R as (Rs & Rl & Rn & Rc).
      rewrite Rs, Rl, Rn in R'. cbn [orb] in R'.
      unfold confidence_rejected in R', Rc. rewrite C in R', Rc.
      apply orb_false_iff in Rc as [_ In01]. rewrite In01, orb_false_r in R'.
      simpl in R'. apply negb_true_iff, Qle_bool_false_lt in R'.
      exfalso. apply (Qlt_not_le _ _ R'). now apply Qle_trans with min_confidence.
    + rewrite E. rewrite S in S'. rewrite L in L'. rewrite N in N'.
      injection S' as <-. injection L' as <-. injection N' as <-.
      injection Ec as <-. reflexivity.
  - intros Gt V.
    apply validated_well_formed in V
      as ((_ & _ & [_ C1] & _) & _ & _ & Cm & _).
    apply (Qlt_not_le _ _ Gt). now apply Qle_trans with (confidence ds).
Qed.

Lemma X_guardrail_threshold_witness :
  exists ds,
    validate_dimension_score (full_text sources_text notes_text "0.8")
      "TechnologySignalAgent" 0.3%Q = Ok ds
    /\ validate_dimension_score (full_text sources_text notes_text "0.8")
         "TechnologySignalAgent" 0.1%Q = Ok ds
    /\ validate_dimension_score (full_text sources_text notes_text "0.8")
         "TechnologySignalAgent" 1.5%Q <> Ok ds.
Proof.
  destruct (validate_dimension_score (full_text sources_text notes_text "0.8")
              "TechnologySignalAgent" 0.3%Q) as [ds|e] eqn:E;
    [|vm_compute in E; discriminate].
  exists ds. split; [reflexivity|]. split.
  - apply (proj1 (X_guardrail_threshold _ _ 0.3%Q 0.1%Q ds) E).
    unfold Qle. simpl. lia.
  - apply (proj2 (X_guardrail_threshold _ "TechnologySignalAgent" 1.5%Q 0%Q ds)).
    unfold Qlt. simpl. lia.
Defined.

(** ** The DimensionScore model and the agents *)

Lemma blank_false_iff (s : string) : blank s = false <-> strip s <> "".
Proof. unfold blank. apply String.eqb_neq. Qed.

Lemma sources_ok_iff (ss : list string) :
  sources_ok ss = true <-> ss <> [] /\ forall s, In s ss -> strip s <> "".
Proof.
  unfold sources_ok. rewrite andb_true_iff, forallb_forall. split.
  - intros [L F]. split.
    + destruct ss; [discriminate | discriminate].
    + intros s I. apply blank_false_iff, negb_true_iff. now apply F.
  - intros [N F]. split.
    + destruct ss; [contradiction | reflexivity].
    + intros s I. apply negb_true_iff, blank_false_iff. now apply F.
Qed.

Lemma notes_ok_iff (t : string) :
  notes_ok t = true <-> 5 <= String.length (strip t).
Proof.
  unfold notes_ok. rewrite andb_true_iff, !Nat.leb_le.
  pose proof (length_strip t). lia.
Qed.

Lemma DimensionScore_new_checks raw norm srcs name nts conf ds :
  DimensionScore_new raw norm srcs name nts conf = Ok ds ->
  sources_ok (sources ds) = true /\ notes_ok (notes ds) = true.
Proof.
  unfold DimensionScore_new.
  destruct (as_float_in 0 5 raw), (as_float_in 0 100 norm),
    (as_str_list srcs) as [s|], (as_str nts) as [t|], (as_float_in 0 1 conf);
    try discriminate.
  destruct (sources_ok s && notes_ok t) eqn:E; [|discriminate].
  intros X. injection X as <-. simpl. now apply andb_true_iff in E.
Qed.

Lemma new_well_formed raw norm srcs name nts conf ds :
  DimensionScore_new raw norm srcs name nts conf = Ok ds -> well_formed ds.
Proof.
  intros E. pose proof (DimensionScore_new_checks _ _ _ _ _ _ _ E) as [S N].
  apply DimensionScore_new_ok in E as (_ & _ & _ & _ & _ & _ & R & M & C).
  apply sources_ok_iff in S as [S1 S2]. apply notes_ok_iff in N.
  unfold well_formed. auto 10.
Qed.

(** The DimensionScore model accepts a record exactly when raw_score is
    in [0,5], normalized_score in [0,100], confidence in [0,1], there is
    at least one source, no source is empty after trimming, and the notes
    have at least 5 characters after trimming; it does not compare
    normalized_score with raw_score. *)
Theorem X_dimension_score_model (r n c : Q) (ss : list string) (name t : string) :
  ((0 <= r <= 5)%Q /\ (0 <= n <= 100)%Q /\ (0 <= c <= 1)%Q
   /\ ss <> [] /\ (forall s, In s ss -> strip s <> "")
   /\ 5 <= String.length (strip t) ->
   DimensionScore_new (Finite r) (Finite n) (JArr (map JStr ss)) name (JStr t)
     (Finite c)
   = Ok {| raw_score := r; normalized_score := n; sources := ss;
           agent := name; notes := t; confidence := c |})
  /\ (~ ((0 <= r <= 5)%Q /\ (0 <= n <= 100)%Q /\ (0 <= c <= 1)%Q
         /\ ss <> [] /\ (forall s, In s ss -> strip s <> "")
         /\ 5 <= String.length (strip t)) ->
      DimensionScore_new (Finite r) (Finite n) (JArr (map JStr ss)) name (JStr t)
        (Finite c)
      = Raise (PydanticValidationError "DimensionScore")).
Proof.
  split.
  - intros ([R0 R5] & [N0 N1] & [C0 C1] & S1 & S2 & T).
    unfold DimensionScore_new.
    rewrite !as_float_in_finite by assumption.
    cbn [as_str_list as_str]. rewrite all_str_map.
    rewrite (proj2 (sources_ok_iff ss) (conj S1 S2)).
    now rewrite (proj2 (notes_ok_iff t) T).
  - intros N.
    destruct (DimensionScore_new (Finite r) (Finite n) (JArr (map JStr ss))
                name (JStr t) (Finite c)) as [ds|e] eqn:E.
    + exfalso. apply N.
      pose proof (new_well_formed _ _ _ _ _ _ _ E) as W.
      apply DimensionScore_new_ok in E as (R & M & C & _ & S & T & _).
      injection R as ->. injection M as ->. injection C as ->.
      injection T as ->. cbn [as_str_list] in S. rewrite all_str_map in S.
      injection S as ->. exact W.
    + unfold DimensionScore_new in E.
      destruct (as_float_in 0 5 (Finite r)), (as_float_in 0 100 (Finite n)),
        (as_str_list (JArr (map JStr ss))), (as_str (JStr t)),
        (as_float_in 0 1 (Finite c)); try (now injection E as <-).
      destruct (sources_ok l && notes_ok s); [discriminate | now injection E as <-].
Qed.

Lemma X_dimension_score_model_witness :
  DimensionScore_new (Finite 0) (Finite 100) (JArr (map JStr ["survey"]))
    "A" (JStr "  plain  ") (Finite 0.5%Q)
  = Ok {| raw_score := 0; normalized_score := 100; sources := ["survey"];
          agent := "A"; notes := "  plain  "; confidence := 0.5%Q |}
  /\ DimensionScore_new (Finite 3) (Finite 60) (JArr (map JStr ["survey"]))
       "A" (JStr "   ok    ") (Finite 0.5%Q)
     = Raise (PydanticValidationError "DimensionScore").
Proof.
  split.
  - apply (proj1 (X_dimension_score_model 0 100 0.5%Q ["survey"] "A" "  plain  ")).
    repeat split; try (vm_compute; discriminate).
    + intros s [<- | []]. vm_compute. discriminate.
    + vm_compute. lia.
  - apply (proj2 (X_dimension_score_model 3 60 0.5%Q ["survey"] "A" "   ok    ")).
    intros (_ & _ & _ & _ & _ & T). vm_compute in T. lia.
Defined.

Section Agents.
Context `{Builtins}.

Lemma guardrailed_content (name text : string) :
  exists clean_json,
    sanitize_llm_output (strip text) = Ok clean_json
    /\ guardrailed_compute_signal name (Content text)
       = match validate_dimension_score clean_json name 0.3%Q with
         | Ok ds => Ok ds
         | Raise (ValidationError _) => Ok (fallback_score name)
         | Raise e => Raise e
         end.
Proof.
  destruct (sanitize_returns (strip text)) as (clean & S & _).
  exists clean. split; [exact S|].
  unfold guardrailed_compute_signal. cbn [content_strip bind].
  rewrite S. cbn [bind].
  destruct (validate_dimension_score clean name 0.3%Q) as [ds|[]];
    reflexivity.
Qed.

Lemma plain_score_fields name dflt response ds :
  plain_compute_signal name dflt response = Ok ds ->
  confidence ds = 0.5%Q /\ agent ds = name /\ well_formed ds
  /\ normalized_score ds = (raw_score ds / 5 * 100)%Q.
Proof.
  intros E. pose proof (plain_normalized _ _ _ _ E) as N.
  unfold plain_compute_signal in E. repeat bind_inv E.
  pose proof (new_well_formed _ _ _ _ _ _ _ E) as W.
  apply DimensionScore_new_ok in E as (_ & _ & C & A & _).
  injection C as C. auto.
Qed.

End Agents.

Section AgentOutcomes.
Context `{Builtins}.

Lemma guardrailed_score name response ds :
  guardrailed_compute_signal name response = Ok ds ->
  (0.3 <= confidence ds)%Q /\ agent ds = name /\ well_formed ds.
Proof.
  unfold guardrailed_compute_signal. intros E.
  apply try_except_ok in E as [E | (e & _ & _ & E)].
  - do 2 bind_inv E.
    apply validated_well_formed in E as (W & A & _ & C & _). auto.
  - pose proof (new_well_formed _ _ _ _ _ _ _ E) as W.
    rewrite fallback_eq in E. injection E as <-.
    split; [discriminate | split; [reflexivity | exact W]].
Qed.

Lemma guardrailed_never_validation_error name response why :
  guardrailed_compute_signal name response <> Raise (ValidationError why).
Proof.
  destruct response as [text| |]; [|discriminate | discriminate].
  destruct (guardrailed_content name text) as (clean & _ & ->).
  destruct (validate_dimension_score clean name 0.3%Q) as [ds|[]]; discriminate.
Qed.

Lemma plain_overconfident name dflt response ds :
  plain_compute_signal name dflt response = Ok ds ->
  (overconfident ds = true <-> (4.75 < raw_score ds)%Q).
Proof.
  intros E. apply plain_score_fields in E as (C & _ & _ & N).
  rewrite overconfident_iff, N, C.
  assert (X : (raw_score ds / 5 * 100 == raw_score ds * 20)%Q) by field.
  rewrite X. split.
  - intros [L _]. lra.
  - intros L. split; [lra | reflexivity].
Qed.

Lemma plain_unparseable name dflt text u :
  unfence (strip text) = Ok u -> json_loads u = None ->
  plain_compute_signal name dflt (Content text) = Raise JSONDecodeError.
Proof.
  intros U J. unfold plain_compute_signal. cbn [content_strip bind].
  rewrite U. cbn [bind]. unfold loads. now rewrite J.
Qed.

Lemma plain_not_a_dict name dflt text u v :
  unfence (strip text) = Ok u -> json_loads u = Some v ->
  (forall d, v <> JObj d) ->
  plain_compute_signal name dflt (Content text) = Raise AttributeError.
Proof.
  intros U J N. unfold plain_compute_signal. cbn [content_strip bind].
  rewrite U. cbn [bind]. unfold loads. rewrite J. cbn [bind].
  destruct v; try reflexivity. now contradiction (N kv).
Qed.

Lemma plain_on_dict name dflt text u d ds :
  unfence (strip text) = Ok u -> json_loads u = Some (JObj d) ->
  plain_compute_signal name dflt (Content text) = Ok ds ->
  exists raw,
    float (dict_get d "aggregate_score" (JFloat (Finite 2.5%Q))) = Ok raw
    /\ DimensionScore_new raw (normalize raw) (dict_get d "sources" dflt) name
         (dict_get d "notes" (JStr "")) (Finite 0.5%Q) = Ok ds.
Proof.
  intros U J. unfold plain_compute_signal. cbn [content_strip bind].
  rewrite U. cbn [bind]. unfold loads. rewrite J. cbn [bind get].
  destruct (float (dict_get d "aggregate_score" (JFloat (Finite 2.5%Q))))
    as [raw|e]; [|discriminate].
  cbn [bind]. intros E. now exists raw.
Qed.

Lemma plain_missing_notes name dflt text u d :
  unfence (strip text) = Ok u -> json_loads u = Some (JObj d) ->
  assoc "notes" d = None ->
  ~ returns (plain_compute_signal name dflt (Content text)).
Proof.
  intros U J M [ds E].
  destruct (plain_on_dict _ _ _ _ _ _ U J E) as (raw & _ & N).
  pose proof (DimensionScore_new_checks _ _ _ _ _ _ _ N) as [_ K].
  apply DimensionScore_new_ok in N as (_ & _ & _ & _ & _ & T & _).
  unfold dict_get in T. rewrite M in T. injection T as T.
  rewrite <- T in K. discriminate.
Qed.

Lemma plain_default_score name dflt text u d ds :
  unfence (strip text) = Ok u -> json_loads u = Some (JObj d) ->
  assoc "aggregate_score" d = None ->
  plain_compute_signal name dflt (Content text) = Ok ds ->
  raw_score ds = 2.5%Q /\ normalized_score ds = (2.5 / 5 * 100)%Q.
Proof.
  intros U J M E.
  destruct (plain_on_dict _ _ _ _ _ _ U J E) as (raw & F & N).
  unfold dict_get in F. rewrite M in F. cbn [float] in F. injection F as <-.
  apply DimensionScore_new_ok in N as (R & K & _).
  cbn [normalize] in K. injection R as <-. injection K as <-. auto.
Qed.

End AgentOutcomes.

(** A guardrailed agent (technology, market) given an answer with text
    returns the validated score when the sanitized text validates, the
    fallback score when validation raises ValidationError, and re-raises
    any other exception; without content it raises AttributeError and on
    a failed call the call's error; it never raises ValidationError, and
    every score it returns is well formed, bears the agent's name and has
    confidence at least 0.3. *)
Theorem X_guardrailed_agent_outcome `{Builtins} (a : signal_agent) (text : string) :
  guardrailed a = true ->
  (exists clean_json,
     sanitize_llm_output (strip text) = Ok clean_json
     /\ compute_signal a (Content text)
        = match validate_dimension_score clean_json (name_of a) 0.3%Q with
          | Ok ds => Ok ds
          | Raise (ValidationError _) => Ok (fallback_score (name_of a))
          | Raise e => Raise e
          end)
  /\ compute_signal a NoContent = Raise AttributeError
  /\ compute_signal a Failed = Raise APIError
  /\ (forall response why,
        compute_signal a response <> Raise (ValidationError why))
  /\ (forall response ds,
        compute_signal a response = Ok ds ->
        (0.3 <= confidence ds)%Q /\ agent ds = name_of a /\ well_formed ds).
Proof.
  intros G. destruct a; try discriminate G; cbn [compute_signal name_of];
    unfold TechnologySignalAgent, MarketSignalAgent.
  all: split; [apply guardrailed_content|].
  all: split; [reflexivity|]. all: split; [reflexivity|].
  all: split; [intros response why; apply guardrailed_never_validation_error|].
  all: intros response ds; apply guardrailed_score.
Qed.

Lemma X_guardrailed_agent_witness :
  compute_signal Market (Content "  no json here ")
  = Ok (fallback_score "MarketSignalAgent").
Proof.
  destruct (X_guardrailed_agent_outcome Market "  no json here " eq_refl)
    as ((clean & S & E) & _).
  rewrite E. vm_compute in S. injection S as <-. reflexivity.
Defined.



(** A plain agent has no fallback.  When the unwrapped answer is not
    parseable it raises JSONDecodeError; when it decodes to something
    other than a dict it raises AttributeError; when the dict has no notes
    it never returns a score; when the dict has no aggregate_score the
    score it returns, if any, is 2.5 with normalized_score 2.5/5*100;
    without content it raises AttributeError and on a failed call the
    call's error. *)
Theorem X_plain_agent_has_no_fallback `{Builtins} (a : signal_agent)
    (text u : string) :
  guardrailed a = false ->
  unfence (strip text) = Ok u ->
  (json_loads u = None ->
   compute_signal a (Content text) = Raise JSONDecodeError)
  /\ (forall v, json_loads u = Some v -> (forall d, v <> JObj d) ->
        compute_signal a (Content text) = Raise AttributeError)
  /\ (forall d, json_loads u = Some (JObj d) -> assoc "notes" d = None ->
        ~ returns (compute_signal a (Content text)))
  /\ (forall d ds, json_loads u = Some (JObj d) ->
        assoc "aggregate_score" d = None ->
        compute_signal a (Content text) = Ok ds ->
        raw_score ds = 2.5%Q /\ normalized_score ds = (2.5 / 5 * 100)%Q)
  /\ compute_signal a NoContent = Raise AttributeError
  /\ compute_signal a Failed = Raise APIError.
Proof.
  intros G U. destruct a; try discriminate G; cbn [compute_signal].
  all: split; [intros J; now apply (plain_unparseable _ _ _ u)|].
  all: split; [intros v J N; now apply (plain_not_a_dict _ _ _ u v)|].
  all: split; [intros d J M; now apply (plain_missing_notes _ _ _ u d)|].
  all: split; [intros d ds J M E; exact (plain_default_score _ _ _ u d ds U J M E)|].
  all: split; reflexivity.
Qed.

Lemma X_plain_agent_no_fallback_witness :
  compute_signal Timing (Content "no json here") = Raise JSONDecodeError
  /\ compute_signal Timing (Content "[]") = Raise AttributeError.
Proof.
  destruct (X_plain_agent_has_no_fallback Timing "no json here" "no json here"
              eq_refl eq_refl) as (P & _).
  destruct (X_plain_agent_has_no_fallback Timing "[]" "[]" eq_refl eq_refl)
    as (_ & Q & _).
  split; [apply P; reflexivity|].
  apply (Q (JArr [])); [reflexivity | discriminate].
Defined.

(** Every DimensionScore the pipeline constructs, by the guardrail, by the
    fallback or by any of the six agents, satisfies what the model
    demands: raw_score in [0,5], normalized_score in [0,100], confidence
    in [0,1], at least one source, none empty after trimming, and notes of
    at least 5 characters after trimming. *)
Theorem X_every_built_score_is_well_formed `{Builtins} (ds : DimensionScore) :
  built ds -> well_formed ds.
Proof.
  intros [raw_json name mc d V | name d F | a response d A].
  - now apply validated_well_formed in V.
  - exact (new_well_formed _ _ _ _ _ _ _ F).
  - destruct a; cbn [compute_signal] in A;
      try (now apply guardrailed_score in A);
      now apply plain_score_fields in A.
Qed.

Lemma X_every_built_score_witness :
  well_formed (fallback_score "TechnologySignalAgent").
Proof.
  apply X_every_built_score_is_well_formed.
  apply (built_by_fallback "TechnologySignalAgent"). reflexivity.
Defined.

(** ** The batch check, continued *)

Lemma inject_length_succ {A} (x : A) (l : list A) :
  (inject_Z (Z.of_nat (List.length (x :: l)))
   == inject_Z (Z.of_nat (List.length l)) + 1)%Q.
Proof.
  cbn [List.length]. rewrite Nat2Z.inj_succ. unfold Z.succ.
  now rewrite inject_Z_plus.
Qed.

Lemma fold_sum_bounds (l : list DimensionScore) (a lo hi : Q) :
  (forall s, In s l -> (lo <= confidence s <= hi)%Q) ->
  (a + lo * inject_Z (Z.of_nat (List.length l))
   <= fold_left Qplus (map confidence l) a
   <= a + hi * inject_Z (Z.of_nat (List.length l)))%Q.
Proof.
  revert a. induction l as [|s l IH]; intros a B.
  - simpl. split; ring_simplify; apply Qle_refl.
  - cbn [map fold_left]. rewrite inject_length_succ.
    destruct (B s (or_introl eq_refl)) as [L U].
    destruct (IH (a + confidence s)%Q (fun t I => B t (or_intror I))) as [L' U'].
    split.
    + eapply Qle_trans; [|exact L']. ring_simplify. lra.
    + eapply Qle_trans; [exact U'|]. ring_simplify. lra.
Qed.

Lemma mean_bounds (scores : list DimensionScore) (lo hi : Q) :
  scores <> [] ->
  (forall s, In s scores -> (lo <= confidence s <= hi)%Q) ->
  (lo <= mean_confidence scores <= hi)%Q.
Proof.
  intros N B. destruct scores as [|s r]; [contradiction|].
  unfold mean_confidence, Validation.sum.
  destruct (fold_sum_bounds (s :: r) 0 lo hi B) as [L U].
  set (n := inject_Z (Z.of_nat (List.length (s :: r)))) in *.
  assert (P : (0 < n)%Q).
  { unfold n. rewrite inject_length_succ.
    assert (0 <= inject_Z (Z.of_nat (List.length r)))%Q.
    { change 0%Q with (inject_Z 0). rewrite <- Zle_Qle. lia. }
    lra. }
  split.
  - apply Qle_shift_div_l; [exact P|]. lra.
  - apply Qle_shift_div_r; [exact P|]. lra.
Qed.

Lemma Qlt_bool_ge (x y : Q) : (y <= x)%Q -> Qlt_bool x y = false.
Proof.
  intros L. unfold Qlt_bool. apply negb_false_iff. now apply Qle_bool_iff.
Qed.



Section PipelineBatch.
Context `{Builtins}.

Lemma agent_confidence (a : signal_agent) response ds :
  compute_signal a response = Ok ds -> (0.3 <= confidence ds <= 1)%Q.
Proof.
  intros E. destruct a; cbn [compute_signal] in E.
  1,2: apply guardrailed_score in E as (C & _ & (_ & _ & [_ U] & _)); now split.
  all: apply plain_score_fields in E as (-> & _); split; discriminate.
Qed.

Lemma pipeline_batch (llm : Responses) (a b c d e f : DimensionScore) :
  compute_signal Technology (r_tech llm) = Ok a ->
  compute_signal Market (r_market llm) = Ok b ->
  compute_signal Product (r_product llm) = Ok c ->
  compute_signal Regulatory (r_regulatory llm) = Ok d ->
  compute_signal Strategic (r_strategic llm) = Ok e ->
  compute_signal Timing (r_timing llm) = Ok f ->
  let high := map high_score_issue (filter overconfident [a; b; c; d; e; f]) in
  validate_multiple_scores [a; b; c; d; e; f] 6
  = Ok (Nat.eqb (List.length high) 0, high).
Proof.
  intros Ea Eb Ec Ed Ee Ef. cbv zeta.
  assert (M : (0.3 <= mean_confidence [a; b; c; d; e; f] <= 1)%Q).
  { apply mean_bounds; [discriminate|].
    intros s [<- | [<- | [<- | [<- | [<- | [<- | []]]]]]];
      eapply agent_confidence; eassumption. }
  rewrite validate_multiple_scores_eq. unfold issues_of.
  rewrite (Qlt_bool_ge _ 0.3 (proj1 M)). reflexivity.
Qed.

End PipelineBatch.

(** On the six scores the agents return, the batch check of the pipeline
    can only report over-confidence: there are always six scores, and
    their mean confidence is at least 0.3 because a guardrailed score has
    confidence at least 0.3 and a plain one has 0.5. *)
Theorem X_pipeline_batch_reports_only_overconfidence `{Builtins}
    (llm : Responses) (a b c d e f : DimensionScore) :
  compute_signal Technology (r_tech llm) = Ok a ->
  compute_signal Market (r_market llm) = Ok b ->
  compute_signal Product (r_product llm) = Ok c ->
  compute_signal Regulatory (r_regulatory llm) = Ok d ->
  compute_signal Strategic (r_strategic llm) = Ok e ->
  compute_signal Timing (r_timing llm) = Ok f ->
  let high := map high_score_issue (filter overconfident [a; b; c; d; e; f]) in
  validate_multiple_scores [a; b; c; d; e; f] 6
  = Ok (Nat.eqb (List.length high) 0, high).
Proof. exact (pipeline_batch llm a b c d e f). Qed.

Lemma X_pipeline_batch_witness :
  (scores <- signals_of flagged_run ;; validate_multiple_scores scores 6)
  = (scores <- signals_of flagged_run ;;
     Ok (false, map high_score_issue (filter overconfident scores))).
Proof.
  destruct (compute_signal Technology (r_tech flagged_run)) as [a|] eqn:Ea;
    [|vm_compute in Ea; discriminate].
  destruct (compute_signal Market (r_market flagged_run)) as [b|] eqn:Eb;
    [|vm_compute in Eb; discriminate].
  destruct (compute_signal Product (r_product flagged_run)) as [c|] eqn:Ec;
    [|vm_compute in Ec; discriminate].
  destruct (compute_signal Regulatory (r_regulatory flagged_run)) as [d|] eqn:Ed;
    [|vm_compute in Ed; discriminate].
  destruct (compute_signal Strategic (r_strategic flagged_run)) as [e|] eqn:Ee;
    [|vm_compute in Ee; discriminate].
  destruct (compute_signal Timing (r_timing flagged_run)) as [f|] eqn:Ef;
    [|vm_compute in Ef; discriminate].
  pose proof (X_pipeline_batch_reports_only_overconfidence
                flagged_run a b c d e f Ea Eb Ec Ed Ee Ef) as P.
  cbv zeta in P. unfold signals_of.
  cbn [compute_signal] in Ea, Eb, Ec, Ed, Ee, Ef.
  rewrite Ea, Eb, Ec, Ed, Ee, Ef. cbn [bind]. rewrite P.
  vm_compute in Ec. injection Ec as <-.
  vm_compute in Ea. injection Ea as <-. vm_compute in Eb. injection Eb as <-.
  vm_compute in Ed. injection Ed as <-. vm_compute in Ee. injection Ee as <-.
  vm_compute in Ef. injection Ef as <-.
  reflexivity.
Defined.

(** ** The orchestrator, continued *)

Lemma PatentRelevanceOutput_new_level id raw norm prs sw conf ev fl usage out :
  PatentRelevanceOutput_new id raw norm prs sw conf ev fl usage = Ok out ->
  is_level (o_confidence out) = true
  /\ (0 <= patent_relevance_score out <= 100)%Q.
Proof.
  unfold PatentRelevanceOutput_new.
  destruct (as_float_in 0 100 (Finite prs)) as [p|] eqn:P; [|discriminate].
  destruct (as_str conf) as [c|]; [|discriminate].
  destruct (as_str_list fl) as [f|]; [|discriminate].
  destruct (all_int usage) as [u|]; [|discriminate].
  destruct (is_level c) eqn:L; [|discriminate].
  intros E. injection E as <-. simpl.
  apply as_float_in_some in P as (_ & P0 & P1). auto.
Qed.

Lemma is_level_cases (c : string) :
  is_level c = true -> c = "low" \/ c = "medium" \/ c = "high".
Proof.
  unfold is_level. intros E.
  apply orb_true_iff in E as [E | E]; [apply orb_true_iff in E as [E | E]|];
    apply String.eqb_eq in E; auto.
Qed.

Lemma all_str_inv (l : list json) (r : list string) :
  all_str l = Some r -> l = map JStr r.
Proof.
  revert r. induction l as [|x l IH]; intros r; simpl.
  - intros E. now injection E as <-.
  - destruct x; try discriminate.
    destruct (all_str l) as [r'|]; [|discriminate].
    intros E. injection E as <-. simpl. now rewrite (IH r' eq_refl).
Qed.

Lemma SWOT_new_ok s w o t sw :
  SWOT_new s w o t = Ok sw ->
  sw = {| strengths := s; weaknesses := w; opportunities := o; threats := t |}
  /\ (s <> [] \/ w <> [] \/ o <> [] \/ t <> []).
Proof.
  unfold SWOT_new.
  destruct s, w, o, t; simpl; try discriminate;
    intros E; injection E as <-; split; try reflexivity;
    try (left; discriminate); try (right; left; discriminate);
    try (right; right; left; discriminate); right; right; right; discriminate.
Qed.

Section Output.
Context `{Builtins}.

Lemma agent_score_range (a : signal_agent) response ds :
  compute_signal a response = Ok ds ->
  (0 <= raw_score ds <= 5)%Q /\ (0 <= raw_score ds / 5 * 100 <= 100)%Q.
Proof.
  intros E.
  assert (W : well_formed ds).
  { destruct a; cbn [compute_signal] in E;
      try (now apply guardrailed_score in E);
      now apply plain_score_fields in E. }
  destruct W as ([R0 R5] & _).
  assert (X : (raw_score ds / 5 * 100 == raw_score ds * 20)%Q) by field.
  split; [now split|]. rewrite X. split; lra.
Qed.

(** Every result evaluate returns carries the invention's idea_id, one of
    the three confidence levels, a patent_relevance_score in [0,100], the
    six dimensions in their fixed order as the keys of dimension_scores,
    normalized_scores and evidence_map, raw scores in [0,5], normalized
    scores in [0,100], and a SWOT with at least one entry. *)
Theorem X_evaluate_output_is_well_formed invention llm h out h' :
  evaluate invention llm h = (Ok out, h') ->
  o_idea_id out = idea_id invention
  /\ (o_confidence out = "low" \/ o_confidence out = "medium"
      \/ o_confidence out = "high")
  /\ (0 <= patent_relevance_score out <= 100)%Q
  /\ map fst (dimension_scores out) = dimensions
  /\ map fst (normalized_scores out) = dimensions
  /\ map fst (evidence_map out) = dimensions
  /\ (forall k v, In (k, v) (dimension_scores out) -> (0 <= v <= 5)%Q)
  /\ (forall k v, In (k, v) (normalized_scores out) -> (0 <= v <= 100)%Q)
  /\ (strengths (swot out) <> [] \/ weaknesses (swot out) <> []
      \/ opportunities (swot out) <> [] \/ threats (swot out) <> []).
Proof.
  intros E.
  apply evaluate_ok in E
    as (s & ok & issues & (T & Tech & Mk & Pr & Rg & St & Ti & Sc & Rv & Sw)
        & _ & A & _).
  unfold assemble in A.
  pose proof (PatentRelevanceOutput_new_level _ _ _ _ _ _ _ _ _ _ A) as [L P].
  apply PatentRelevanceOutput_new_ok in A
    as (Id & Raw & Norm & _ & Swot & Ev & _).
  destruct (calculate_prs_eq (s_tech s) (s_market s) (s_product s)
              (s_strategic s) (s_timing s) (s_regulatory s)) as (prs & C & _).
  rewrite Sc in C. injection C as _ Eraw Enorm Eev.
  apply agent_score_range in Tech as [T1 T2].
  apply agent_score_range in Mk as [M1 M2].
  apply agent_score_range in Pr as [P1 P2].
  apply agent_score_range in Rg as [R1 R2].
  apply agent_score_range in St as [S1 S2].
  apply agent_score_range in Ti as [I1 I2].
  unfold generate_swot in Sw. rewrite swot_lists_eq in Sw. cbn [bind] in Sw.
  apply SWOT_new_ok in Sw as [Esw NE].
  rewrite Raw, Norm, Ev, Swot, Eraw, Enorm, Eev.
  split; [exact Id|]. split; [now apply is_level_cases|]. split; [exact P|].
  split; [reflexivity|]. split; [reflexivity|]. split; [reflexivity|].
  split; [|split].
  - intros k v I. simpl in I.
    destruct I as [X | [X | [X | [X | [X | [X | []]]]]]];
      injection X as _ <-; assumption.
  - intros k v I. simpl in I.
    destruct I as [X | [X | [X | [X | [X | [X | []]]]]]];
      injection X as _ <-; assumption.
  - rewrite Esw. cbn [strengths weaknesses opportunities threats]. exact NE.
Qed.

End Output.

Lemma X_evaluate_output_witness :
  exists out h',
    evaluate invention flagged_run (Some Hooks.init) = (Ok out, h')
    /\ map fst (normalized_scores out) = dimensions
    /\ (0 <= patent_relevance_score out <= 100)%Q.
Proof.
  destruct (evaluate invention flagged_run (Some Hooks.init))
    as [[out|e] h'] eqn:E; [|vm_compute in E; discriminate].
  destruct (X_evaluate_output_is_well_formed _ _ _ _ _ E)
    as (_ & _ & P & _ & N & _).
  exists out, h'. auto.
Defined.

Lemma seq_lift_raise {A B} (r : result A) (k : A -> step B) (e : exn) h :
  r = Raise e -> seq (lift r) k h = (Raise e, h).
Proof. now intros ->. Qed.

Section Failures.
Context `{Builtins}.

Lemma evaluate_triage_fails invention llm h e :
  triage invention (r_triage llm) = Raise e ->
  evaluate invention llm h = (Raise e, h).
Proof. intros T. unfold evaluate. now rewrite (seq_lift_raise _ _ _ _ T). Qed.

Lemma evaluate_agent_fails invention llm h (a : signal_agent) e :
  returns (triage invention (r_triage llm)) ->
  (forall b, runs_before b a ->
     returns (compute_signal b (response_of llm b))) ->
  compute_signal a (response_of llm a) = Raise e ->
  evaluate invention llm h = (Raise e, hooks_started h).
Proof.
  intros [t T] B F. unfold evaluate.
  rewrite (seq_lift _ _ _ _ T).
  unfold seq at 1. unfold hook at 1. fold (hooks_started h).
  assert (R : forall b, position b < position a ->
                exists ds, compute_signal b (response_of llm b) = Ok ds)
    by exact B.
  destruct a; cbn [position] in R; cbn [compute_signal response_of] in F.
  - now rewrite (seq_lift_raise _ _ _ _ F).
  - destruct (R Technology) as [x X]; [cbn; lia|].
    cbn [compute_signal response_of] in X.
    rewrite (seq_lift _ _ _ _ X). now rewrite (seq_lift_raise _ _ _ _ F).
  - destruct (R Technology) as [x X]; [cbn; lia|].
    destruct (R Market) as [y Y]; [cbn; lia|].
    cbn [compute_signal response_of] in X, Y.
    rewrite (seq_lift _ _ _ _ X), (seq_lift _ _ _ _ Y).
    now rewrite (seq_lift_raise _ _ _ _ F).
  - destruct (R Technology) as [x X]; [cbn; lia|].
    destruct (R Market) as [y Y]; [cbn; lia|].
    destruct (R Product) as [z Z]; [cbn; lia|].
    cbn [compute_signal response_of] in X, Y, Z.
    rewrite (seq_lift _ _ _ _ X), (seq_lift _ _ _ _ Y), (seq_lift _ _ _ _ Z).
    now rewrite (seq_lift_raise _ _ _ _ F).
  - destruct (R Technology) as [x X]; [cbn; lia|].
    destruct (R Market) as [y Y]; [cbn; lia|].
    destruct (R Product) as [z Z]; [cbn; lia|].
    destruct (R Regulatory) as [u U]; [cbn; lia|].
    cbn [compute_signal response_of] in X, Y, Z, U.
    rewrite (seq_lift _ _ _ _ X), (seq_lift _ _ _ _ Y), (seq_lift _ _ _ _ Z),
      (seq_lift _ _ _ _ U).
    now rewrite (seq_lift_raise _ _ _ _ F).
  - destruct (R Technology) as [x X]; [cbn; lia|].
    destruct (R Market) as [y Y]; [cbn; lia|].
    destruct (R Product) as [z Z]; [cbn; lia|].
    destruct (R Regulatory) as [u U]; [cbn; lia|].
    destruct (R Strategic) as [v V]; [cbn; lia|].
    cbn [compute_signal response_of] in X, Y, Z, U, V.
    rewrite (seq_lift _ _ _ _ X), (seq_lift _ _ _ _ Y), (seq_lift _ _ _ _ Z),
      (seq_lift _ _ _ _ U), (seq_lift _ _ _ _ V).
    now rewrite (seq_lift_raise _ _ _ _ F).
Qed.

(** The evaluation up to the Reviewer's call. *)
Lemma evaluate_until_review invention llm h t a b c d e f prs raw norm ev :
  triage invention (r_triage llm) = Ok t ->
  compute_signal Technology (r_tech llm) = Ok a ->
  compute_signal Market (r_market llm) = Ok b ->
  compute_signal Product (r_product llm) = Ok c ->
  compute_signal Regulatory (r_regulatory llm) = Ok d ->
  compute_signal Strategic (r_strategic llm) = Ok e ->
  compute_signal Timing (r_timing llm) = Ok f ->
  calculate_prs a b c e f d = Ok (prs, raw, norm, ev) ->
  exists (k : json * json -> step PatentRelevanceOutput) h3,
    evaluate invention llm h
    = seq (lift (review raw ev (r_reviewer llm))) k h3
    /\ (forall cf, (forall s, fst cf <> JStr s) ->
          fst (k cf h3) = Raise AttributeError).
Proof.
  intros T Ea Eb Ec Ed Ee Ef Sc. cbn [compute_signal] in *.
  unfold evaluate.
  rewrite (seq_lift _ _ _ _ T).
  unfold seq at 1. unfold hook at 1.
  rewrite (seq_lift _ _ _ _ Ea), (seq_lift _ _ _ _ Eb), (seq_lift _ _ _ _ Ec),
    (seq_lift _ _ _ _ Ed), (seq_lift _ _ _ _ Ee), (seq_lift _ _ _ _ Ef).
  rewrite (seq_lift _ _ _ _ (validate_multiple_scores_eq _ _)).
  unfold seq at 1.
  destruct ((if Nat.eqb _ 0 then lift (Ok tt) else hook _)
              (option_map (fun h0 => fold_left on_agent_start agent_names h0) h))
    as [[[]|x] h3] eqn:Hk.
  2:{ destruct (Nat.eqb _ 0); discriminate. }
  unfold seq at 1. unfold hook at 1.
  rewrite option_map_id by reflexivity.
  rewrite (seq_lift _ _ _ _ Sc).
  eexists. exists h3. split; [reflexivity|].
  intros [cf fl] N. cbn [fst] in N.
  destruct cf; try reflexivity. now destruct (N s).
Qed.

Lemma evaluate_review_fails invention llm h t a b c d e f prs raw norm ev x :
  triage invention (r_triage llm) = Ok t ->
  compute_signal Technology (r_tech llm) = Ok a ->
  compute_signal Market (r_market llm) = Ok b ->
  compute_signal Product (r_product llm) = Ok c ->
  compute_signal Regulatory (r_regulatory llm) = Ok d ->
  compute_signal Strategic (r_strategic llm) = Ok e ->
  compute_signal Timing (r_timing llm) = Ok f ->
  calculate_prs a b c e f d = Ok (prs, raw, norm, ev) ->
  (review raw ev (r_reviewer llm) = Raise x ->
   fst (evaluate invention llm h) = Raise x)
  /\ (forall cf fl, review raw ev (r_reviewer llm) = Ok (cf, fl) ->
        (forall s, cf <> JStr s) ->
        fst (evaluate invention llm h) = Raise AttributeError).
Proof.
  intros T Ea Eb Ec Ed Ee Ef Sc.
  destruct (evaluate_until_review invention llm h t a b c d e f prs raw norm ev
              T Ea Eb Ec Ed Ee Ef Sc) as (k & h3 & -> & K).
  split.
  - intros R. now rewrite (seq_lift_raise _ _ _ _ R).
  - intros cf fl R N. rewrite (seq_lift _ _ _ _ R).
    apply (K (cf, fl)). exact N.
Qed.

Lemma review_unparseable raw ev text u :
  unfence (strip text) = Ok u -> json_loads u = None ->
  review raw ev (Content text) = Raise JSONDecodeError.
Proof.
  intros U J. unfold review. cbn [content_strip bind]. rewrite U. cbn [bind].
  unfold loads. now rewrite J.
Qed.

End Failures.

(** A failure of the triage is fatal and leaves the hooks untouched; when
    the triage returns, the exception of the first agent that fails, in
    the order the six are gathered, is the one evaluate raises, with the
    six agents recorded as started and nothing else. *)
Theorem X_first_failure_propagates `{Builtins}
    (invention : InventionInput) (llm : Responses) (h : option PipelineHooks)
    (e : exn) :
  (triage invention (r_triage llm) = Raise e ->
   evaluate invention llm h = (Raise e, h))
  /\ (forall a,
        returns (triage invention (r_triage llm)) ->
        (forall b, runs_before b a ->
           returns (compute_signal b (response_of llm b))) ->
        compute_signal a (response_of llm a) = Raise e ->
        evaluate invention llm h = (Raise e, hooks_started h)).
Proof.
  split.
  - apply evaluate_triage_fails.
  - intros a. apply evaluate_agent_fails.
Qed.

Lemma X_first_failure_witness :
  evaluate invention
       {| r_triage := answer "{}"; r_tech := answer "no json here";
          r_market := answer "no json here"; r_product := answer "no json here";
          r_regulatory := Failed; r_strategic := answer no_score_text;
          r_timing := answer no_score_text; r_reviewer := answer "{}" |}
       (Some Hooks.init)
     = (Raise JSONDecodeError, hooks_started (Some Hooks.init))
  /\ evaluate invention
       {| r_triage := NoContent; r_tech := answer "no json here";
          r_market := answer "no json here"; r_product := answer "no json here";
          r_regulatory := Failed; r_strategic := answer no_score_text;
          r_timing := answer no_score_text; r_reviewer := answer "{}" |}
       (Some Hooks.init)
     = (Raise AttributeError, Some Hooks.init).
Proof.
  split.
  - apply (proj2 (X_first_failure_propagates invention _ (Some Hooks.init)
                    JSONDecodeError) Product).
    + eexists. vm_compute. reflexivity.
    + intros b Lt. destruct b; unfold runs_before in Lt; cbn in Lt; try lia;
        eexists; vm_compute; reflexivity.
    + reflexivity.
  - apply (proj1 (X_first_failure_propagates invention _ (Some Hooks.init)
                    AttributeError)).
    reflexivity.
Defined.

(** A failure of the Reviewer is fatal: once the triage and the six
    agents have returned, an exception of review is the one evaluate
    raises, an unparseable answer raises JSONDecodeError, and a
    confidence that is not a string makes evaluate raise AttributeError
    where it upper-cases the confidence for printing. *)
Theorem X_reviewer_failure_is_fatal `{Builtins}
    (invention : InventionInput) (llm : Responses) (h : option PipelineHooks)
    (t : TriagedInvention) (a b c d e f : DimensionScore)
    (prs : Q) (raw norm : list (string * Q)) (ev : list (string * Evidence)) :
  triage invention (r_triage llm) = Ok t ->
  compute_signal Technology (r_tech llm) = Ok a ->
  compute_signal Market (r_market llm) = Ok b ->
  compute_signal Product (r_product llm) = Ok c ->
  compute_signal Regulatory (r_regulatory llm) = Ok d ->
  compute_signal Strategic (r_strategic llm) = Ok e ->
  compute_signal Timing (r_timing llm) = Ok f ->
  calculate_prs a b c e f d = Ok (prs, raw, norm, ev) ->
  (forall x, review raw ev (r_reviewer llm) = Raise x ->
     fst (evaluate invention llm h) = Raise x)
  /\ (forall text u, r_reviewer llm = Content text ->
        unfence (strip text) = Ok u -> json_loads u = None ->
        fst (evaluate invention llm h) = Raise JSONDecodeError)
  /\ (forall cf fl, review raw ev (r_reviewer llm) = Ok (cf, fl) ->
        (forall s, cf <> JStr s) ->
        fst (evaluate invention llm h) = Raise AttributeError).
Proof.
  intros T Ea Eb Ec Ed Ee Ef Sc.
  pose proof (fun x => evaluate_review_fails invention llm h t a b c d e f
                         prs raw norm ev x T Ea Eb Ec Ed Ee Ef Sc) as R.
  split; [|split].
  - intros x. apply (R x).
  - intros text u C U J. apply (proj1 (R JSONDecodeError)).
    rewrite C. now apply (review_unparseable _ _ _ u).
  - intros cf fl. apply (proj2 (R JSONDecodeError)).
Qed.

Lemma X_reviewer_failure_witness :
  fst (evaluate invention (with_reviewer flagged_run Failed) (Some Hooks.init))
  = Raise APIError
  /\ fst (evaluate invention (with_reviewer flagged_run (answer "no json here"))
            (Some Hooks.init))
     = Raise JSONDecodeError.
Proof.
  split.
  - eapply (proj1 (X_reviewer_failure_is_fatal invention
                     (with_reviewer flagged_run Failed) (Some Hooks.init)
                     _ _ _ _ _ _ _ _ _ _ _ _ _ _ _ _ _ _ _) APIError).
    Unshelve. all: try (vm_compute; reflexivity).
  - eapply (proj1 (proj2 (X_reviewer_failure_is_fatal invention
                     (with_reviewer flagged_run (answer "no json here"))
                     (Some Hooks.init)
                     _ _ _ _ _ _ _ _ _ _ _ _ _ _ _ _ _ _ _))
              "no json here" "no json here").
    Unshelve. all: try (vm_compute; reflexivity).
Defined.

(** ** The hooks over a whole evaluation *)

Lemma assoc_setitem_same {V} (d : list (string * V)) (k : string) (v : V) :
  assoc k (setitem d k v) = Some v.
Proof.
  induction d as [|[k' v'] r IH]; simpl.
  - now rewrite String.eqb_refl.
  - destruct (String.eqb k k') eqn:E; simpl; rewrite E; [reflexivity | exact IH].
Qed.

Lemma assoc_setitem_other {V} (d : list (string * V)) (k n : string) (v : V) :
  n <> k -> assoc n (setitem d k v) = assoc n d.
Proof.
  intros N. induction d as [|[k' v'] r IH]; simpl.
  - apply String.eqb_neq in N. now rewrite N.
  - destruct (String.eqb k k') eqn:E; simpl.
    + apply String.eqb_eq in E. subst k'.
      apply String.eqb_neq in N. now rewrite N.
    + destruct (String.eqb n k'); [reflexivity | exact IH].
Qed.

Lemma keys_setitem_present {V} (d : list (string * V)) (k : string) (v w : V) :
  assoc k d = Some w -> map fst (setitem d k v) = map fst d.
Proof.
  induction d as [|[k' v'] r IH]; simpl; [discriminate|].
  destruct (String.eqb k k') eqn:E; simpl; [reflexivity|].
  intros A. now rewrite (IH A).
Qed.

Lemma started_metrics (names : list string) (x : PipelineHooks) :
  let y := fold_left on_agent_start names x in
  all_flags y = all_flags x /\ total_tokens y = total_tokens x
  /\ total_cost y = total_cost x
  /\ (forall n, In n names -> assoc n (metrics y) = Some (started n))
  /\ (forall n, ~ In n names -> assoc n (metrics y) = assoc n (metrics x)).
Proof.
  revert x. induction names as [|k r IH]; intros x; cbn zeta.
  - simpl. repeat split; auto. intros n [].
  - cbn [fold_left].
    destruct (IH (on_agent_start x k)) as (F & T & C & I & O).
    cbn zeta in F, T, C, I, O.
    split; [exact F|]. split; [exact T|]. split; [exact C|]. split.
    + intros n [<- | Hn].
      * destruct (in_dec string_dec k r) as [Y | N]; [now apply I|].
        rewrite (O k N). cbn [on_agent_start metrics].
        apply assoc_setitem_same.
      * now apply I.
    + intros n N. rewrite O by (intros X; apply N; now right).
      cbn [on_agent_start metrics]. apply assoc_setitem_other.
      intros ->. apply N. now left.
Qed.

Section Run.
Context `{Builtins}.

Lemma batch_step (issues : list string) (h : option PipelineHooks) :
  (if Nat.eqb (List.length issues) 0 then lift (Ok tt)
   else hook (fun h =>
                fold_left (fun h issue => on_validation_error h "signals_batch" issue)
                  issues h)) h
  = (Ok tt, option_map
              (fun x => fold_left (fun h i => add_flag h (batch_flag i)) issues x) h).
Proof.
  destruct issues as [|i r].
  - simpl. unfold lift. now rewrite option_map_id.
  - reflexivity.
Qed.

Lemma quality_step (f : json) (h : option PipelineHooks) :
  (if truthy f
   then seq (lift (len f))
          (fun _ => seq (lift (iter f))
             (fun items => hook (fun h => on_quality_check h "reviewer" items)))
   else lift (Ok tt)) h
  = match reviewed_items f with
    | Ok items =>
        (Ok tt, option_map
                  (fun x => fold_left
                              (fun h i => add_flag h (quality_flag (fstr i))) items x) h)
    | Raise e => (Raise e, h)
    end.
Proof.
  unfold reviewed_items. destruct (truthy f).
  - destruct f; try reflexivity.
  - simpl. unfold lift. now rewrite option_map_id.
Qed.

Lemma recorded_extends (issues : list string) (items : list json) h :
  extends (hooks_started h) (hooks_recorded issues items h).
Proof.
  unfold hooks_recorded.
  apply extends_trans with
    (option_map (fun x => fold_left (fun h i => add_flag h (batch_flag i)) issues x)
       (hooks_started h)).
  - apply (extends_flags batch_flag).
  - pose proof (extends_flags (fun i => quality_flag (fstr i)) items
                  (option_map
                     (fun x => fold_left (fun h i => add_flag h (batch_flag i)) issues x)
                     (hooks_started h))) as X.
    destruct (hooks_started h); exact X.
Qed.

(** Once every stage before the final constructor has returned, the
    result of evaluate is the constructor's and the hooks are known. *)
Lemma evaluate_run invention llm h s c items :
  reached invention llm s ->
  s_confidence s = JStr c ->
  reviewed_items (s_flags s) = Ok items ->
  evaluate invention llm h
  = (assemble invention s (hooks_started h),
     hooks_recorded (issues_of (batch s) 6) items h).
Proof.
  intros (T & Tech & Mk & Pr & Rg & St & Ti & Sc & Rv & Sw) C F.
  simpl in Tech, Mk, Pr, Rg, St, Ti.
  pose proof (recorded_extends (issues_of (batch s) 6) items h) as X.
  unfold hooks_recorded in *.
  unfold evaluate.
  rewrite (seq_lift _ _ _ _ T).
  unfold seq at 1. unfold hook at 1. fold (hooks_started h).
  rewrite (seq_lift _ _ _ _ Tech), (seq_lift _ _ _ _ Mk), (seq_lift _ _ _ _ Pr),
    (seq_lift _ _ _ _ Rg), (seq_lift _ _ _ _ St), (seq_lift _ _ _ _ Ti).
  rewrite (seq_lift _ _ _ _ (validate_multiple_scores_eq _ _)).
  unfold seq at 1. fold (batch s). rewrite batch_step.
  unfold seq at 1. unfold hook at 1.
  rewrite option_map_id by reflexivity.
  rewrite (seq_lift _ _ _ _ Sc), (seq_lift _ _ _ _ Rv).
  rewrite C. rewrite (seq_lift _ _ tt _ eq_refl).
  unfold seq at 1. rewrite quality_step, F.
  rewrite (seq_lift _ _ _ _ Sw).
  unfold seq at 1. unfold read_hooks at 1.
  match goal with
  | |- context [usage_of ?g] =>
      replace (usage_of g) with (usage_of (hooks_started h))
  end.
  2:{ symmetry. apply usage_extends.
      destruct (hooks_started h); exact X. }
  unfold assemble. rewrite C.
  destruct (PatentRelevanceOutput_new _ _ _ _ _ _ _ _ _) as [o|e] eqn:A.
  - unfold seq, lift, hook. rewrite option_map_id by reflexivity.
    destruct (hooks_started h); reflexivity.
  - unfold seq, lift. destruct (hooks_started h); reflexivity.
Qed.

End Run.

Lemma as_int_whole (q : Q) (z : Z) : as_int q = Some z -> (q == inject_Z z)%Q.
Proof.
  unfold as_int. destruct (Pos.eqb (Qden (Qred q)) 1) eqn:D; [|discriminate].
  intros E. injection E as <-. apply Pos.eqb_eq in D.
  rewrite <- (Qred_correct q) at 1.
  destruct (Qred q) as [n d]. simpl in *. subst d. reflexivity.
Qed.

Lemma as_int_inject_Z (z : Z) : as_int (inject_Z z) = Some z.
Proof.
  destruct (as_int (inject_Z z)) as [w|] eqn:E.
  - apply as_int_whole in E. unfold Qeq in E. simpl in E. f_equal. lia.
  - unfold as_int in E.
    assert (Q1 : Qred (inject_Z z) = inject_Z z).
    { unfold Qred, inject_Z.
      pose proof (Z.ggcd_gcd z 1) as G.
      pose proof (Z.ggcd_correct_divisors z 1) as D.
      destruct (Z.ggcd z 1) as (g, (a, b)). simpl in G, D.
      rewrite Z.gcd_1_r in G. subst g. destruct D as [Da Db].
      assert (a = z) as -> by lia. assert (b = 1%Z) as -> by lia.
      reflexivity. }
    rewrite Q1 in E. discriminate.
Qed.

Lemma reviewed_strings (l : list string) :
  reviewed_items (JArr (map JStr l)) = Ok (map JStr l).
Proof. destruct l; reflexivity. Qed.

Section Recorded.
Context `{Builtins}.

Lemma evaluate_recorded invention llm h out h' :
  evaluate invention llm h = (Ok out, h') ->
  exists s,
    reached invention llm s
    /\ assemble invention s (hooks_started h) = Ok out
    /\ h' = hooks_recorded (issues_of (batch s) 6) (map JStr (flags out)) h.
Proof.
  intros E.
  destruct (evaluate_ok _ _ _ _ _ E) as (s & ok & issues & R & _ & A & _).
  exists s. split; [exact R|]. split; [exact A|].
  pose proof A as A'. unfold assemble in A'.
  apply PatentRelevanceOutput_new_ok in A'
    as (_ & _ & _ & _ & _ & _ & C & (l & F & L) & _).
  apply all_str_inv in L. subst l.
  rewrite (evaluate_run invention llm h s (o_confidence out)
             (map JStr (flags out)) R C) in E
    by (rewrite F; apply reviewed_strings).
  now injection E as _ <-.
Qed.

Lemma recorded_state (issues : list string) (fl : list string) (x : PipelineHooks) :
  exists y,
    hooks_recorded issues (map JStr fl) (Some x) = Some y
    /\ all_flags y
       = (all_flags x ++ map batch_flag issues ++ map quality_flag fl)%list
    /\ metrics y = metrics (fold_left on_agent_start agent_names x)
    /\ total_tokens y = total_tokens x /\ total_cost y = total_cost x.
Proof.
  unfold hooks_recorded, hooks_started. cbn [option_map].
  eexists. split; [reflexivity|].
  destruct (started_metrics agent_names x) as (F0 & T0 & C0 & _).
  cbv zeta in F0, T0, C0.
  set (x0 := fold_left on_agent_start agent_names x) in *.
  destruct (fold_add_flag batch_flag issues x0) as [(M1 & T1 & C1) F1].
  cbv zeta in M1, T1, C1, F1.
  set (x1 := fold_left (fun h i => add_flag h (batch_flag i)) issues x0) in *.
  destruct (fold_add_flag (fun i => quality_flag (fstr i)) (map JStr fl) x1)
    as [(M2 & T2 & C2) F2].
  cbv zeta in M2, T2, C2, F2.
  rewrite F2, F1, F0, M2, M1, T2, T1, T0, C2, C1, C0.
  rewrite map_map, <- app_assoc. cbn [fstr].
  repeat split; reflexivity.
Qed.

(** With hooks enabled, a completed evaluation leaves the token and cost
    totals as they were, gives each of the six agents a fresh metrics
    entry and keeps every other entry, and appends to the flags one
    VALIDATION_ERROR flag per over-confident score, in the order of the
    batch, followed by one QUALITY_ISSUE flag per flag of the result. *)
Theorem X_hooks_after_evaluate invention llm (x : PipelineHooks) out h' :
  evaluate invention llm (Some x) = (Ok out, h') ->
  exists y a b c d e f,
    h' = Some y
    /\ compute_signal Technology (r_tech llm) = Ok a
    /\ compute_signal Market (r_market llm) = Ok b
    /\ compute_signal Product (r_product llm) = Ok c
    /\ compute_signal Regulatory (r_regulatory llm) = Ok d
    /\ compute_signal Strategic (r_strategic llm) = Ok e
    /\ compute_signal Timing (r_timing llm) = Ok f
    /\ all_flags y
       = (all_flags x
          ++ map batch_flag
               (map high_score_issue (filter overconfident [a; b; c; d; e; f]))
          ++ map quality_flag (flags out))%list
    /\ total_tokens y = total_tokens x /\ total_cost y = total_cost x
    /\ (forall n, In n agent_names -> assoc n (metrics y) = Some (started n))
    /\ (forall n, ~ In n agent_names -> assoc n (metrics y) = assoc n (metrics x)).
Proof.
  intros E.
  apply evaluate_recorded in E
    as (s & (T & Tech & Mk & Pr & Rg & St & Ti & _) & _ & ->).
  destruct (recorded_state (issues_of (batch s) 6) (flags out) x)
    as (y & -> & F & M & Tk & C).
  exists y, (s_tech s), (s_market s), (s_product s), (s_regulatory s),
    (s_strategic s), (s_timing s).
  split; [reflexivity|]. do 6 (split; [assumption|]).
  pose proof (pipeline_batch llm _ _ _ _ _ _ Tech Mk Pr Rg St Ti) as P.
  cbv zeta in P. rewrite validate_multiple_scores_eq in P.
  injection P as _ P. unfold batch in F. rewrite P in F.
  split; [exact F|]. split; [exact Tk|]. split; [exact C|].
  destruct (started_metrics agent_names x) as (_ & _ & _ & I & O).
  cbv zeta in I, O. rewrite M. split; assumption.
Qed.

Lemma evaluate_usage invention llm h out h' :
  evaluate invention llm h = (Ok out, h') ->
  match h with
  | None => h' = None /\ usage_summary out = []
  | Some x =>
      exists y cost duration,
        h' = Some y
        /\ usage_summary out
           = [ ("total_tokens", total_tokens x); ("estimated_cost", cost);
               ("duration_seconds", duration);
               ("agents_executed", Z.of_nat (List.length (metrics y))) ]
        /\ as_int (round_nd (total_cost x) 4) = Some cost
        /\ as_int (round_nd (summary_total_duration y) 2) = Some duration
  end.
Proof.
  intros E.
  apply evaluate_recorded in E as (s & _ & A & ->).
  unfold assemble in A.
  apply PatentRelevanceOutput_new_ok in A as (_ & _ & _ & _ & _ & _ & _ & _ & U).
  destruct h as [x|].
  - destruct (recorded_state (issues_of (batch s) 6) (flags out) x)
      as (y & -> & _ & M & _).
    destruct (started_metrics agent_names x) as (_ & T0 & C0 & _).
    cbv zeta in T0, C0.
    unfold hooks_started in U. cbn [option_map usage_of all_int] in U.
    rewrite T0, C0, !as_int_inject_Z in U.
    unfold summary_total_duration in *. rewrite <- M in U.
    destruct (as_int (round_nd (total_cost x) 4)) as [cost|] eqn:Ec;
      [|discriminate].
    destruct (as_int (round_nd _ 2)) as [duration|] eqn:Ed; [|discriminate].
    injection U as <-. exists y, cost, duration.
    repeat split; try reflexivity; assumption.
  - split; [reflexivity|]. cbn in U. now injection U as <-.
Qed.

End Recorded.

Lemma X_hooks_after_evaluate_witness :
  exists out y,
    evaluate invention flagged_run (Some Hooks.init) = (Ok out, Some y)
    /\ total_tokens y = 0%Z
    /\ assoc "TimingAgent" (metrics y) = Some (started "TimingAgent").
Proof.
  destruct (evaluate invention flagged_run (Some Hooks.init))
    as [[out|e] h'] eqn:E; [|vm_compute in E; discriminate].
  destruct (X_hooks_after_evaluate _ _ _ _ _ E)
    as (y & _ & _ & _ & _ & _ & _ & -> & _ & _ & _ & _ & _ & _ & _ & T & _ & I & _).
  exists out, y. split; [reflexivity|]. split; [exact T|].
  apply I. simpl. tauto.
Defined.

(** The usage_summary of a result is empty when hooks are disabled.
    With hooks enabled it holds four entries: the token total the hooks
    had before the evaluation, the number of metrics entries, and the
    rounded cost and rounded total duration, which must both be whole
    numbers for a result to be returned at all. *)
Theorem X_usage_summary `{Builtins}
    (invention : InventionInput) (llm : Responses) (h : option PipelineHooks)
    (out : PatentRelevanceOutput) (h' : option PipelineHooks) :
  evaluate invention llm h = (Ok out, h') ->
  match h with
  | None => h' = None /\ usage_summary out = []
  | Some x =>
      exists y cost duration,
        h' = Some y
        /\ usage_summary out
           = [ ("total_tokens", total_tokens x); ("estimated_cost", cost);
               ("duration_seconds", duration);
               ("agents_executed", Z.of_nat (List.length (metrics y))) ]
        /\ (round_nd (total_cost x) 4 == inject_Z cost)%Q
        /\ (round_nd (summary_total_duration y) 2 == inject_Z duration)%Q
  end.
Proof.
  intros E. apply evaluate_usage in E. destruct h as [x|]; [|exact E].
  destruct E as (y & cost & duration & -> & U & C & D).
  exists y, cost, duration.
  split; [reflexivity|]. split; [exact U|].
  split; now apply as_int_whole.
Qed.

Lemma X_usage_summary_witness :
  exists out,
    evaluate invention flagged_run None = (Ok out, None)
    /\ usage_summary out = [].
Proof.
  destruct (evaluate invention flagged_run None)
    as [[out|e] h'] eqn:E; [|vm_compute in E; discriminate].
  destruct (X_usage_summary _ _ None _ _ E) as [-> U].
  now exists out.
Defined.

(** An evaluation whose hooks carry a cost that does not round to a
    whole number returns no result: the usage_summary of the result only
    takes integers. *)
Theorem X_fractional_cost_prevents_a_result `{Builtins}
    (invention : InventionInput) (llm : Responses) (x : PipelineHooks) :
  as_int (round_nd (total_cost x) 4) = None ->
  forall out h', evaluate invention llm (Some x) <> (Ok out, h').
Proof.
  intros N out h' E. apply evaluate_usage in E.
  destruct E as (y & cost & duration & _ & _ & C & _). congruence.
Qed.

Lemma X_fractional_cost_witness :
  let x := on_agent_end (on_agent_start Hooks.init "TriageOrchestrator")
             "TriageOrchestrator" 1 1000 0 in
  (total_cost x == 0.015)%Q
  /\ forall out h', evaluate invention flagged_run (Some x) <> (Ok out, h').
Proof.
  intros x. split; [reflexivity|].
  apply (X_fractional_cost_prevents_a_result invention flagged_run x).
  vm_compute. reflexivity.
Defined.

(** ** The Synthesizer, continued *)

Lemma assoc_In {V} (k : string) (d : list (string * V)) (v : V) :
  assoc k d = Some v -> In (k, v) d.
Proof.
  induction d as [|[k' v'] r IH]; simpl; [discriminate|].
  destruct (String.eqb k k') eqn:E.
  - apply String.eqb_eq in E. intros X. injection X as ->. subst. now left.
  - intros X. right. now apply IH.
Qed.

Lemma filter_nil_iff {A} (f : A -> bool) (l : list A) :
  filter f l = [] <-> forall x, In x l -> f x = false.
Proof.
  induction l as [|a l IH]; simpl.
  - split; [intros _ x [] | reflexivity].
  - destruct (f a) eqn:E; split.
    + discriminate.
    + intros F. specialize (F a (or_introl eq_refl)). congruence.
    + intros N x [<- | I]; [exact E | now apply IH].
    + intros F. apply IH. intros x I. apply F. now right.
Qed.

Lemma Qle_bool_false_iff (x y : Q) : Qle_bool x y = false <-> (y < x)%Q.
Proof.
  split; [apply Qle_bool_false_lt|].
  intros L. destruct (Qle_bool x y) eqn:E; [|reflexivity].
  apply Qle_bool_iff in E. exfalso. now apply (Qlt_not_le _ _ L).
Qed.

Lemma strong_not_weak (kv : string * Q) : strong kv = true -> weak kv = false.
Proof.
  unfold strong, weak. intros S. apply Qle_bool_iff in S.
  apply Qle_bool_false_iff. lra.
Qed.

Lemma strong_weak_length (ns : list (string * Q)) :
  List.length (filter strong ns) + List.length (filter weak ns)
  <= List.length ns.
Proof.
  induction ns as [|kv r IH]; simpl; [lia|].
  destruct (strong kv) eqn:S.
  - rewrite (strong_not_weak kv S). simpl. lia.
  - destruct (weak kv); simpl; lia.
Qed.

Section SynthesizerOutcome.
Context `{Builtins}.

Lemma fires_length ns key test label :
  List.length (fires ns key test label) <= 1.
Proof.
  unfold fires. destruct (assoc key ns) as [v|]; [destruct (test v)|]; simpl; lia.
Qed.

Lemma fires_nil_iff ns key test label :
  fires ns key test label = []
  <-> forall v, assoc key ns = Some v -> test v = false.
Proof.
  unfold fires. destruct (assoc key ns) as [v|].
  - destruct (test v) eqn:T; split.
    + discriminate.
    + intros F. specialize (F v eq_refl). congruence.
    + intros _ w E. now injection E as <-.
    + reflexivity.
  - split; [discriminate | reflexivity].
Qed.

Lemma no_opportunity_iff ns key label :
  fires ns key at_least_65 label = [] <-> (dict_get ns key 0 < 65)%Q.
Proof.
  rewrite fires_nil_iff. unfold dict_get, at_least_65.
  destruct (assoc key ns) as [v|]; split.
  - intros F. apply Qle_bool_false_iff. now apply F.
  - intros L w E. injection E as <-. now apply Qle_bool_false_iff.
  - reflexivity.
  - discriminate.
Qed.

Lemma swot_fails_iff (ns : list (string * Q)) :
  generate_swot ns = Raise (PydanticValidationError "SWOT")
  <-> (forall k v, In (k, v) ns -> (40 < v < 70)%Q)
      /\ (dict_get ns "market_gravity" 0 < 65)%Q
      /\ (dict_get ns "timing" 0 < 65)%Q.
Proof.
  split.
  - unfold generate_swot. rewrite swot_lists_eq. cbn [bind].
    intros E. unfold SWOT_new in E.
    destruct (filter strong ns) eqn:S; [|discriminate].
    destruct (filter weak ns) eqn:W; [|discriminate].
    destruct (fires ns "market_gravity" _ _) eqn:O1; [|discriminate].
    destruct (fires ns "timing" _ _) eqn:O2; [|discriminate].
    split; [|split].
    + intros k v I.
      pose proof (proj1 (filter_nil_iff _ _) S (k, v) I) as S1.
      pose proof (proj1 (filter_nil_iff _ _) W (k, v) I) as W1.
      apply Qle_bool_false_iff in S1. apply Qle_bool_false_iff in W1.
      simpl in S1, W1. now split.
    + now apply (no_opportunity_iff ns "market_gravity" "Strong market potential").
    + now apply (no_opportunity_iff ns "timing" "Favorable timing").
  - intros (M & O1 & O2).
    apply swot_all_midrange.
    + apply filter_nil_iff. intros [k v] I. apply Qle_bool_false_iff.
      simpl. exact (proj2 (M k v I)).
    + apply filter_nil_iff. intros [k v] I. apply Qle_bool_false_iff.
      simpl. exact (proj1 (M k v I)).
    + now apply no_opportunity_iff.
    + now apply no_opportunity_iff.
    + apply fires_nil_iff. intros v E. apply assoc_In in E.
      apply Qle_bool_false_iff. exact (proj1 (M _ v E)).
    + apply fires_nil_iff. intros v E. apply assoc_In in E.
      apply Qle_bool_false_iff. exact (proj1 (M _ v E)).
Qed.

Lemma swot_total (ns : list (string * Q)) :
  generate_swot ns = Raise (PydanticValidationError "SWOT")
  \/ exists sw, generate_swot ns = Ok sw.
Proof.
  unfold generate_swot. rewrite swot_lists_eq. cbn [bind].
  unfold SWOT_new. destruct (_ || _); eauto.
Qed.

(** In a SWOT that generate_swot returns, strengths and weaknesses
    together have at most one entry per score, there are at most two
    opportunities and two threats, a threat comes with a weakness, and a
    market_gravity or timing score of 70 or more gives both a strength
    and an opportunity. *)
Theorem X_swot_shape (ns : list (string * Q)) (sw : SWOT) :
  generate_swot ns = Ok sw ->
  List.length (strengths sw) + List.length (weaknesses sw) <= List.length ns
  /\ List.length (opportunities sw) <= 2
  /\ List.length (threats sw) <= 2
  /\ (threats sw <> [] -> weaknesses sw <> [])
  /\ (forall v, assoc "market_gravity" ns = Some v -> (70 <= v)%Q ->
        strengths sw <> [] /\ opportunities sw <> [])
  /\ (forall v, assoc "timing" ns = Some v -> (70 <= v)%Q ->
        strengths sw <> [] /\ opportunities sw <> []).
Proof.
  unfold generate_swot. rewrite swot_lists_eq. cbn [bind].
  intros E. apply SWOT_new_ok in E as [-> _].
  cbn [strengths weaknesses opportunities threats].
  assert (St : forall k v, assoc k ns = Some v -> (70 <= v)%Q ->
                 map entry (filter strong ns) <> []).
  { intros k v A L X. apply map_eq_nil in X.
    pose proof (proj1 (filter_nil_iff _ _) X (k, v) (assoc_In _ _ _ A)) as F.
    apply Qle_bool_false_iff in F. simpl in F. lra. }
  assert (Op : forall k label v, assoc k ns = Some v -> (70 <= v)%Q ->
                 fires ns k at_least_65 label <> []).
  { intros k label v A L X.
    pose proof (proj1 (fires_nil_iff _ _ _ _) X v A) as F.
    apply Qle_bool_false_iff in F. lra. }
  split; [|split; [|split; [|split; [|split]]]].
  - rewrite !length_map. apply strong_weak_length.
  - rewrite length_app.
    pose proof (fires_length ns "market_gravity" at_least_65 "Strong market potential").
    pose proof (fires_length ns "timing" at_least_65 "Favorable timing"). lia.
  - rewrite length_app.
    pose proof (fires_length ns "regulatory_alignment" at_most_40 "Regulatory friction").
    pose proof (fires_length ns "white_space" at_most_40 "Crowded market"). lia.
  - intros T W. apply T. apply map_eq_nil in W.
    assert (N : forall key label, fires ns key at_most_40 label = []).
    { intros key label. apply fires_nil_iff. intros v A.
      pose proof (proj1 (filter_nil_iff _ _) W (key, v) (assoc_In _ _ _ A)) as F.
      exact F. }
    now rewrite !N.
  - intros v A L. split; [exact (St _ v A L)|].
    intros X. apply app_eq_nil in X as [X _]. exact (Op _ _ v A L X).
  - intros v A L. split; [exact (St _ v A L)|].
    intros X. apply app_eq_nil in X as [_ X]. exact (Op _ _ v A L X).
Qed.

End SynthesizerOutcome.

(** generate_swot raises nothing but the SWOT model's validation error,
    and raises it exactly when every score lies strictly between 40 and
    70 and neither market_gravity nor timing reaches 65: no threat can
    fire without a weakness, so the threat rules never save an input. *)
Theorem X_generate_swot_fails_iff `{Builtins} (normalized_scores : list (string * Q)) :
  (generate_swot normalized_scores = Raise (PydanticValidationError "SWOT")
   \/ exists sw, generate_swot normalized_scores = Ok sw)
  /\ (generate_swot normalized_scores = Raise (PydanticValidationError "SWOT")
      <-> (forall k v, In (k, v) normalized_scores -> (40 < v < 70)%Q)
          /\ (dict_get normalized_scores "market_gravity" 0 < 65)%Q
          /\ (dict_get normalized_scores "timing" 0 < 65)%Q).
Proof. split; [apply swot_total | apply swot_fails_iff]. Qed.

Lemma X_swot_shape_witness :
  exists sw,
    generate_swot swot_example = Ok sw
    /\ List.length (strengths sw) + List.length (weaknesses sw) <= 6
    /\ strengths sw <> [] /\ opportunities sw <> [].
Proof.
  destruct (generate_swot swot_example) as [sw|e] eqn:E;
    [|vm_compute in E; discriminate].
  destruct (X_swot_shape _ _ E) as (L & _ & _ & _ & _ & T).
  exists sw. split; [reflexivity|]. split; [exact L|].
  apply (T 70%Q); [reflexivity | discriminate].
Defined.

Lemma reviewed_list (l : list json) : reviewed_items (JArr l) = Ok l.
Proof. destruct l; reflexivity. Qed.

Section SynthesizerInPipeline.
Context `{Builtins}.

Lemma evaluate_swot_fails invention llm h t a b c d e f prs raw norm ev cf fl
    items x :
  triage invention (r_triage llm) = Ok t ->
  compute_signal Technology (r_tech llm) = Ok a ->
  compute_signal Market (r_market llm) = Ok b ->
  compute_signal Product (r_product llm) = Ok c ->
  compute_signal Regulatory (r_regulatory llm) = Ok d ->
  compute_signal Strategic (r_strategic llm) = Ok e ->
  compute_signal Timing (r_timing llm) = Ok f ->
  calculate_prs a b c e f d = Ok (prs, raw, norm, ev) ->
  review raw ev (r_reviewer llm) = Ok (JStr cf, fl) ->
  reviewed_items fl = Ok items ->
  generate_swot norm = Raise x ->
  evaluate invention llm h
  = (Raise x, hooks_recorded (issues_of [a; b; c; d; e; f] 6) items h).
Proof.
  intros T Ea Eb Ec Ed Ee Ef Sc Rv F Sw. cbn [compute_signal] in *.
  unfold hooks_recorded.
  unfold evaluate.
  rewrite (seq_lift _ _ _ _ T).
  unfold seq at 1. unfold hook at 1. fold (hooks_started h).
  rewrite (seq_lift _ _ _ _ Ea), (seq_lift _ _ _ _ Eb), (seq_lift _ _ _ _ Ec),
    (seq_lift _ _ _ _ Ed), (seq_lift _ _ _ _ Ee), (seq_lift _ _ _ _ Ef).
  rewrite (seq_lift _ _ _ _ (validate_multiple_scores_eq _ _)).
  unfold seq at 1. rewrite batch_step.
  unfold seq at 1. unfold hook at 1.
  rewrite option_map_id by reflexivity.
  rewrite (seq_lift _ _ _ _ Sc), (seq_lift _ _ _ _ Rv).
  rewrite (seq_lift _ _ tt _ eq_refl).
  unfold seq at 1. rewrite quality_step, F.
  rewrite (seq_lift_raise _ _ _ _ Sw).
  destruct (hooks_started h); reflexivity.
Qed.

Lemma midrange_normalized (a b c d e f : DimensionScore) prs raw norm ev :
  calculate_prs a b c e f d = Ok (prs, raw, norm, ev) ->
  (forall s, In s [a; b; c; d; e; f] -> (2 < raw_score s < 3.5)%Q) ->
  (raw_score b < 3.25)%Q -> (raw_score f < 3.25)%Q ->
  generate_swot norm = Raise (PydanticValidationError "SWOT").
Proof.
  intros Sc M Mb Mf.
  destruct (calculate_prs_eq a b c e f d) as (p & C & _).
  rewrite Sc in C. injection C as _ _ -> _.
  assert (N : forall s, In s [a; b; c; d; e; f] ->
                (40 < raw_score s / 5 * 100 < 70)%Q).
  { intros s I. destruct (M s I) as [L U].
    assert (X : (raw_score s / 5 * 100 == raw_score s * 20)%Q) by field.
    rewrite X. split; lra. }
  apply swot_fails_iff. split; [|split].
  - intros k v I. simpl in I.
    destruct I as [X | [X | [X | [X | [X | [X | []]]]]]];
      injection X as _ <-; apply N; simpl; tauto.
  - change (dict_get _ "market_gravity" 0%Q) with (raw_score b / 5 * 100)%Q.
    assert (X : (raw_score b / 5 * 100 == raw_score b * 20)%Q) by field.
    rewrite X. lra.
  - change (dict_get _ "timing" 0%Q) with (raw_score f / 5 * 100)%Q.
    assert (X : (raw_score f / 5 * 100 == raw_score f * 20)%Q) by field.
    rewrite X. lra.
Qed.

End SynthesizerInPipeline.



(** ** The Aggregator, continued *)

Lemma composite_linear (tm mg ws sl ti ra : Q) :
  (composite tm mg ws sl ti ra
   == tm * 4 + mg * 5 + ws * 4 + sl * 3 + ti * 2 + ra * 2)%Q.
Proof. unfold composite. field. Qed.





(** ** The input model and the web interface *)

Lemma invention_input_cases (id ttl desc domain : string) (domains : list string) :
  (5 <= String.length ttl /\ 20 <= String.length (strip desc)
   /\ InventionInput_new id ttl desc domain domains
      = Ok {| idea_id := id; Models.title := ttl; description := desc;
              technical_domain := domain; application_domains := domains |})
  \/ ((String.length ttl < 5 \/ String.length (strip desc) < 20)
      /\ InventionInput_new id ttl desc domain domains
         = Raise (PydanticValidationError "InventionInput")).
Proof.
  unfold InventionInput_new.
  pose proof (length_strip desc) as L.
  destruct (Nat.leb 5 (String.length ttl)) eqn:T;
    [apply Nat.leb_le in T | apply Nat.leb_gt in T].
  - destruct (Nat.ltb (String.length (strip desc)) 20) eqn:D;
      [apply Nat.ltb_lt in D | apply Nat.ltb_ge in D].
    + right. rewrite andb_false_r. split; [now right | reflexivity].
    + left. assert (D' : Nat.leb 20 (String.length desc) = true)
        by (apply Nat.leb_le; lia).
      rewrite D'. simpl. auto.
  - right. split; [now left | reflexivity].
Qed.

(** An InventionInput is built exactly when the title has at least 5
    characters and the description at least 20 after trimming; otherwise
    the constructor raises the model's validation error.  The min_length
    of the description adds nothing to its validator. *)
Theorem X_invention_input_model (id ttl desc domain : string) (domains : list string) :
  (5 <= String.length ttl /\ 20 <= String.length (strip desc)
   /\ InventionInput_new id ttl desc domain domains
      = Ok {| idea_id := id; Models.title := ttl; description := desc;
              technical_domain := domain; application_domains := domains |})
  \/ ((String.length ttl < 5 \/ String.length (strip desc) < 20)
      /\ InventionInput_new id ttl desc domain domains
         = Raise (PydanticValidationError "InventionInput")).
Proof. exact (invention_input_cases id ttl desc domain domains). Qed.


Lemma rsplit1_absent (c : ascii) (s : string) :
  App.has_char c s = false -> App.rsplit1 c s = [s].
Proof.
  induction s as [|a r IH]; [reflexivity|].
  cbn [App.has_char App.rsplit1]. intros E.
  apply orb_false_iff in E as [E1 E2].
  rewrite (IH E2), E1. reflexivity.
Qed.

Lemma rsplit1_last (c : ascii) (x y : string) :
  App.has_char c y = false ->
  App.rsplit1 c (x ++ String c y) = [x; y].
Proof.
  intros N. induction x as [|a x IH].
  - change ("" ++ String c y) with (String c y). cbn [App.rsplit1].
    rewrite (rsplit1_absent c y N), Ascii.eqb_refl. reflexivity.
  - change (String a x ++ String c y) with (String a (x ++ String c y)).
    cbn [App.rsplit1]. rewrite IH. reflexivity.
Qed.

Lemma has_char_app (c : ascii) (x y : string) :
  App.has_char c (x ++ String c y) = true.
Proof.
  induction x as [|a x IH].
  - cbn. now rewrite Ascii.eqb_refl.
  - change (String a x ++ String c y) with (String a (x ++ String c y)).
    cbn [App.has_char]. rewrite IH. apply orb_true_r.
Qed.

Lemma last_occurrence (c : ascii) (s : string) :
  App.has_char c s = true ->
  exists x y, s = x ++ String c y /\ App.has_char c y = false.
Proof.
  induction s as [|a r IH]; [discriminate|].
  cbn [App.has_char]. intros E.
  destruct (App.has_char c r) eqn:R.
  - destruct (IH eq_refl) as (x & y & -> & N).
    exists (String a x), y. auto.
  - rewrite orb_false_r in E. apply Ascii.eqb_eq in E. subst a.
    exists "", r. auto.
Qed.

Lemma allowed_file_cases (filename : string) :
  (App.has_char "." filename = false /\ App.allowed_file filename = Ok false)
  \/ (exists stem ext,
        filename = stem ++ String "." ext /\ App.has_char "." ext = false
        /\ App.allowed_file filename
           = Ok (App.mem (App.lower ext) App.ALLOWED_EXTENSIONS)).
Proof.
  unfold App.allowed_file.
  destruct (App.has_char "." filename) eqn:D.
  - right. destruct (last_occurrence _ _ D) as (x & y & -> & N).
    exists x, y. split; [reflexivity|]. split; [exact N|].
    now rewrite (rsplit1_last "." x y N).
  - left. auto.
Qed.

Lemma allowed_file_ext (stem ext : string) :
  App.has_char "." ext = false ->
  App.allowed_file (stem ++ String "." ext)
  = Ok (App.mem (App.lower ext) App.ALLOWED_EXTENSIONS).
Proof.
  intros N. unfold App.allowed_file.
  now rewrite has_char_app, (rsplit1_last "." stem ext N).
Qed.

(** allowed_file never raises.  A name without a dot is refused; any
    other name is judged by what follows its last dot alone, compared
    without regard to case with the six allowed extensions, so a name
    that ends in a dot is refused. *)
Theorem X_allowed_file_looks_at_the_last_extension (filename stem ext : string) :
  (exists b, App.allowed_file filename = Ok b)
  /\ (App.has_char "." filename = false -> App.allowed_file filename = Ok false)
  /\ (App.has_char "." ext = false ->
      App.allowed_file (stem ++ String "." ext)
      = Ok (App.mem (App.lower ext) App.ALLOWED_EXTENSIONS))
  /\ App.allowed_file (stem ++ ".") = Ok false.
Proof.
  split; [|split; [|split]].
  - destruct (allowed_file_cases filename) as [[_ E] | (x & y & _ & _ & E)];
      rewrite E; eauto.
  - intros N. destruct (allowed_file_cases filename)
      as [[_ E] | (x & y & -> & _ & _)]; [exact E|].
    rewrite has_char_app in N. discriminate.
  - apply allowed_file_ext.
  - now rewrite (allowed_file_ext stem "" eq_refl).
Qed.

Lemma X_allowed_file_witness :
  App.allowed_file "notes" = Ok false
  /\ App.allowed_file "scan.tar.PDF" = Ok true
  /\ App.allowed_file "scan.pdf.exe" = Ok false.
Proof.
  split; [|split].
  - apply (proj1 (proj2 (X_allowed_file_looks_at_the_last_extension
                           "notes" "" ""))).
    reflexivity.
  - apply (proj1 (proj2 (proj2 (X_allowed_file_looks_at_the_last_extension
                                  "" "scan.tar" "PDF")))).
    reflexivity.
  - apply (proj1 (proj2 (proj2 (X_allowed_file_looks_at_the_last_extension
                                  "" "scan.pdf" "exe")))).
    reflexivity.
Defined.

(** ** The triage *)

Lemma unfence_returns (text : string) : exists u, unfence text = Ok u.
Proof.
  unfold unfence. destruct (startswith text "```") eqn:S.
  - destruct (split_second text S) as [t T]. unfold fence in T. rewrite T.
    cbn [bind]. eauto.
  - cbn [bind]. eauto.
Qed.

Lemma is_depth_cases (a : string) :
  is_depth a = true -> a = "triage" \/ a = "full".
Proof.
  unfold is_depth. intros E. apply orb_true_iff in E as [E | E];
    apply String.eqb_eq in E; auto.
Qed.

Lemma TriagedInvention_new_cases id c k d a :
  (exists t, TriagedInvention_new id c k d a = Ok t
             /\ t_idea_id t = id
             /\ (analysis_depth t = "triage" \/ analysis_depth t = "full")
             /\ c = JStr (core_concept t) /\ a = JStr (analysis_depth t)
             /\ as_str_list k = Some (technical_keywords t)
             /\ as_str_list d = Some (t_application_domains t))
  \/ TriagedInvention_new id c k d a
     = Raise (PydanticValidationError "TriagedInvention").
Proof.
  unfold TriagedInvention_new.
  destruct c; cbn [as_str]; auto.
  destruct (as_str_list k) as [ks|]; auto.
  destruct (as_str_list d) as [ds|]; auto.
  destruct a; cbn [as_str]; auto.
  destruct (is_depth s0) eqn:D; auto.
  left. eexists. split; [reflexivity|]. cbn.
  repeat split; auto. now apply is_depth_cases.
Qed.

Section Triage.
Context `{Builtins}.

Lemma triage_cases (invention : InventionInput) (response : completion) :
  (exists t, triage invention response = Ok t
             /\ t_idea_id t = idea_id invention
             /\ (analysis_depth t = "triage" \/ analysis_depth t = "full"))
  \/ (exists e, triage invention response = Raise e
                /\ (e = APIError \/ e = AttributeError \/ e = JSONDecodeError
                    \/ e = PydanticValidationError "TriagedInvention")).
Proof.
  unfold triage. destruct response as [text| |]; cbn [content_strip bind].
  - destruct (unfence_returns (strip text)) as [u ->]. cbn [bind].
    unfold loads. destruct (json_loads u) as [v|]; cbn [bind].
    + destruct v; cbn [get bind]; try (right; eexists; split; [reflexivity|]; tauto).
      destruct (TriagedInvention_new_cases (idea_id invention)
                  (dict_get kv "core_concept" (JStr ""))
                  (dict_get kv "technical_keywords" (JArr []))
                  (dict_get kv "application_domains" (JArr []))
                  (dict_get kv "analysis_depth" (JStr "full")))
        as [(t & E & I & D & _) | E]; rewrite E.
      * left. eauto.
      * right. eexists. split; [reflexivity|]. tauto.
    + right. eexists. split; [reflexivity|]. tauto.
  - right. eexists. split; [reflexivity|]. tauto.
  - right. eexists. split; [reflexivity|]. tauto.
Qed.

Lemma triage_on_dict (invention : InventionInput) (text u : string) d :
  unfence (strip text) = Ok u -> json_loads u = Some (JObj d) ->
  triage invention (Content text)
  = TriagedInvention_new (idea_id invention)
      (dict_get d "core_concept" (JStr ""))
      (dict_get d "technical_keywords" (JArr []))
      (dict_get d "application_domains" (JArr []))
      (dict_get d "analysis_depth" (JStr "full")).
Proof.
  intros U J. unfold triage. cbn [content_strip bind]. rewrite U. cbn [bind].
  unfold loads. rewrite J. reflexivity.
Qed.

End Triage.

(** triage either returns a TriagedInvention that carries the idea_id of
    the input and an analysis_depth of triage or full, or raises one of
    four exceptions: that of the failed call, AttributeError for a message
    without content or an answer that is not a JSON object,
    JSONDecodeError, or the model's validation error.  Every field has a
    default: an empty JSON object gives an empty concept, no keywords, no
    domains (the input's own application_domains are not carried over)
    and depth full; a depth that is not one of the two literals is
    rejected. *)
Theorem X_triage_outcome `{Builtins} (invention : InventionInput)
    (response : completion) :
  ((exists t, triage invention response = Ok t
              /\ t_idea_id t = idea_id invention
              /\ (analysis_depth t = "triage" \/ analysis_depth t = "full"))
   \/ (exists e, triage invention response = Raise e
                 /\ (e = APIError \/ e = AttributeError \/ e = JSONDecodeError
                     \/ e = PydanticValidationError "TriagedInvention")))
  /\ (forall text u, response = Content text ->
        unfence (strip text) = Ok u -> json_loads u = Some (JObj []) ->
        triage invention response
        = Ok {| t_idea_id := idea_id invention; core_concept := "";
                technical_keywords := []; t_application_domains := [];
                analysis_depth := "full" |})
  /\ (forall text u d depth, response = Content text ->
        unfence (strip text) = Ok u -> json_loads u = Some (JObj d) ->
        assoc "analysis_depth" d = Some depth ->
        depth <> JStr "triage" -> depth <> JStr "full" ->
        triage invention response
        = Raise (PydanticValidationError "TriagedInvention")).
Proof.
  split; [apply triage_cases|]. split.
  - intros text u -> U J. now rewrite (triage_on_dict invention text u [] U J).
  - intros text u d depth -> U J A N1 N2.
    rewrite (triage_on_dict invention text u d U J).
    destruct (TriagedInvention_new_cases (idea_id invention)
                (dict_get d "core_concept" (JStr ""))
                (dict_get d "technical_keywords" (JArr []))
                (dict_get d "application_domains" (JArr []))
                (dict_get d "analysis_depth" (JStr "full")))
      as [(t & _ & _ & D & _ & Ea & _) | E]; [|exact E].
    unfold dict_get in Ea. rewrite A in Ea. subst depth.
    destruct D as [D | D]; rewrite D in *; contradiction.
Qed.

Lemma X_triage_outcome_witness :
  triage invention (answer "{}")
  = Ok {| t_idea_id := "IDEA-001"; core_concept := "";
          technical_keywords := []; t_application_domains := [];
          analysis_depth := "full" |}.
Proof.
  apply (proj1 (proj2 (X_triage_outcome invention (answer "{}"))) "{}" "{}");
    reflexivity.
Defined.

(** ** The hooks' accounting *)

Lemma on_agent_end_known (self : PipelineHooks) (name : string) (elapsed : Q)
    (i o : Z) (m : AgentMetrics) :
  assoc name (metrics self) = Some m ->
  let h := on_agent_end self name elapsed i o in
  total_tokens h = (total_tokens self + (i + o))%Z
  /\ (total_cost h == total_cost self + inject_Z (15 * i + 60 * o) / 1000000)%Q
  /\ assoc name (metrics h)
     = Some {| agent_name := agent_name m; duration_seconds := elapsed;
               tokens_used := i + o; input_tokens := i; output_tokens := o |}
  /\ map fst (metrics h) = map fst (metrics self)
  /\ (forall n, n <> name -> assoc n (metrics h) = assoc n (metrics self))
  /\ all_flags h = all_flags self.
Proof.
  intros A. unfold on_agent_end. rewrite A. cbv zeta.
  cbn [metrics total_tokens total_cost all_flags tokens_used].
  split; [reflexivity|]. split.
  { unfold cost_per_1k_input, cost_per_1k_output.
    rewrite inject_Z_plus, !inject_Z_mult. field. }
  split; [apply assoc_setitem_same|].
  split; [now apply (keys_setitem_present _ _ _ m)|].
  split; [|reflexivity].
  intros n N. now apply assoc_setitem_other.
Qed.



(** ** The session manager *)

Lemma get_update (self : App.SessionManager) (i id : string)
    (f : App.Session -> App.Session) :
  App.get_session (App.update self i f) id
  = if String.eqb id i then option_map f (App.get_session self i)
    else App.get_session self id.
Proof.
  unfold App.update, App.get_session.
  destruct (assoc i (App.sessions self)) as [s|] eqn:A; cbn [App.sessions].
  - destruct (String.eqb id i) eqn:E.
    + apply String.eqb_eq in E. subst id. cbn. apply assoc_setitem_same.
    + apply String.eqb_neq in E. now apply assoc_setitem_other.
  - destruct (String.eqb id i) eqn:E; [|reflexivity].
    apply String.eqb_eq in E. subst id. now rewrite A.
Qed.

Lemma update_frame (self : App.SessionManager) (i : string)
    (f : App.Session -> App.Session) :
  map fst (App.sessions (App.update self i f)) = map fst (App.sessions self)
  /\ App.current_session_id (App.update self i f) = App.current_session_id self.
Proof.
  unfold App.update.
  destruct (assoc i (App.sessions self)) as [s|] eqn:A; cbn; [|auto].
  split; [now apply (keys_setitem_present _ _ _ s) | reflexivity].
Qed.

Lemma perform_session (self : App.SessionManager) (c : call) (id : string) :
  map fst (App.sessions (perform self c)) = map fst (App.sessions self)
  /\ App.current_session_id (perform self c) = App.current_session_id self
  /\ match App.get_session self id with
     | None => App.get_session (perform self c) id = None
     | Some s =>
         exists s',
           App.get_session (perform self c) id = Some s'
           /\ App.session_progress s'
              = (App.session_progress s ++ reported id c)%list
           /\ App.session_start_time s' = App.session_start_time s
     end.
Proof.
  destruct c as [i m l n | i st | i r | i e]; cbn [perform reported];
    unfold App.update_progress, App.set_status, App.set_result, App.set_error;
    (split; [apply update_frame|]); (split; [apply update_frame|]);
    rewrite get_update; rewrite (String.eqb_sym id i);
    destruct (String.eqb i id) eqn:E;
    try (apply String.eqb_eq in E; subst i);
    destruct (App.get_session self id) as [s|]; cbn;
    try reflexivity;
    try (eexists; split; [reflexivity|]; cbn; rewrite ?app_nil_r; now split).
Qed.

Lemma perform_all (calls : list call) (self : App.SessionManager) (id : string) :
  let after := fold_left perform calls self in
  map fst (App.sessions after) = map fst (App.sessions self)
  /\ App.current_session_id after = App.current_session_id self
  /\ match App.get_session self id with
     | None => App.get_session after id = None
     | Some s =>
         exists s',
           App.get_session after id = Some s'
           /\ App.session_progress s'
              = (App.session_progress s ++ flat_map (reported id) calls)%list
           /\ App.session_start_time s' = App.session_start_time s
     end.
Proof.
  revert self. induction calls as [|c r IH]; intros self; cbn zeta.
  - cbn. split; [reflexivity|]. split; [reflexivity|].
    destruct (App.get_session self id) as [s|]; [|reflexivity].
    exists s. now rewrite app_nil_r.
  - cbn [fold_left flat_map].
    destruct (IH (perform self c)) as (K & C & G). cbv zeta in K, C, G.
    destruct (perform_session self c id) as (K1 & C1 & G1).
    split; [now rewrite K|]. split; [now rewrite C|].
    destruct (App.get_session self id) as [s|].
    + destruct G1 as (s1 & E1 & P1 & T1). rewrite E1 in G.
      destruct G as (s' & E' & P' & T').
      exists s'. split; [exact E'|].
      split; [now rewrite P', P1, app_assoc | now rewrite T', T1].
    + now rewrite G1 in G.
Qed.

Lemma create_session_get (self : App.SessionManager) (id now id' : string) :
  App.get_session (App.create_session self id now) id'
  = if String.eqb id' id
    then Some {| App.session_status := "pending"; App.session_progress := [];
                 App.session_result := None; App.session_error := None;
                 App.session_start_time := now |}
    else App.get_session self id'.
Proof.
  unfold App.create_session, App.get_session. cbn [App.sessions].
  destruct (String.eqb id' id) eqn:E.
  - apply String.eqb_eq in E. subst id'. apply assoc_setitem_same.
  - apply String.eqb_neq in E. now apply assoc_setitem_other.
Qed.

(** Whatever updates follow the creation of a session, its progress is
    exactly the messages reported for it since, in the order of the
    calls, and its start time is the one of its creation; the updates
    create no session, so an id that was never created stays unknown and
    get_session keeps returning the empty dict for it; and they leave
    current_session_id alone. *)
Theorem X_session_progress_is_the_reported_messages
    (self : App.SessionManager) (id now unknown : string) (calls : list call) :
  let created := App.create_session self id now in
  let after := fold_left perform calls created in
  (exists s,
     App.get_session after id = Some s
     /\ App.session_progress s = flat_map (reported id) calls
     /\ App.session_start_time s = now)
  /\ map fst (App.sessions after) = map fst (App.sessions created)
  /\ App.current_session_id after = Some id
  /\ (App.get_session created unknown = None ->
      App.get_session after unknown = None).
Proof.
  cbv zeta.
  destruct (perform_all calls (App.create_session self id now) id) as (K & C & G).
  cbv zeta in K, C, G.
  rewrite create_session_get, String.eqb_refl in G.
  destruct G as (s & E & P & T).
  split; [exists s; auto|]. split; [exact K|]. split; [exact C|].
  intros U.
  destruct (perform_all calls (App.create_session self id now) unknown)
    as (_ & _ & G').
  cbv zeta in G'. now rewrite U in G'.
Qed.

Lemma X_session_progress_witness :
  let after :=
    fold_left perform
      [ UpdateProgress "eval_1" "Processing" "info" "t1";
        SetStatus "eval_2" "failed";
        UpdateProgress "eval_2" "lost" "info" "t2";
        SetStatus "eval_1" "completed" ]
      (App.create_session App.new_manager "eval_1" "t0") in
  App.get_session after "eval_2" = None.
Proof.
  apply (proj2 (proj2 (proj2
           (X_session_progress_is_the_reported_messages
              App.new_manager "eval_1" "t0" "eval_2" _)))).
  reflexivity.
Defined.

(** ** The Reviewer *)

Section Reviewer.
Context `{Builtins}.

Lemma review_cases raw ev (response : completion) :
  (exists c f, review raw ev response = Ok (c, f))
  \/ (exists e, review raw ev response = Raise e
                /\ (e = APIError \/ e = AttributeError \/ e = JSONDecodeError)).
Proof.
  unfold review. destruct response as [text| |]; cbn [content_strip bind].
  - destruct (unfence_returns (strip text)) as [u ->]. cbn [bind].
    unfold loads. destruct (json_loads u) as [v|]; cbn [bind].
    + destruct v; cbn [get bind];
        try (right; eexists; split; [reflexivity|]; tauto).
      left. eauto.
    + right. eexists. split; [reflexivity|]. tauto.
  - right. eexists. split; [reflexivity|]. tauto.
  - right. eexists. split; [reflexivity|]. tauto.
Qed.

Lemma review_on_dict raw ev (text u : string) d :
  unfence (strip text) = Ok u -> json_loads u = Some (JObj d) ->
  review raw ev (Content text)
  = Ok (dict_get d "confidence" (JStr "medium"), dict_get d "flags" (JArr [])).
Proof.
  intros U J. unfold review. cbn [content_strip bind]. rewrite U. cbn [bind].
  unfold loads. rewrite J. reflexivity.
Qed.

End Reviewer.

(** review either returns or raises the exception of the failed call,
    AttributeError or JSONDecodeError; it checks nothing about the answer:
    from a JSON object it returns the confidence and the flags as they
    are, whatever their type, with medium and the empty list standing in
    for an absent key. *)
Theorem X_review_returns_the_answer_unchecked `{Builtins}
    (raw : list (string * Q)) (ev : list (string * Evidence))
    (response : completion) :
  ((exists c f, review raw ev response = Ok (c, f))
   \/ (exists e, review raw ev response = Raise e
                 /\ (e = APIError \/ e = AttributeError \/ e = JSONDecodeError)))
  /\ (forall text u d, response = Content text ->
        unfence (strip text) = Ok u -> json_loads u = Some (JObj d) ->
        review raw ev response
        = Ok (dict_get d "confidence" (JStr "medium"),
              dict_get d "flags" (JArr []))).
Proof.
  split; [apply review_cases|].
  intros text u d -> U J. exact (review_on_dict raw ev text u d U J).
Qed.

Lemma X_review_witness :
  review [] [] (answer "{}") = Ok (JStr "medium", JArr []).
Proof.
  apply (proj2 (X_review_returns_the_answer_unchecked [] [] (answer "{}"))
           "{}" "{}" []);
    reflexivity.
Defined.
